(** * Checkout and payment confirmation of the restaurant ordering backend

    A shallow embedding of the route handlers

    - [api/customer/checkout]        (POST: cart -> order),
    - [api/customer/orders/[code]]   (GET: order detail, POST: mark PAID),
    - [api/cart]                     (DELETE: clear the cart),

    over an explicit model of the relational store that the handlers reach
    through the Prisma client.  Every handler is a function from the store
    to a response and a new store; a thrown error inside [$transaction]
    leaves the store as it was (rollback).  The handlers use JavaScript
    numbers on integers only (prices, quantities, stock, counts); a number
    is kept as the integer it holds, and the sums and products that the
    checkout computes round as doubles do, see [JS.toNumber]. *)

From stdpp Require Import gmap strings list fin_maps pretty.
From Stdlib Require Import ZArith Lia Ascii.

Local Open Scope string_scope.
Local Open Scope Z_scope.

(** ** JavaScript strings and numbers as the handlers use them *)

Module JS.

(** [String(n)] on an integer: its decimal rendering. *)
Definition String_ (n : Z) : string := pretty n.

(** [pad.repeat(k)] *)
Fixpoint repeat_ (pad : string) (k : nat) : string :=
  match k with
  | O => ""
  | S k' => pad +:+ repeat_ pad k'
  end.

(** [s.padStart(targetLength, padString)]: when [s] is shorter than the
    target, the pad string is repeated and truncated to fill the gap on
    the left; otherwise (or when the pad string is empty) [s] is
    returned as it is. *)
Definition padStart (targetLength : nat) (padString : string) (s : string) : string :=
  let len := String.length s in
  if (targetLength <=? len)%nat then s
  else if (String.length padString =? 0)%nat then s
  else
    let fillLen := (targetLength - len)%nat in
    String.substring 0 fillLen (repeat_ padString fillLen) +:+ s.

(** [s.slice(0, n)] *)
Definition slice0 (n : nat) (s : string) : string := String.substring 0 n s.

(** A JavaScript number is an IEEE 754 double.  [toNumber z] is the
    double nearest to the integer [z], ties to the even significand: an
    integer below 2^53 in magnitude is a double; above, the 53 leading
    bits are kept and the rest is rounded off.  (Doubles are finite up to
    2^1024, far above what sums of products of stored integers reach.) *)
Definition toNumber (z : Z) : Z :=
  let a := Z.abs z in
  if a <? 2 ^ 53 then z
  else
    let e := Z.log2 a - 52 in
    let q := a / 2 ^ e in
    let r := a mod 2 ^ e in
    let half := 2 ^ (e - 1) in
    let q' := if r <? half then q
              else if half <? r then q + 1
              else if Z.even q then q else q + 1 in
    Z.sgn z * (q' * 2 ^ e).

(** [x + y], [x - y] and [x * y] on numbers that hold integers *)
Definition add (x y : Z) : Z := toNumber (x + y).
Definition sub (x y : Z) : Z := toNumber (x - y).
Definition mul (x y : Z) : Z := toNumber (x * y).

(** [Number.isSafeInteger] on an integer *)
Definition isSafeInteger (z : Z) : bool := Z.abs z <=? 2 ^ 53 - 1.

(** Truthiness of an optional string ([undefined] and [""] are falsy). *)
Definition truthy (s : option string) : bool :=
  match s with
  | None => false
  | Some s' => negb (String.length s' =? 0)%nat
  end.

End JS.

(** ** Local calendar time

    A [Date] is kept as its local-time fields, which is all the handlers
    read ([getFullYear], [getMonth], [getDate]) or write ([setHours]). *)

Module Date.

Record t := mk {
  fullYear : Z;
  month : Z;          (* 0 .. 11, as [getMonth] returns it *)
  date : Z;           (* 1 .. 31 *)
  hours : Z;
  minutes : Z;
  seconds : Z;
  milliseconds : Z
}.

Definition setHours (h m s ms : Z) (d : t) : t :=
  mk (fullYear d) (month d) (date d) h m s ms.

Definition lex (c1 c2 : comparison) : comparison :=
  match c1 with Eq => c2 | _ => c1 end.

Definition compare (a b : t) : comparison :=
  lex (fullYear a ?= fullYear b)
 (lex (month a ?= month b)
 (lex (date a ?= date b)
 (lex (hours a ?= hours b)
 (lex (minutes a ?= minutes b)
 (lex (seconds a ?= seconds b)
      (milliseconds a ?= milliseconds b)))))).

(** [gte] and [lte] of a Prisma date filter *)
Definition gte (a b : t) : bool :=
  match compare a b with Lt => false | _ => true end.
Definition lte (a b : t) : bool :=
  match compare a b with Gt => false | _ => true end.

(** A date whose fields are in their calendar ranges, with a four-digit
    year. *)
Definition wf (d : t) : Prop :=
  1000 <= fullYear d <= 9999 /\ 0 <= month d <= 11 /\ 1 <= date d <= 31 /\
  0 <= hours d <= 23 /\ 0 <= minutes d <= 59 /\ 0 <= seconds d <= 59 /\
  0 <= milliseconds d <= 999.

End Date.

(** ** Data model (the tables the handlers touch) *)

Inductive Category := MAIN | APPETIZER | DRINK.
Inductive DiningType := DINE_IN | TAKE_AWAY.
Inductive PaymentChoice := CASH | CASHLESS.
Inductive OrderStatus := AWAITING_PAYMENT | PAID.

Module Product.
(** A row of the product table; its [id] is the key of the row in
    [products] below. *)
Record t := mk {
  name : string;
  price : Z;
  stock : Z;
  isActive : bool;
  imageUrl : option string;
  category : Category
}.

(** [data: { stock: { decrement: q } }] *)
Definition decrementStock (q : Z) (p : t) : t :=
  mk (name p) (price p) (stock p - q) (isActive p) (imageUrl p) (category p).

Definition withPrice (v : Z) (p : t) : t :=
  mk (name p) v (stock p) (isActive p) (imageUrl p) (category p).
End Product.

Module CartItem.
Record t := mk {
  id : string;
  productId : string;
  qty : Z
}.
End CartItem.

Module Cart.
Record t := mk {
  id : string;
  items : list CartItem.t
}.
End Cart.

Module OrderItem.
Record t := mk {
  productId : string;
  qty : Z;
  price : Z;
  total : Z
}.
End OrderItem.

Module Order.
Record t := mk {
  id : string;
  code : string;
  queueNumber : string;
  diningType : DiningType;
  status : OrderStatus;
  subtotal : Z;
  discount : Z;
  tax : Z;
  total : Z;
  customerId : string;
  createdAt : Date.t;
  closedAt : option Date.t;
  items : list OrderItem.t
}.

(** [data: { status: "PAID", closedAt: new Date() }] *)
Definition markPaid (now : Date.t) (o : t) : t :=
  mk (id o) (code o) (queueNumber o) (diningType o) PAID
     (subtotal o) (discount o) (tax o) (total o) (customerId o)
     (createdAt o) (Some now) (items o).
End Order.

(** The store.  Products are keyed by their primary key, carts by their
    unique [customerId]; orders are kept in insertion order. *)
Record DB := mkDB {
  products : gmap string Product.t;
  carts : gmap string Cart.t;
  orders : list Order.t
}.

Definition setProducts (ps : gmap string Product.t) (db : DB) : DB :=
  mkDB ps (carts db) (orders db).
Definition setCarts (cs : gmap string Cart.t) (db : DB) : DB :=
  mkDB (products db) cs (orders db).
Definition setOrders (os : list Order.t) (db : DB) : DB :=
  mkDB (products db) (carts db) os.

(** ** HTTP responses *)

Record OrderDetailItem := mkDetailItem {
  di_productName : string;
  di_qty : Z;
  di_price : Z;
  di_total : Z
}.

Inductive Body :=
| ErrorBody (error : string)                 (* { error } *)
| InvalidPayload (error : string)            (* { error, issues } *)
| PlainText (text : string)
| CheckoutCash (orderId code : string) (total : Z)
    (* { ok: true, orderId, code, total, payment: { method: "CASH" } } *)
| CheckoutCashless (orderId code mid : string) (total : Z) (snapToken : string)
    (* { ok: true, orderId, code, mid, total,
         payment: { method: "CASHLESS", snapToken } } *)
| OkBody                                     (* { ok: true } *)
| OkAlready                                  (* { ok: true, already: true } *)
| OrderDetail (code : string) (status : OrderStatus) (total : Z)
    (items : list OrderDetailItem).

Record Response := mkResponse {
  status : nat;
  body : Body
}.

(** [NextResponse.json(body)] and [NextResponse.json(body, { status })] *)
Definition json (b : Body) : Response := mkResponse 200 b.
Definition jsonStatus (b : Body) (st : nat) : Response := mkResponse st b.

(** ** The Prisma calls of the handlers

    A call that throws (unique or primary-key violation, record to update
    or delete not found) is [None]. *)

Module Prisma.

(** One line of [cart.items] as selected by the checkout: the line's
    quantity joined with its product row ([it.product.id] is the key the
    join went through). *)
Record Line := mkLine {
  qty : Z;
  productId : string;
  product : Product.t
}.

Definition joinProduct (db : DB) (it : CartItem.t) : option Line :=
  p ← products db !! CartItem.productId it;
  Some (mkLine (CartItem.qty it) (CartItem.productId it) p).

(** [prisma.cart.findUnique({ where: { customerId }, select: { items:
    { select: { qty, product } } } })].  [None] is "no cart"; the
    foreign key from a cart line to its product makes the join total, so
    a line whose product row is missing cannot be stored; on such a
    store the read is modelled as throwing ([Some None]). *)
Definition cart_findUnique (db : DB) (customerId : string)
  : option (option (list Line)) :=
  match carts db !! customerId with
  | None => None
  | Some c => Some (mapM (joinProduct db) (Cart.items c))
  end.

(** [tx.cart.delete({ where: { customerId } })] *)
Definition cart_delete (customerId : string) (db : DB) : option DB :=
  match carts db !! customerId with
  | None => None
  | Some _ => Some (setCarts (delete customerId (carts db)) db)
  end.

(** [prisma.order.count({ where: { createdAt: { gte, lte } } })] *)
Definition order_count (db : DB) (gte lte : Date.t) : nat :=
  length (List.filter
            (fun o => Date.gte (Order.createdAt o) gte
                      && Date.lte (Order.createdAt o) lte)
            (orders db)).

(** [prisma.order.findUnique({ where: { code }, include: { items } })] *)
Definition order_findUnique (db : DB) (code : string) : option Order.t :=
  List.find (fun o => String.eqb (Order.code o) code) (orders db).

(** [prisma.order.findFirst({ where: { code, customerId } })] *)
Definition order_findFirst (db : DB) (code customerId : string)
  : option Order.t :=
  List.find (fun o => String.eqb (Order.code o) code
                      && String.eqb (Order.customerId o) customerId)
            (orders db).

(** [tx.order.create({ data })]: the primary key [id] and the unique
    [code] reject a duplicate. *)
Definition order_create (o : Order.t) (db : DB) : option DB :=
  if existsb (fun o' => String.eqb (Order.id o') (Order.id o)
                        || String.eqb (Order.code o') (Order.code o))
             (orders db)
  then None
  else Some (setOrders (orders db ++ [o]) db).

(** [tx.order.update({ where: { id }, data })]: the rows with this [id]
    are rewritten; no such row is an error. *)
Definition order_update (id : string) (f : Order.t -> Order.t) (db : DB)
  : option DB :=
  if existsb (fun o => String.eqb (Order.id o) id) (orders db)
  then Some (setOrders
               (map (fun o => if String.eqb (Order.id o) id then f o else o)
                    (orders db)) db)
  else None.

(** [tx.product.update({ where: { id }, data: { stock: { decrement } } })] *)
Definition product_decrement (id : string) (q : Z) (db : DB) : option DB :=
  match products db !! id with
  | None => None
  | Some p =>
      Some (setProducts (<[id := Product.decrementStock q p]> (products db)) db)
  end.

End Prisma.

(** What a request reads from outside the store: the clock, the id the
    database generates for a new order row, the process environment and
    the payment gateway.  A checkout reads the clock several times (for
    the bounds of the day, for each part of the code's date, and at the
    insert); [now] stands for all of these reads, which are taken to fall
    on one instant. *)
Record SnapParams := mkSnapParams {
  order_id : string;
  gross_amount : Z;
  credit_card_secure : bool;
  custom_field1 : string;
  custom_field2 : string
}.

Record Env := mkEnv {
  now : Date.t;
  newOrderId : string;
  MIDTRANS_IS_PRODUCTION : option string;
  MIDTRANS_SERVER_KEY : option string;
  (** [new midtransClient.Snap({ isProduction, serverKey })
        .createTransactionToken(params)]; [None] when the call throws *)
  createTransactionToken : bool -> string -> SnapParams -> option string
}.

(** ** [api/customer/checkout] *)

Module Checkout.

(** The JSON body as far as the schema looks at it (a field that is
    absent or not a string is [None]; a body that does not parse is the
    empty object). *)
Record RawBody := mkRawBody {
  raw_diningType : option string;
  raw_paymentChoice : option string
}.

Record Request := mkRequest {
  user : option string;     (* [user?.id] of [getCurrentUser] *)
  rawBody : RawBody
}.

Definition parseDiningType (s : option string) : option DiningType :=
  match s with
  | None => None
  | Some v =>
      if String.eqb v "DINE_IN" then Some DINE_IN
      else if String.eqb v "TAKE_AWAY" then Some TAKE_AWAY
      else None
  end.

Definition parsePaymentChoice (s : option string) : option PaymentChoice :=
  match s with
  | None => None
  | Some v =>
      if String.eqb v "CASH" then Some CASH
      else if String.eqb v "CASHLESS" then Some CASHLESS
      else None
  end.

(** [bodySchema.safeParse(json)] *)
Definition bodySchema (raw : RawBody) : option (DiningType * PaymentChoice) :=
  d ← parseDiningType (raw_diningType raw);
  c ← parsePaymentChoice (raw_paymentChoice raw);
  Some (d, c).

Definition startOfDay (d : Date.t) : Date.t := Date.setHours 0 0 0 0 d.
Definition endOfDay (d : Date.t) : Date.t := Date.setHours 23 59 59 999 d.

Definition getTodayQueueNumber (now : Date.t) (db : DB) : string :=
  let todayStart := startOfDay now in
  let todayEnd := endOfDay now in
  let count := Prisma.order_count db todayStart todayEnd in
  JS.padStart 3 "0" (JS.String_ (Z.of_nat count + 1)).

Definition makeOrderCode (now : Date.t) (queueNumber : string) : string :=
  let yyyy := JS.String_ (Date.fullYear now) in
  let mm := JS.padStart 2 "0" (JS.String_ (Date.month now + 1)) in
  let dd := JS.padStart 2 "0" (JS.String_ (Date.date now)) in
  "ORD-" +:+ yyyy +:+ mm +:+ dd +:+ "-" +:+ queueNumber.

Definition serverError : Response :=
  jsonStatus (ErrorBody "Terjadi kesalahan pada server.") 500.

(** The validation loop over [cart.items]: [Some r] is the early
    [return r]. *)
Fixpoint validate (items : list Prisma.Line) : option Response :=
  match items with
  | [] => None
  | it :: rest =>
      if negb (Product.isActive (Prisma.product it)) then
        Some (jsonStatus
                (ErrorBody ("Produk " +:+ Product.name (Prisma.product it)
                            +:+ " tidak tersedia.")) 409)
      else if Prisma.qty it >? Product.stock (Prisma.product it) then
        Some (jsonStatus
                (ErrorBody ("Stok " +:+ Product.name (Prisma.product it)
                            +:+ " tidak mencukupi.")) 409)
      else validate rest
  end.

(** [cart.items.reduce((s, it) => s + it.product.price * it.qty, 0)] *)
Definition subtotalOf (items : list Prisma.Line) : Z :=
  fold_left (fun s it =>
               JS.add s (JS.mul (Product.price (Prisma.product it))
                                (Prisma.qty it)))
            items 0.

(** What the handler holds when it enters [$transaction]. *)
Record Prepared := mkPrepared {
  customerId : string;
  diningType : DiningType;
  paymentChoice : PaymentChoice;
  items : list Prisma.Line;
  subtotal : Z;
  discount : Z;
  tax : Z;
  total : Z
}.

(** The handler up to the transaction: authentication, payload, cart
    read, validation, pricing.  [inl r] is an early [return r]. *)
Definition prepare (req : Request) (db : DB) : Response + Prepared :=
  match user req with
  | None => inl (jsonStatus (ErrorBody "Unauthorized") 401)
  | Some uid =>
    if negb (JS.truthy (Some uid)) then
      inl (jsonStatus (ErrorBody "Unauthorized") 401)
    else
    match bodySchema (rawBody req) with
    | None => inl (jsonStatus (InvalidPayload "Payload tidak valid") 422)
    | Some (diningType, paymentChoice) =>
      match Prisma.cart_findUnique db uid with
      | None => inl (jsonStatus (ErrorBody "Keranjang kosong.") 409)
      | Some None => inl serverError
      | Some (Some items) =>
        if (length items =? 0)%nat then
          inl (jsonStatus (ErrorBody "Keranjang kosong.") 409)
        else
        match validate items with
        | Some r => inl r
        | None =>
          let subtotal := subtotalOf items in
          let discount := 0 in
          let tax := 0 in
          let total := JS.add (JS.sub subtotal discount) tax in
          inr (mkPrepared uid diningType paymentChoice items
                          subtotal discount tax total)
        end
      end
    end
  end.

Definition orderItemOf (it : Prisma.Line) : OrderItem.t :=
  OrderItem.mk (Prisma.productId it) (Prisma.qty it)
               (Product.price (Prisma.product it))
               (JS.mul (Product.price (Prisma.product it)) (Prisma.qty it)).

(** The body of the [$transaction] callback after the queue number has
    been read: create the order with its lines, delete the cart.
    [None]: one of the two calls threw and nothing is committed. *)
Definition transaction (env : Env) (p : Prepared) (queueNumber : string)
    (db : DB) : option (Order.t * DB) :=
  let code := makeOrderCode (now env) queueNumber in
  let order :=
    Order.mk (newOrderId env) code queueNumber (diningType p)
             AWAITING_PAYMENT (subtotal p) (discount p) (tax p) (total p)
             (customerId p) (now env) None (map orderItemOf (items p)) in
  db1 ← Prisma.order_create order db;
  db2 ← Prisma.cart_delete (customerId p) db1;
  Some (order, db2).

(** The handler after the commit: the CASH answer, or the Snap token. *)
Definition payment (env : Env) (p : Prepared) (created : Order.t) : Response :=
  match paymentChoice p with
  | CASH =>
      json (CheckoutCash (Order.id created) (Order.code created)
                         (Order.total created))
  | CASHLESS =>
      let isProduction :=
        match MIDTRANS_IS_PRODUCTION env with
        | Some v => String.eqb v "true"
        | None => false
        end in
      match MIDTRANS_SERVER_KEY env with
      | None =>
          jsonStatus (ErrorBody "MIDTRANS_SERVER_KEY tidak dikonfigurasi.") 500
      | Some serverKey =>
        if negb (JS.truthy (Some serverKey)) then
          jsonStatus (ErrorBody "MIDTRANS_SERVER_KEY tidak dikonfigurasi.") 500
        else
          let midtransOrderId :=
            Order.code created +:+ "-" +:+ JS.slice0 8 (Order.id created) in
          let snapParams :=
            mkSnapParams midtransOrderId (Order.total created) true
                         (Order.id created) (Order.code created) in
          match createTransactionToken env isProduction serverKey snapParams with
          | None => serverError
          | Some snapToken =>
              json (CheckoutCashless (Order.id created) (Order.code created)
                                     midtransOrderId (Order.total created)
                                     snapToken)
          end
      end
  end.

(** The handler from the point where the queue number is known. *)
Definition afterCount (env : Env) (p : Prepared) (queueNumber : string)
    (db : DB) : Response * DB :=
  match transaction env p queueNumber db with
  | None => (serverError, db)
  | Some (created, db') => (payment env p created, db')
  end.

(** The whole handler, run without another request in between. *)
Definition POST (env : Env) (req : Request) (db : DB) : Response * DB :=
  match prepare req db with
  | inl r => (r, db)
  | inr p => afterCount env p (getTodayQueueNumber (now env) db) db
  end.

End Checkout.

(** ** [api/customer/orders/[code]] *)

Module OrderByCode.

Definition serverError : Response := jsonStatus (ErrorBody "Server error") 500.
Definition notFound : Response := jsonStatus (ErrorBody "Not found") 404.

(** One line of the answer: quantity, price and total are the order
    line's own columns, the name is read through the product relation. *)
Definition detailItem (db : DB) (it : OrderItem.t) : option OrderDetailItem :=
  p ← products db !! OrderItem.productId it;
  Some (mkDetailItem (Product.name p) (OrderItem.qty it)
                     (OrderItem.price it) (OrderItem.total it)).

Definition GET (user : option string) (code : string) (db : DB) : Response :=
  match user with
  | None => jsonStatus (ErrorBody "Unauthorized") 401
  | Some uid =>
    if negb (JS.truthy (Some uid)) then
      jsonStatus (ErrorBody "Unauthorized") 401
    else
    match Prisma.order_findFirst db code uid with
    | None => notFound
    | Some order =>
      match mapM (detailItem db) (Order.items order) with
      | None => serverError
      | Some items =>
          json (OrderDetail (Order.code order) (Order.status order)
                            (Order.total order) items)
      end
    end
  end.

(** The handler up to the transaction: look the order up and return
    early when it is missing or already PAID. *)
Definition findOrder (code : string) (db : DB) : Response + Order.t :=
  match Prisma.order_findUnique db code with
  | None => inl notFound
  | Some order =>
      match Order.status order with
      | PAID => inl (json OkAlready)
      | _ => inr order
      end
  end.

(** [for (const it of order.items) await tx.product.update(...)] *)
Fixpoint decrementAll (items : list OrderItem.t) (db : DB) : option DB :=
  match items with
  | [] => Some db
  | it :: rest =>
      db' ← Prisma.product_decrement (OrderItem.productId it)
                                     (OrderItem.qty it) db;
      decrementAll rest db'
  end.

(** The [$transaction] callback, on the order read before it. *)
Definition transaction (now : Date.t) (order : Order.t) (db : DB) : option DB :=
  db1 ← decrementAll (Order.items order) db;
  Prisma.order_update (Order.id order) (Order.markPaid now) db1.

Definition afterRead (now : Date.t) (order : Order.t) (db : DB)
  : Response * DB :=
  match transaction now order db with
  | None => (serverError, db)
  | Some db' => (json OkBody, db')
  end.

(** The whole handler, run without another request in between. *)
Definition POST (now : Date.t) (code : string) (db : DB) : Response * DB :=
  match findOrder code db with
  | inl r => (r, db)
  | inr order => afterRead now order db
  end.

End OrderByCode.

(** ** [api/cart] *)

Module CartRoute.

(** [prisma.cart.delete(...).catch(() => null)] then [json({ ok: true })] *)
Definition DELETE (user : option string) (db : DB) : Response * DB :=
  match user with
  | None => (mkResponse 401 (PlainText "Unauthorized"), db)
  | Some uid =>
      let db' :=
        match Prisma.cart_delete uid db with
        | Some d => d
        | None => db
        end in
      (json OkBody, db')
  end.

End CartRoute.

(** ** Catalog management *)

Module Catalog.

(** Modelled from the spec: the catalog's price edit is not among the
    source files; by the data model it is an external mutation of the
    product row that rewrites its unit price and nothing else. *)
Definition setPrice (id : string) (v : Z) (db : DB) : DB :=
  setProducts (alter (Product.withPrice v) id (products db)) db.

End Catalog.

(** ** Requests in flight

    Requests are served concurrently against the one store.  A request
    advances by atomic steps: one Prisma call outside a transaction, or
    one whole [$transaction]; between two steps of a request any other
    request may take steps. *)

Inductive Task :=
| CheckoutRead (env : Env) (req : Checkout.Request)
| CheckoutCount (env : Env) (p : Checkout.Prepared)
| CheckoutCommit (env : Env) (p : Checkout.Prepared) (queueNumber : string)
| ConfirmRead (now : Date.t) (code : string)
| ConfirmTx (now : Date.t) (order : Order.t)
| ClearCart (user : option string)
| Finished (r : Response).

Definition step (t : Task) (db : DB) : Task * DB :=
  match t with
  | CheckoutRead env req =>
      match Checkout.prepare req db with
      | inl r => (Finished r, db)
      | inr p => (CheckoutCount env p, db)
      end
  | CheckoutCount env p =>
      (CheckoutCommit env p (Checkout.getTodayQueueNumber (now env) db), db)
  | CheckoutCommit env p queueNumber =>
      let '(r, db') := Checkout.afterCount env p queueNumber db in
      (Finished r, db')
  | ConfirmRead now code =>
      match OrderByCode.findOrder code db with
      | inl r => (Finished r, db)
      | inr order => (ConfirmTx now order, db)
      end
  | ConfirmTx now order =>
      let '(r, db') := OrderByCode.afterRead now order db in
      (Finished r, db')
  | ClearCart user =>
      let '(r, db') := CartRoute.DELETE user db in
      (Finished r, db')
  | Finished r => (Finished r, db)
  end.

Record System := mkSystem {
  store : DB;
  tasks : list Task
}.

(** Request number [i] takes its next step. *)
Definition schedule (s : System) (i : nat) : System :=
  match tasks s !! i with
  | None => s
  | Some t =>
      let '(t', db') := step t (store s) in
      mkSystem db' (<[i := t']> (tasks s))
  end.

Definition run (sched : list nat) (s : System) : System :=
  fold_left schedule sched s.

(** Stock of a product, when the row exists. *)
Definition stockOf (db : DB) (id : string) : option Z :=
  Product.stock <$> products db !! id.

(** Σ of the quantities of the order lines that reference a product. *)
Definition orderedQty (id : string) (items : list OrderItem.t) : Z :=
  foldr (fun it acc =>
           if String.eqb (OrderItem.productId it) id
           then OrderItem.qty it + acc else acc) 0 items.

(** Σ(line.price × line.qty), as the specification writes the subtotal. *)
Definition sumLines (items : list Prisma.Line) : Z :=
  foldr (fun it acc => Product.price (Prisma.product it) * Prisma.qty it + acc)
        0 items.

(** ** Shapes of the strings the allocator produces *)

Definition isDigit (c : ascii) : bool :=
  (48 <=? nat_of_ascii c)%nat && (nat_of_ascii c <=? 57)%nat.

Fixpoint allDigits (s : string) : bool :=
  match s with
  | EmptyString => true
  | String c s' => isDigit c && allDigits s'
  end.

(** Two dates on the same local calendar day. *)
Definition sameDay (a b : Date.t) : bool :=
  (Date.fullYear a =? Date.fullYear b)
  && (Date.month a =? Date.month b)
  && (Date.date a =? Date.date b).

(** A cart line that passes the availability check: the product is active
    and the requested quantity does not exceed its stock. *)
Definition available (it : Prisma.Line) : Prop :=
  Product.isActive (Prisma.product it) = true /\
  Prisma.qty it <= Product.stock (Prisma.product it).

(** The line of an order detail as the cart line was priced at checkout. *)
Definition detailOf (it : Prisma.Line) : OrderDetailItem :=
  mkDetailItem (Product.name (Prisma.product it)) (Prisma.qty it)
               (Product.price (Prisma.product it))
               (JS.mul (Product.price (Prisma.product it)) (Prisma.qty it)).

(** The amounts of a cart stay within the safe integers: every line amount
    price × qty and every running sum of them, taken exactly, is a safe
    integer (at most 2^53 - 1 in magnitude). *)
Fixpoint safeFrom (s : Z) (items : list Prisma.Line) : bool :=
  match items with
  | [] => true
  | it :: rest =>
      let a := Product.price (Prisma.product it) * Prisma.qty it in
      JS.isSafeInteger a && JS.isSafeInteger (s + a) && safeFrom (s + a) rest
  end.

Definition safeAmounts (items : list Prisma.Line) : Prop :=
  safeFrom 0 items = true.

(** The product rows that the lines reference exist and carry the names
    read at checkout. *)
Definition namesKept (items : list Prisma.Line) (db : DB) : Prop :=
  Forall (fun it => Product.name <$> products db !! Prisma.productId it
                    = Some (Product.name (Prisma.product it))) items.

(** ** Stores and requests used as concrete instances *)

Module Fixture.

Definition productA := Product.mk "Nasi Goreng" 25000 10 true None MAIN.
Definition productB := Product.mk "Es Teh" 15000 5 true None DRINK.

Definition today := Date.mk 2024 0 17 10 30 0 0.

Definition gatewayOk (isProduction : bool) (serverKey : string)
    (p : SnapParams) : option string :=
  Some ("snap-" +:+ order_id p).
Definition gatewayDown (isProduction : bool) (serverKey : string)
    (p : SnapParams) : option string := None.

Definition env1 :=
  mkEnv today "0a1b2c3d-0000-4000-8000-000000000001" None (Some "SB-key")
        gatewayOk.
Definition env2 :=
  mkEnv today "9f8e7d6c-0000-4000-8000-000000000002" None (Some "SB-key")
        gatewayOk.

(** No server key in the environment; a gateway that cannot be reached. *)
Definition envNoKey :=
  mkEnv today "0a1b2c3d-0000-4000-8000-000000000001" None None gatewayOk.
Definition envDown :=
  mkEnv today "0a1b2c3d-0000-4000-8000-000000000001" None (Some "SB-key")
        gatewayDown.

Definition request (u choice : string) : Checkout.Request :=
  Checkout.mkRequest (Some u)
    (Checkout.mkRawBody (Some "DINE_IN") (Some choice)).

(** The scenario of the specification: A at 25000 twice, B at 15000 once. *)
Definition db0 : DB :=
  mkDB (<["pA" := productA]> (<["pB" := productB]> ∅))
       (<["u1" := Cart.mk "c1" [CartItem.mk "i1" "pA" 2;
                                CartItem.mk "i2" "pB" 1]]> ∅)
       [].

(** The store once that cart has been checked out (CASH). *)
Definition db1 : DB := snd (Checkout.POST env1 (request "u1" "CASH") db0).

Definition later := Date.mk 2024 0 17 10 45 0 0.

(** A product priced at the largest safe integer, and a cart with three of
    it. *)
Definition dear : DB :=
  mkDB (<["pX" := Product.mk "Wagyu" 9007199254740991 5 true None MAIN]> ∅)
       (<["u1" := Cart.mk "c1" [CartItem.mk "i1" "pX" 3]]> ∅)
       [].

(** A gateway that refuses the token for one transaction id only. *)
Definition gatewayRefuses (mid : string) (isProduction : bool)
    (serverKey : string) (p : SnapParams) : option string :=
  if String.eqb (order_id p) mid then None
  else Some ("snap-" +:+ order_id p).
Definition envRefused :=
  mkEnv today "0a1b2c3d-0000-4000-8000-000000000001" None (Some "SB-key")
        (gatewayRefuses "ORD-20240117-001-0a1b2c3d").

(** One product with three pieces left, and a cart asking for four. *)
Definition scarce : DB :=
  mkDB (<["pA" := Product.mk "Nasi Goreng" 25000 3 true None MAIN]> ∅)
       (<["u1" := Cart.mk "c1" [CartItem.mk "i1" "pA" 4]]> ∅)
       [].

(** Three pieces left, and two customers who each put three in a cart. *)
Definition lastThree : DB :=
  mkDB (<["pA" := Product.mk "Nasi Goreng" 25000 3 true None MAIN]> ∅)
       (<["u1" := Cart.mk "c1" [CartItem.mk "i1" "pA" 3]]>
          (<["u2" := Cart.mk "c2" [CartItem.mk "i2" "pA" 3]]> ∅))
       [].

(** Two checkouts in flight at once, and two confirmations of one order. *)
Definition twoCheckouts : System :=
  mkSystem lastThree [CheckoutRead env1 (request "u1" "CASH");
                      CheckoutRead env2 (request "u2" "CASH")].

Definition twoConfirmations : System :=
  mkSystem db1 [ConfirmRead later "ORD-20240117-001";
                ConfirmRead later "ORD-20240117-001"].

(** A day on which [n] orders have been placed already. *)
Definition orderOfDay (i : nat) : Order.t :=
  let queueNumber := JS.padStart 3 "0" (JS.String_ (Z.of_nat i + 1)) in
  Order.mk ("order-" +:+ JS.String_ (Z.of_nat i))
           (Checkout.makeOrderCode today queueNumber) queueNumber
           TAKE_AWAY AWAITING_PAYMENT 0 0 0 0 "u9" today None [].

Definition busyDay (n : nat) : DB :=
  mkDB ∅ ∅ (map orderOfDay (seq 0 n)).

(** The shop of [db0] at the end of a day on which 999 orders were placed. *)
Definition fullDay : DB :=
  mkDB (products db0) (carts db0) (orders (busyDay 999)).

End Fixture.

(** ** [api/cart]: viewing the cart and adding a line *)

Module CartApi.

(** A numeric field of the body after the handler's coercion
    ([typeof v === "string" ? Number(v) : v]), as far as
    [z.number().int()] tells values apart: an integer, or anything else
    (absent, not a number, NaN, fractional, infinite). *)
Inductive Coerced :=
| IntegerValue (z : Z)
| NotInteger.

(** The JSON body as far as the schema looks at it (a [productId] that is
    absent or not a string is [None]; a body that does not parse is the
    empty object). *)
Record RawBody := mkRawBody {
  raw_productId : option string;
  raw_qty : Coerced
}.

(** [addToCartSchema.safeParse]: [productId: z.string().uuid()],
    [qty: z.number().int().positive().max(999)].  The test of the uuid
    format is zod's and is taken as it comes. *)
Definition addToCartSchema (isUuid : string -> bool) (raw : RawBody)
  : option (string * Z) :=
  match raw_productId raw, raw_qty raw with
  | Some productId, IntegerValue qty =>
      if isUuid productId && (0 <? qty) && (qty <=? 999)
      then Some (productId, qty)
      else None
  | _, _ => None
  end.

(** The ids the database generates for a new cart row and a new line. *)
Record Ids := mkIds {
  newCartId : string;
  newItemId : string
}.

(** [prisma.cart.upsert({ where: { customerId }, create: { customerId },
    update: {} })], answering the cart's id. *)
Definition ensureCart (ids : Ids) (userId : string) (db : DB) : string * DB :=
  match carts db !! userId with
  | Some cart => (Cart.id cart, db)
  | None =>
      (newCartId ids,
       setCarts (<[userId := Cart.mk (newCartId ids) []]> (carts db)) db)
  end.

(** [prisma.cartItem.findFirst({ where: { cartId, productId } })]; the
    lines of a cart are the rows nested under its owner. *)
Definition cartItem_findFirst (db : DB) (userId productId : string)
  : option CartItem.t :=
  match carts db !! userId with
  | None => None
  | Some cart =>
      List.find (fun it => String.eqb (CartItem.productId it) productId)
                (Cart.items cart)
  end.

Definition setQty (q : Z) (it : CartItem.t) : CartItem.t :=
  CartItem.mk (CartItem.id it) (CartItem.productId it) q.

(** [prisma.cartItem.update({ where: { id }, data: { qty } })]: the rows
    with this [id] are rewritten. *)
Definition cartItem_update (id : string) (q : Z) (db : DB) : DB :=
  setCarts
    ((fun cart =>
        Cart.mk (Cart.id cart)
                (map (fun it => if String.eqb (CartItem.id it) id
                                then setQty q it else it)
                     (Cart.items cart)))
       <$> carts db) db.

(** [prisma.cartItem.create({ data: { cartId, productId, qty } })] *)
Definition cartItem_create (userId : string) (it : CartItem.t) (db : DB) : DB :=
  setCarts
    (alter (fun cart => Cart.mk (Cart.id cart) (Cart.items cart ++ [it]))
           userId (carts db)) db.

Definition POST (isUuid : string -> bool) (ids : Ids) (user : option string)
    (raw : RawBody) (db : DB) : Response * DB :=
  match user with
  | None => (mkResponse 401 (PlainText "Unauthorized"), db)
  | Some uid =>
    match addToCartSchema isUuid raw with
    | None => (mkResponse 422 (InvalidPayload "Invalid payload"), db)
    | Some (productId, qty) =>
      match products db !! productId with
      | None => (mkResponse 409 (PlainText "Product not available"), db)
      | Some product =>
        if negb (Product.isActive product) then
          (mkResponse 409 (PlainText "Product not available"), db)
        else
          let '(cartId, db1) := ensureCart ids uid db in
          match cartItem_findFirst db1 uid productId with
          | Some existing =>
              (json OkBody,
               cartItem_update (CartItem.id existing)
                               (CartItem.qty existing + qty) db1)
          | None =>
              (json OkBody,
               cartItem_create uid
                 (CartItem.mk (newItemId ids) productId qty) db1)
          end
      end
    end
  end.

(** One entry of the cart view. *)
Record LineView := mkLineView {
  v_id : string;
  v_name : string;
  v_price : Z;
  v_image : string;
  v_category : Category;
  v_isActive : bool;
  v_stock : Z;
  v_quantity : Z
}.

Definition lineView (it : Prisma.Line) : LineView :=
  let p := Prisma.product it in
  mkLineView (Prisma.productId it) (Product.name p) (Product.price p)
             (match Product.imageUrl p with Some u => u | None => "" end)
             (Product.category p) (Product.isActive p) (Product.stock p)
             (Prisma.qty it).

(** The [updatedAt] of the answer: [null], or the column of the cart row
    with this id (the store does not keep the value of the timestamp). *)
Inductive Stamp :=
| StampNull
| StampOfCart (cartId : string).

Inductive ViewResponse :=
| ViewUnauthorized                       (* 401, "Unauthorized" *)
| ViewThrown                             (* the cart read threw *)
| ViewJson (items : list LineView) (updatedAt : Stamp).

Definition GET (user : option string) (db : DB) : ViewResponse :=
  match user with
  | None => ViewUnauthorized
  | Some uid =>
      match carts db !! uid with
      | None => ViewJson [] StampNull
      | Some cart =>
          match mapM (Prisma.joinProduct db) (Cart.items cart) with
          | None => ViewThrown
          | Some lines => ViewJson (map lineView lines) (StampOfCart (Cart.id cart))
          end
      end
  end.

End CartApi.

(** ** Notions used to state what the handlers keep *)

(** Reading a string of decimal digits back as a number. *)
Definition digitValue (c : ascii) : Z := Z.of_nat (nat_of_ascii c) - 48.

Fixpoint decimalValue (s : string) : Z :=
  match s with
  | EmptyString => 0
  | String c s' =>
      digitValue c * 10 ^ Z.of_nat (String.length s') + decimalValue s'
  end.

(** What may become of a stored order: everything but the status and the
    closure timestamp stays, and PAID stays PAID. *)
Definition evolves (o o' : Order.t) : Prop :=
  Order.id o' = Order.id o /\
  Order.code o' = Order.code o /\
  Order.queueNumber o' = Order.queueNumber o /\
  Order.diningType o' = Order.diningType o /\
  Order.subtotal o' = Order.subtotal o /\
  Order.discount o' = Order.discount o /\
  Order.tax o' = Order.tax o /\
  Order.total o' = Order.total o /\
  Order.customerId o' = Order.customerId o /\
  Order.createdAt o' = Order.createdAt o /\
  Order.items o' = Order.items o /\
  (Order.status o = PAID -> Order.status o' = PAID).

(** The orders of [db'] are those of [db], evolved in place, followed by
    new ones. *)
Definition history (db db' : DB) : Prop :=
  exists olds news,
    orders db' = (olds ++ news)%list /\ Forall2 evolves (orders db) olds.

(** Every order line references a product row of the store. *)
Definition refsOk (db : DB) : Prop :=
  Forall (fun o =>
            Forall (fun it => is_Some (products db !! OrderItem.productId it))
                   (Order.items o))
         (orders db).

(** Order codes and order ids are pairwise distinct. *)
Definition ordersUnique (db : DB) : Prop :=
  NoDup (map Order.code (orders db)) /\ NoDup (map Order.id (orders db)).

(** In every cart a product has at most one line. *)
Definition oneLinePerProduct (db : DB) : Prop :=
  forall uid cart,
    carts db !! uid = Some cart ->
    NoDup (map CartItem.productId (Cart.items cart)).

(** Every cart line asks for at least one piece. *)
Definition quantitiesPositive (db : DB) : Prop :=
  forall uid cart,
    carts db !! uid = Some cart ->
    Forall (fun it => 1 <= CartItem.qty it) (Cart.items cart).

(** The order row that the checkout transaction creates. *)
Definition orderOf (env : Env) (p : Checkout.Prepared) (queueNumber : string)
  : Order.t :=
  Order.mk (newOrderId env) (Checkout.makeOrderCode (now env) queueNumber)
           queueNumber (Checkout.diningType p) AWAITING_PAYMENT
           (Checkout.subtotal p) (Checkout.discount p) (Checkout.tax p)
           (Checkout.total p) (Checkout.customerId p) (now env) None
           (map Checkout.orderItemOf (Checkout.items p)).

(** ** More concrete instances *)

Module Scenario.

(** [Fixture.lastThree] once the first customer has checked out. *)
Definition afterFirst : DB :=
  snd (Checkout.POST Fixture.env1 (Fixture.request "u1" "CASH")
         Fixture.lastThree).

Definition nextDay := Date.mk 2024 0 18 9 0 0 0.

End Scenario.

(** ** Soundness of a system of requests in flight *)

(** The product rows that a list of order lines references exist. *)
Definition linesExist (db : DB) (items : list OrderItem.t) : Prop :=
  Forall (fun it => is_Some (products db !! OrderItem.productId it)) items.

(** A request in flight fits the store: the lines it holds reference
    product rows of the store, and the order a confirmation was started on
    is stored. *)
Definition taskOk (db : DB) (t : Task) : Prop :=
  match t with
  | CheckoutCount _ p | CheckoutCommit _ p _ =>
      linesExist db (map Checkout.orderItemOf (Checkout.items p))
  | ConfirmTx _ order =>
      linesExist db (Order.items order) /\
      exists o, In o (orders db) /\ Order.id o = Order.id order
  | _ => True
  end.

Definition sound (s : System) : Prop :=
  refsOk (store s) /\ Forall (taskOk (store s)) (tasks s).

(** A request that has not answered yet is cut short: what it was about
    to do is not done, the store stays as it is (a transaction that the
    database refuses is rolled back), and the request ends with the
    answer [r] -- in the handlers, the 500 of the catch block. *)
Definition abort (s : System) (i : nat) (r : Response) : System :=
  match tasks s !! i with
  | None | Some (Finished _) => s
  | Some _ => mkSystem (store s) (<[i := Finished r]> (tasks s))
  end.

(** A request takes its next step, or is cut short. *)
Inductive Move :=
| Run (i : nat)
| Abort (i : nat) (r : Response).

Definition move (s : System) (m : Move) : System :=
  match m with
  | Run i => schedule s i
  | Abort i r => abort s i r
  end.

Definition runMoves (ms : list Move) (s : System) : System :=
  fold_left move ms s.

(** ** Well-formed quantities and lines *)

(** In every order a product has at most one line, and every line is for
    at least one piece. *)
Definition orderLinesOk (o : Order.t) : Prop :=
  NoDup (map OrderItem.productId (Order.items o)) /\
  Forall (fun it => 1 <= OrderItem.qty it) (Order.items o).

Definition wellFormed (db : DB) : Prop :=
  oneLinePerProduct db /\ quantitiesPositive db /\
  Forall orderLinesOk (orders db).

(** The conditions under which a line is added to the cart. *)
Definition addAccepted (isUuid : string -> bool) (user : option string)
    (raw : CartApi.RawBody) (db : DB) (uid productId : string) (qty : Z)
  : Prop :=
  user = Some uid /\
  CartApi.raw_productId raw = Some productId /\
  isUuid productId = true /\
  CartApi.raw_qty raw = CartApi.IntegerValue qty /\
  1 <= qty <= 999 /\
  exists product,
    products db !! productId = Some product /\
    Product.isActive product = true.

Module CartScenario.

Definition isUuid (s : string) : bool := (String.length s =? 36)%nat.
Definition nasi := "6f9619ff-8b86-4d01-b42d-00c04fc964ff".
Definition teh := "7d444840-9dc0-41d1-b245-5ffdce74fad2".
Definition ids := CartApi.mkIds "cart-1" "item-9".

Definition shop : DB :=
  mkDB (<[nasi := Product.mk "Nasi Goreng" 25000 3 true None MAIN]>
          (<[teh := Product.mk "Es Teh" 15000 5 false None DRINK]> ∅))
       (<["u1" := Cart.mk "c1" [CartItem.mk "i1" nasi 2]]> ∅)
       [].

Definition add (productId : string) (qty : Z) : CartApi.RawBody :=
  CartApi.mkRawBody (Some productId) (CartApi.IntegerValue qty).

End CartScenario.

(** No product has more stock in [db'] than in [db]. *)
Definition stockNotRaised (db db' : DB) : Prop :=
  forall pid s s',
    stockOf db pid = Some s -> stockOf db' pid = Some s' -> s' <= s.

(** A cart view entry with the unit price of one product replaced. *)
Definition repriced (productId : string) (v : Z) (e : CartApi.LineView)
  : CartApi.LineView :=
  if String.eqb (CartApi.v_id e) productId then
    CartApi.mkLineView (CartApi.v_id e) (CartApi.v_name e) v
                       (CartApi.v_image e) (CartApi.v_category e)
                       (CartApi.v_isActive e) (CartApi.v_stock e)
                       (CartApi.v_quantity e)
  else e.

(** * Properties *)

(** ** JavaScript numbers that hold integers *)

Section Numbers.

Lemma toNumber_small (z : Z) : Z.abs z < 2 ^ 53 -> JS.toNumber z = z.
Proof.
  intros H. unfold JS.toNumber.
  destruct (Z.ltb_spec (Z.abs z) (2 ^ 53)); [reflexivity | lia].
Qed.

Lemma toNumber_safe (z : Z) : JS.isSafeInteger z = true -> JS.toNumber z = z.
Proof.
  unfold JS.isSafeInteger. intros H. apply Z.leb_le in H.
  apply toNumber_small. lia.
Qed.

(** Above 2^53 the result has a 53-bit significand. *)
Lemma toNumber_large (z : Z) :
  2 ^ 53 <= Z.abs z ->
  exists q e, 1 <= e /\ 2 ^ 52 <= q <= 2 ^ 53 /\
              JS.toNumber z = Z.sgn z * (q * 2 ^ e).
Proof.
  intros Ha. unfold JS.toNumber.
  destruct (Z.ltb_spec (Z.abs z) (2 ^ 53)) as [Hlt|_]; [lia|].
  set (a := Z.abs z) in *.
  assert (Hpos : 0 < a) by (pose proof (Z.pow_pos_nonneg 2 53); lia).
  pose proof (Z.log2_spec a Hpos) as [Hlo Hhi].
  assert (HL : 53 <= Z.log2 a).
  { apply Z.log2_le_pow2; [exact Hpos | exact Ha]. }
  set (e := Z.log2 a - 52).
  assert (He : 1 <= e) by (unfold e; lia).
  assert (Hpe : 0 < 2 ^ e) by (apply Z.pow_pos_nonneg; lia).
  assert (HloE : 2 ^ 52 * 2 ^ e <= a).
  { rewrite <- Z.pow_add_r by lia.
    replace (52 + e) with (Z.log2 a) by (unfold e; lia). exact Hlo. }
  assert (HhiE : a < 2 ^ 53 * 2 ^ e).
  { rewrite <- Z.pow_add_r by lia.
    replace (53 + e) with (Z.succ (Z.log2 a)) by (unfold e; lia). exact Hhi. }
  assert (Hq : 2 ^ 52 <= a / 2 ^ e < 2 ^ 53).
  { split; [apply Z.div_le_lower_bound; lia | apply Z.div_lt_upper_bound; lia]. }
  eexists. exists e. split; [exact He|]. split; [|reflexivity].
  destruct (a mod 2 ^ e <? 2 ^ (e - 1)); [lia|].
  destruct (2 ^ (e - 1) <? a mod 2 ^ e); [lia|].
  destruct (Z.even (a / 2 ^ e)); lia.
Qed.

Lemma toNumber_fixed (q e s : Z) :
  1 <= e -> 2 ^ 52 <= q <= 2 ^ 53 -> (s = 1 \/ s = -1) ->
  JS.toNumber (s * (q * 2 ^ e)) = s * (q * 2 ^ e).
Proof.
  intros He Hq Hs. unfold JS.toNumber.
  assert (Hpe : 0 < 2 ^ e) by (apply Z.pow_pos_nonneg; lia).
  assert (Hpe1 : 0 < 2 ^ (e - 1)) by (apply Z.pow_pos_nonneg; lia).
  assert (He2 : 2 ^ e = 2 * 2 ^ (e - 1)).
  { replace e with (Z.succ (e - 1)) at 1 by lia. apply Z.pow_succ_r. lia. }
  assert (He3 : 2 ^ (e + 1) = 2 * 2 ^ e).
  { replace (e + 1) with (Z.succ e) by lia. apply Z.pow_succ_r. lia. }
  set (m := q * 2 ^ e).
  assert (Hm : 2 ^ 53 <= m).
  { unfold m. change (2 ^ 53) with 9007199254740992 in *.
    change (2 ^ 52) with 4503599627370496 in *. nia. }
  assert (Habs : Z.abs (s * m) = m) by (destruct Hs; subst s; lia).
  assert (Hsgn : Z.sgn (s * m) = s) by (destruct Hs; subst s; lia).
  rewrite Habs, Hsgn.
  destruct (Z.ltb_spec m (2 ^ 53)) as [Hlt|_]; [lia|].
  destruct (Z.eq_dec q (2 ^ 53)) as [Hq53|Hq53].
  - assert (HL : Z.log2 m = 53 + e).
    { apply Z.log2_unique; [lia|]. unfold m. rewrite Hq53.
      rewrite Z.pow_succ_r, Z.pow_add_r by lia.
      change (2 ^ 53) with 9007199254740992. lia. }
    rewrite HL. replace (53 + e - 52) with (e + 1) by lia.
    replace (e + 1 - 1) with e by lia.
    assert (Hm' : m = 2 ^ 52 * 2 ^ (e + 1)).
    { unfold m. rewrite Hq53, He3. change (2 ^ 53) with (2 * 2 ^ 52). lia. }
    rewrite Hm'. rewrite Z.div_mul, Z.mod_mul by lia.
    destruct (Z.ltb_spec 0 (2 ^ e)); [reflexivity | lia].
  - assert (HL : Z.log2 m = 52 + e).
    { apply Z.log2_unique; [lia|]. unfold m.
      rewrite Z.pow_succ_r, Z.pow_add_r by lia.
      change (2 ^ 53) with 9007199254740992 in *.
      change (2 ^ 52) with 4503599627370496 in *. nia. }
    rewrite HL. replace (52 + e - 52) with e by lia.
    unfold m. rewrite Z.div_mul, Z.mod_mul by lia.
    destruct (Z.ltb_spec 0 (2 ^ (e - 1))); [reflexivity | lia].
Qed.

(** Rounding a number again changes nothing. *)
Lemma toNumber_idem (z : Z) : JS.toNumber (JS.toNumber z) = JS.toNumber z.
Proof.
  destruct (Z_lt_le_dec (Z.abs z) (2 ^ 53)) as [Hs|Hl].
  - rewrite (toNumber_small z Hs). now apply toNumber_small.
  - destruct (toNumber_large z Hl) as (q & e & He & Hq & ->).
    apply toNumber_fixed; [exact He | exact Hq |].
    assert (0 < 2 ^ 53) by (apply Z.pow_pos_nonneg; lia). lia.
Qed.

Lemma add_0_r (x : Z) : JS.toNumber x = x -> JS.add (JS.sub x 0) 0 = x.
Proof.
  intros Hx. unfold JS.add, JS.sub. rewrite !Z.sub_0_r, !Z.add_0_r.
  now rewrite Hx.
Qed.

End Numbers.

(** ** Strings *)

Section Strings.

Lemma length_append (s t : string) :
  String.length (s +:+ t) = (String.length s + String.length t)%nat.
Proof. induction s as [|c s IH]; simpl; [reflexivity | now rewrite IH]. Qed.

Lemma length_substring0 (k : nat) (t : string) :
  (k <= String.length t)%nat -> String.length (String.substring 0 k t) = k.
Proof.
  revert t; induction k as [|k IH]; intros [|c t] H; simpl in *;
    try reflexivity; try lia.
  rewrite IH; [reflexivity | lia].
Qed.

Lemma length_repeat (pad : string) (k : nat) :
  String.length (JS.repeat_ pad k) = (k * String.length pad)%nat.
Proof.
  induction k as [|k IH]; simpl; [reflexivity |].
  rewrite length_append, IH. reflexivity.
Qed.

(** [padStart] returns a string of the target length, or the string
    itself when that is already long enough. *)
Lemma padStart_length (n : nat) (pad s : string) :
  pad <> "" ->
  String.length (JS.padStart n pad s) = Nat.max n (String.length s).
Proof.
  intros Hpad. unfold JS.padStart.
  destruct (Nat.leb_spec n (String.length s)) as [Hle|Hlt]; [lia|].
  destruct (Nat.eqb_spec (String.length pad) 0) as [H0|Hn0].
  { destruct pad; [congruence | discriminate]. }
  rewrite length_append, length_substring0; [lia|].
  rewrite length_repeat. nia.
Qed.

Lemma padStart_long (n : nat) (pad s : string) :
  (n <= String.length s)%nat -> JS.padStart n pad s = s.
Proof.
  intros H. unfold JS.padStart.
  destruct (Nat.leb_spec n (String.length s)); [reflexivity | lia].
Qed.

(** Number of characters of the decimal rendering. *)
Lemma pretty_N_go_length (k : nat) : forall (x : N) (s : string),
  (x < 10 ^ N.of_nat k)%N ->
  (k = 0%nat \/ 10 ^ N.of_nat (k - 1) <= x)%N ->
  String.length (pretty_N_go x s) = (k + String.length s)%nat.
Proof.
  induction k as [|k IH]; intros x s Hlt Hge.
  - simpl in Hlt. assert (x = 0%N) as -> by lia. reflexivity.
  - assert (0 < x)%N as Hpos.
    { destruct Hge as [Hge|Hge]; [discriminate|].
      pose proof (N.pow_nonzero 10 (N.of_nat (S k - 1))). lia. }
    rewrite pretty_N_go_step by exact Hpos.
    rewrite IH; simpl; [lia | |].
    + apply N.Div0.div_lt_upper_bound.
      replace (N.of_nat (S k)) with (N.succ (N.of_nat k)) in Hlt by lia.
      rewrite N.pow_succ_r' in Hlt. lia.
    + destruct k as [|k]; [left; reflexivity | right].
      destruct Hge as [Hge|Hge]; [discriminate|].
      replace (S (S k) - 1)%nat with (S k) in Hge by lia.
      replace (S k - 1)%nat with k by lia.
      replace (N.of_nat (S k)) with (N.succ (N.of_nat k)) in Hge by lia.
      rewrite N.pow_succ_r' in Hge.
      apply N.div_le_lower_bound; lia.
Qed.

Lemma String_pos (n : Z) :
  0 < n -> JS.String_ n = pretty_N_go (Z.to_N n) "".
Proof.
  intros H. destruct n as [|p|p]; try lia. reflexivity.
Qed.

Lemma String_length (k : nat) (n : Z) :
  10 ^ Z.of_nat (k - 1) <= n < 10 ^ Z.of_nat k -> (0 < k)%nat ->
  String.length (JS.String_ n) = k.
Proof.
  intros [Hlo Hhi] Hk.
  assert (0 < n) by (pose proof (Z.pow_pos_nonneg 10 (Z.of_nat (k - 1))); lia).
  rewrite String_pos by assumption.
  rewrite (pretty_N_go_length k); simpl; [lia | |].
  - apply N2Z.inj_lt. rewrite N2Z.inj_pow, Z2N.id, nat_N_Z by lia. exact Hhi.
  - right. apply N2Z.inj_le. rewrite N2Z.inj_pow, Z2N.id, nat_N_Z by lia. exact Hlo.
Qed.

End Strings.

(** ** Queue number and order code *)

Section Allocator.

Lemma allDigits_append (s t : string) :
  allDigits (s +:+ t) = allDigits s && allDigits t.
Proof.
  induction s as [|c s IH]; simpl; [reflexivity|].
  rewrite IH. apply andb_assoc.
Qed.

Lemma pretty_N_char_digit (x : N) : isDigit (pretty_N_char x) = true.
Proof. unfold pretty_N_char. repeat case_match; reflexivity. Qed.

Lemma pretty_N_go_digits (x : N) : forall s,
  allDigits s = true -> allDigits (pretty_N_go x s) = true.
Proof.
  induction (N.lt_wf_0 x) as [x _ IH]; intros s Hs.
  destruct (N.eq_dec x 0) as [->|Hx]; [exact Hs|].
  rewrite pretty_N_go_step by lia.
  apply IH; [apply N.div_lt; lia|].
  simpl. now rewrite pretty_N_char_digit.
Qed.

Lemma String_digits (n : Z) : 0 < n -> allDigits (JS.String_ n) = true.
Proof.
  intros H. rewrite String_pos by exact H. now apply pretty_N_go_digits.
Qed.

Lemma zeros_digits (k : nat) :
  allDigits (String.substring 0 k (JS.repeat_ "0" k)) = true.
Proof. induction k as [|k IH]; simpl; [reflexivity | exact IH]. Qed.

Lemma padStart0_digits (n : nat) (s : string) :
  allDigits s = true -> allDigits (JS.padStart n "0" s) = true.
Proof.
  intros Hs. unfold JS.padStart.
  destruct (n <=? String.length s)%nat; [exact Hs|]. simpl.
  now rewrite allDigits_append, zeros_digits, Hs.
Qed.

(** The date filter of the count selects the orders of the current
    calendar day. *)
Lemma today_filter (now d : Date.t) :
  Date.wf d ->
  Date.gte d (Checkout.startOfDay now) && Date.lte d (Checkout.endOfDay now)
  = sameDay d now.
Proof.
  intros (Hy & Hm & Hd & Hh & Hmi & Hs & Hms).
  unfold Date.gte, Date.lte, Date.compare, sameDay,
    Checkout.startOfDay, Checkout.endOfDay, Date.setHours; simpl.
  destruct (Z.compare_spec (Date.fullYear d) (Date.fullYear now));
    destruct (Z.compare_spec (Date.month d) (Date.month now));
    destruct (Z.compare_spec (Date.date d) (Date.date now));
    simpl;
    repeat match goal with
    | |- context [Z.eqb ?a ?b] => destruct (Z.eqb_spec a b); try lia
    end; simpl; try reflexivity.
  destruct (Z.compare_spec (Date.hours d) 0);
    destruct (Z.compare_spec (Date.minutes d) 0);
    destruct (Z.compare_spec (Date.seconds d) 0);
    destruct (Z.compare_spec (Date.milliseconds d) 0);
    destruct (Z.compare_spec (Date.hours d) 23);
    destruct (Z.compare_spec (Date.minutes d) 59);
    destruct (Z.compare_spec (Date.seconds d) 59);
    destruct (Z.compare_spec (Date.milliseconds d) 999);
    simpl; try reflexivity; lia.
Qed.

Lemma order_count_today (now : Date.t) (db : DB) :
  Forall (fun o => Date.wf (Order.createdAt o)) (orders db) ->
  Prisma.order_count db (Checkout.startOfDay now) (Checkout.endOfDay now)
  = length (List.filter (fun o => sameDay (Order.createdAt o) now) (orders db)).
Proof.
  unfold Prisma.order_count. intros H. f_equal.
  induction H as [|o l Ho _ IH]; simpl; [reflexivity|].
  rewrite today_filter by exact Ho. now rewrite IH.
Qed.

End Allocator.

Section QueueNumber.

(** A positive number below 100 rendered on two padded places. *)
Lemma pad2_shape (n : Z) :
  1 <= n <= 99 ->
  String.length (JS.padStart 2 "0" (JS.String_ n)) = 2%nat /\
  allDigits (JS.padStart 2 "0" (JS.String_ n)) = true.
Proof.
  intros Hn. split; [|apply padStart0_digits, String_digits; lia].
  rewrite padStart_length by discriminate.
  destruct (Z_lt_le_dec n 10).
  - rewrite (String_length 1); simpl; lia.
  - rewrite (String_length 2); simpl; lia.
Qed.

End QueueNumber.

(** C5: the code at the failing input.  The docstrings of the allocator
    promise a queue number in "format 3 digit" and a code ORD-YYYYMMDD-XXX,
    but [padStart(3, "0")] only pads.  On a day with 999 orders the count
    is 999, the queue number is "1000" -- four characters -- and the
    checkout commits and answers with the code ORD-20240117-1000. *)
Theorem queue_number_four_digits :
  Prisma.order_count Fixture.fullDay
    (Checkout.startOfDay Fixture.today) (Checkout.endOfDay Fixture.today)
  = 999%nat /\
  Checkout.getTodayQueueNumber Fixture.today Fixture.fullDay = "1000" /\
  String.length (Checkout.getTodayQueueNumber Fixture.today Fixture.fullDay)
  = 4%nat /\
  Checkout.makeOrderCode Fixture.today
    (Checkout.getTodayQueueNumber Fixture.today Fixture.fullDay)
  = "ORD-20240117-1000" /\
  fst (Checkout.POST Fixture.env1 (Fixture.request "u1" "CASH") Fixture.fullDay)
  = json (CheckoutCash "0a1b2c3d-0000-4000-8000-000000000001"
                       "ORD-20240117-1000" 65000) /\
  (Order.queueNumber <$>
     last (orders (snd (Checkout.POST Fixture.env1 (Fixture.request "u1" "CASH")
                          Fixture.fullDay))))
  = Some "1000".
Proof. vm_compute. repeat split. Qed.

(** ** Checkout: validation and pricing *)

Section CheckoutLemmas.

Lemma validate_None (items : list Prisma.Line) :
  Checkout.validate items = None <-> Forall available items.
Proof.
  induction items as [|it rest IH]; simpl.
  - split; [constructor | reflexivity].
  - destruct (Product.isActive (Prisma.product it)) eqn:Ha; simpl.
    + destruct (Z.gtb_spec (Prisma.qty it) (Product.stock (Prisma.product it)))
        as [Hgt|Hle].
      * split; [discriminate|]. intros Hf; inversion Hf as [|? ? [_ Hq] _]; subst.
        lia.
      * rewrite IH. split.
        -- intros Hf. constructor; [split; [exact Ha | lia] | exact Hf].
        -- intros Hf. now inversion Hf.
    + split; [discriminate|]. intros Hf; inversion Hf as [|? ? [Hact _] _]; subst.
      congruence.
Qed.

(** The loop returns at the first line that fails a check. *)
Lemma validate_first (pre post : list Prisma.Line) (it : Prisma.Line) :
  Forall available pre ->
  Checkout.validate (pre ++ it :: post) = Checkout.validate (it :: post).
Proof.
  induction 1 as [|x pre [Ha Hq] _ IH]; simpl; [reflexivity|].
  rewrite Ha. simpl.
  destruct (Z.gtb_spec (Prisma.qty x) (Product.stock (Prisma.product x)));
    [lia | exact IH].
Qed.

Lemma subtotalOf_number_acc (items : list Prisma.Line) : forall a,
  JS.toNumber a = a ->
  let r := fold_left (fun s it =>
                        JS.add s (JS.mul (Product.price (Prisma.product it))
                                         (Prisma.qty it)))
                     items a in
  JS.toNumber r = r.
Proof.
  induction items as [|it rest IH]; intros a Ha; cbn [fold_left]; [exact Ha|].
  apply IH. unfold JS.add. apply toNumber_idem.
Qed.

(** The subtotal is a number: rounding it again changes nothing. *)
Lemma subtotalOf_number (items : list Prisma.Line) :
  JS.toNumber (Checkout.subtotalOf items) = Checkout.subtotalOf items.
Proof. apply (subtotalOf_number_acc items 0). reflexivity. Qed.

(** [subtotal - discount + tax] with discount and tax 0 *)
Lemma total_is_subtotal (items : list Prisma.Line) :
  JS.add (JS.sub (Checkout.subtotalOf items) 0) 0 = Checkout.subtotalOf items.
Proof. apply add_0_r, subtotalOf_number. Qed.

Lemma subtotalOf_acc (items : list Prisma.Line) : forall a,
  safeFrom a items = true ->
  fold_left (fun s it =>
               JS.add s (JS.mul (Product.price (Prisma.product it))
                                (Prisma.qty it)))
            items a = a + sumLines items.
Proof.
  induction items as [|it rest IH]; intros a Hs.
  - unfold sumLines. cbn [fold_left foldr]. lia.
  - cbn [safeFrom] in Hs. apply andb_true_iff in Hs. destruct Hs as [Hs Hrest].
    apply andb_true_iff in Hs. destruct Hs as [Hline Hsum].
    cbn [fold_left]. unfold JS.mul at 2, JS.add at 2.
    rewrite (toNumber_safe _ Hline), (toNumber_safe _ Hsum).
    rewrite (IH _ Hrest). unfold sumLines. cbn [foldr]. lia.
Qed.

(** Within the safe integers the reducer of the handler computes
    Σ(price × qty) exactly. *)
Lemma subtotalOf_sum (items : list Prisma.Line) :
  safeAmounts items -> Checkout.subtotalOf items = sumLines items.
Proof.
  intros Hs. unfold Checkout.subtotalOf. now rewrite (subtotalOf_acc items 0 Hs).
Qed.

(** Within the safe integers every line amount is the exact product. *)
Lemma safeFrom_lines (items : list Prisma.Line) : forall a,
  safeFrom a items = true ->
  Forall (fun it => JS.mul (Product.price (Prisma.product it)) (Prisma.qty it)
                    = Product.price (Prisma.product it) * Prisma.qty it) items.
Proof.
  induction items as [|it rest IH]; intros a Hs; [constructor|].
  cbn [safeFrom] in Hs. apply andb_true_iff in Hs. destruct Hs as [Hs Hrest].
  apply andb_true_iff in Hs. destruct Hs as [Hline _].
  constructor; [exact (toNumber_safe _ Hline) | exact (IH _ Hrest)].
Qed.

Lemma prepare_nonempty_cart (uid : string) (raw : Checkout.RawBody)
    (d : DiningType) (c : PaymentChoice) (db : DB)
    (items : list Prisma.Line) :
  JS.truthy (Some uid) = true ->
  Checkout.bodySchema raw = Some (d, c) ->
  Prisma.cart_findUnique db uid = Some (Some items) ->
  items <> [] ->
  Checkout.prepare (Checkout.mkRequest (Some uid) raw) db
  = match Checkout.validate items with
    | Some r => inl r
    | None =>
        inr (Checkout.mkPrepared uid d c items (Checkout.subtotalOf items)
                                 0 0 (Checkout.subtotalOf items))
    end.
Proof.
  intros Hu Hb Hc Hne. unfold Checkout.prepare. cbn [Checkout.user Checkout.rawBody].
  rewrite Hu, Hb, Hc. cbn [negb].
  destruct items as [|it rest]; [congruence|]. cbn [length Nat.eqb].
  cbv zeta. rewrite total_is_subtotal. reflexivity.
Qed.

Lemma order_create_fresh (o : Order.t) (db : DB) :
  Prisma.order_findUnique db (Order.code o) = None ->
  Forall (fun o' => Order.id o' <> Order.id o) (orders db) ->
  Prisma.order_create o db = Some (setOrders (orders db ++ [o]) db).
Proof.
  intros Hcode Hid. unfold Prisma.order_create.
  replace (existsb _ (orders db)) with false; [reflexivity|].
  symmetry. apply not_true_is_false. intros Hex.
  apply existsb_exists in Hex. destruct Hex as (o' & Hin & Ho').
  apply orb_true_iff in Ho'. destruct Ho' as [Ho'|Ho'];
    apply String.eqb_eq in Ho'.
  - rewrite Forall_forall in Hid. apply (Hid o'); [|exact Ho'].
    now apply list_elem_of_In.
  - unfold Prisma.order_findUnique in Hcode.
    apply (find_none _ _ Hcode) in Hin. simpl in Hin.
    apply String.eqb_neq in Hin. contradiction.
Qed.

Lemma order_create_taken (o o' : Order.t) (db : DB) :
  In o' (orders db) -> Order.code o' = Order.code o ->
  Prisma.order_create o db = None.
Proof.
  intros Hin Hcode. unfold Prisma.order_create.
  replace (existsb _ (orders db)) with true; [reflexivity|].
  symmetry. apply existsb_exists. exists o'. split; [exact Hin|].
  apply orb_true_iff. right. now apply String.eqb_eq.
Qed.

(** The commit of a prepared checkout whose code and id are free and
    whose cart is still there. *)
Lemma transaction_commits (env : Env) (p : Checkout.Prepared)
    (queueNumber : string) (db : DB) :
  Prisma.order_findUnique db (Checkout.makeOrderCode (now env) queueNumber) = None ->
  Forall (fun o' => Order.id o' <> newOrderId env) (orders db) ->
  is_Some (carts db !! Checkout.customerId p) ->
  let order :=
    Order.mk (newOrderId env) (Checkout.makeOrderCode (now env) queueNumber)
             queueNumber (Checkout.diningType p) AWAITING_PAYMENT
             (Checkout.subtotal p) (Checkout.discount p) (Checkout.tax p)
             (Checkout.total p) (Checkout.customerId p) (now env) None
             (map Checkout.orderItemOf (Checkout.items p)) in
  Checkout.transaction env p queueNumber db
  = Some (order, mkDB (products db)
                      (delete (Checkout.customerId p) (carts db))
                      (orders db ++ [order])).
Proof.
  intros Hcode Hid [c Hc] order. unfold Checkout.transaction.
  fold order. rewrite (order_create_fresh order db Hcode Hid). simpl.
  unfold Prisma.cart_delete. simpl. rewrite Hc. reflexivity.
Qed.

Lemma find_app_None {A : Type} (P : A -> bool) (l1 l2 : list A) :
  List.find P l1 = None -> List.find P (l1 ++ l2) = List.find P l2.
Proof.
  induction l1 as [|x l1 IH]; simpl; [reflexivity|].
  destruct (P x); [discriminate | exact IH].
Qed.

Lemma cart_findUnique_is_Some (db : DB) (uid : string) r :
  Prisma.cart_findUnique db uid = Some r -> is_Some (carts db !! uid).
Proof.
  unfold Prisma.cart_findUnique. destruct (carts db !! uid); [eauto | discriminate].
Qed.

End CheckoutLemmas.

Section CheckoutRuns.

Variables (env : Env) (uid : string) (raw : Checkout.RawBody)
          (d : DiningType) (c : PaymentChoice) (db : DB).
Hypothesis Huser : JS.truthy (Some uid) = true.
Hypothesis Hbody : Checkout.bodySchema raw = Some (d, c).

Lemma POST_empty_cart :
  (carts db !! uid = None \/
   exists cart, carts db !! uid = Some cart /\ Cart.items cart = []) ->
  Checkout.POST env (Checkout.mkRequest (Some uid) raw) db
  = (jsonStatus (ErrorBody "Keranjang kosong.") 409, db).
Proof.
  intros Hcart. unfold Checkout.POST, Checkout.prepare.
  cbn [Checkout.user Checkout.rawBody]. rewrite Huser, Hbody. cbn [negb].
  unfold Prisma.cart_findUnique.
  destruct Hcart as [-> | (cart & -> & Hitems)]; [reflexivity|].
  rewrite Hitems. reflexivity.
Qed.

Lemma POST_rejected (items : list Prisma.Line) (r : Response) :
  Prisma.cart_findUnique db uid = Some (Some items) ->
  Checkout.validate items = Some r ->
  Checkout.POST env (Checkout.mkRequest (Some uid) raw) db = (r, db).
Proof.
  intros Hcart Hv. unfold Checkout.POST.
  assert (items <> []) as Hne by (intros ->; discriminate).
  rewrite (prepare_nonempty_cart uid raw d c db items Huser Hbody Hcart Hne).
  now rewrite Hv.
Qed.

(** A checkout that passes every check and finds its code and id free:
    the order it commits, the store it leaves, and its answer. *)
Lemma POST_commits (items : list Prisma.Line) :
  Prisma.cart_findUnique db uid = Some (Some items) ->
  items <> [] ->
  Forall available items ->
  let queueNumber := Checkout.getTodayQueueNumber (now env) db in
  let code := Checkout.makeOrderCode (now env) queueNumber in
  Prisma.order_findUnique db code = None ->
  Forall (fun o => Order.id o <> newOrderId env) (orders db) ->
  let p := Checkout.mkPrepared uid d c items (Checkout.subtotalOf items) 0 0
                               (Checkout.subtotalOf items) in
  let order :=
    Order.mk (newOrderId env) code queueNumber d AWAITING_PAYMENT
             (Checkout.subtotalOf items) 0 0 (Checkout.subtotalOf items)
             uid (now env) None (map Checkout.orderItemOf items) in
  Checkout.POST env (Checkout.mkRequest (Some uid) raw) db
  = (Checkout.payment env p order,
     mkDB (products db) (delete uid (carts db)) (orders db ++ [order])).
Proof.
  intros Hcart Hne Hav queueNumber code Hcode Hid p order.
  unfold Checkout.POST.
  rewrite (prepare_nonempty_cart uid raw d c db items Huser Hbody Hcart Hne).
  apply validate_None in Hav. rewrite Hav.
  unfold Checkout.afterCount. fold queueNumber p.
  rewrite (transaction_commits env p queueNumber db Hcode Hid
             (cart_findUnique_is_Some _ _ _ Hcart)).
  reflexivity.
Qed.

End CheckoutRuns.

(** C3.  A checkout by an authenticated caller with a valid payload that
    fails a precondition answers 409 and leaves the store exactly as it
    was: "Keranjang kosong." when the cart is absent or has no line;
    otherwise at the first line, in cart order, that fails a check -- the
    product is not active (ProductUnavailable), or the quantity exceeds
    the stock (InsufficientStock).  No order or order line is created and
    the cart is not deleted. *)
Theorem checkout_failure_no_effect (env : Env) (uid : string)
    (raw : Checkout.RawBody) (d : DiningType) (c : PaymentChoice) (db : DB) :
  JS.truthy (Some uid) = true ->
  Checkout.bodySchema raw = Some (d, c) ->
  let req := Checkout.mkRequest (Some uid) raw in
  ((carts db !! uid = None \/
    exists cart, carts db !! uid = Some cart /\ Cart.items cart = []) ->
   Checkout.POST env req db
   = (jsonStatus (ErrorBody "Keranjang kosong.") 409, db)) /\
  (forall (pre : list Prisma.Line) (it : Prisma.Line) (post : list Prisma.Line),
     Prisma.cart_findUnique db uid = Some (Some (pre ++ it :: post)%list) ->
     Forall available pre ->
     (Product.isActive (Prisma.product it) = false ->
      Checkout.POST env req db
      = (jsonStatus (ErrorBody ("Produk " +:+ Product.name (Prisma.product it)
                                +:+ " tidak tersedia.")) 409, db)) /\
     (Product.isActive (Prisma.product it) = true ->
      Prisma.qty it > Product.stock (Prisma.product it) ->
      Checkout.POST env req db
      = (jsonStatus (ErrorBody ("Stok " +:+ Product.name (Prisma.product it)
                                +:+ " tidak mencukupi.")) 409, db))).
Proof.
  intros Hu Hb req. split.
  - apply (POST_empty_cart env uid raw d c db Hu Hb).
  - intros pre it post Hcart Hpre. split.
    + intros Hinactive.
      apply (POST_rejected env uid raw d c db Hu Hb _ _ Hcart).
      rewrite validate_first by exact Hpre. simpl. now rewrite Hinactive.
    + intros Hactive Hqty.
      apply (POST_rejected env uid raw d c db Hu Hb _ _ Hcart).
      rewrite validate_first by exact Hpre. simpl. rewrite Hactive. simpl.
      destruct (Z.gtb_spec (Prisma.qty it) (Product.stock (Prisma.product it)));
        [reflexivity | lia].
Qed.

Lemma checkout_failure_no_effect_witness :
  Checkout.POST Fixture.env1 (Fixture.request "u1" "CASH") Fixture.scarce
  = (jsonStatus (ErrorBody "Stok Nasi Goreng tidak mencukupi.") 409,
     Fixture.scarce) /\
  Checkout.POST Fixture.env1 (Fixture.request "u2" "CASH") Fixture.scarce
  = (jsonStatus (ErrorBody "Keranjang kosong.") 409, Fixture.scarce).
Proof.
  split.
  - destruct (checkout_failure_no_effect Fixture.env1 "u1"
                (Checkout.mkRawBody (Some "DINE_IN") (Some "CASH"))
                DINE_IN CASH Fixture.scarce eq_refl eq_refl) as [_ H].
    apply (H [] (Prisma.mkLine 4 "pA"
                   (Product.mk "Nasi Goreng" 25000 3 true None MAIN)) []).
    + vm_compute. reflexivity.
    + constructor.
    + reflexivity.
    + simpl. lia.
  - destruct (checkout_failure_no_effect Fixture.env1 "u2"
                (Checkout.mkRawBody (Some "DINE_IN") (Some "CASH"))
                DINE_IN CASH Fixture.scarce eq_refl eq_refl) as [H _].
    apply H. left. vm_compute. reflexivity.
Defined.

(** C4 (as the code has it).  A checkout of a non-empty cart whose lines
    all pass validation, whose amounts stay within the safe integers (every
    line amount and every running sum at most 2^53 - 1), and whose order
    commit goes through, stores an order with
    subtotal = Σ(line.price × line.qty) over the cart lines at the prices
    read with the cart, discount = 0, tax = 0 and
    total = subtotal − discount + tax; a CASH checkout answers
    { ok: true, orderId, code, total, payment: { method: "CASH" } } with
    that total. *)
Theorem checkout_totals (env : Env) (uid : string) (raw : Checkout.RawBody)
    (d : DiningType) (c : PaymentChoice) (db : DB) (items : list Prisma.Line) :
  JS.truthy (Some uid) = true ->
  Checkout.bodySchema raw = Some (d, c) ->
  Prisma.cart_findUnique db uid = Some (Some items) ->
  items <> [] ->
  Forall available items ->
  safeAmounts items ->
  let code := Checkout.makeOrderCode (now env)
                (Checkout.getTodayQueueNumber (now env) db) in
  Prisma.order_findUnique db code = None ->
  Forall (fun o => Order.id o <> newOrderId env) (orders db) ->
  let req := Checkout.mkRequest (Some uid) raw in
  exists order,
    snd (Checkout.POST env req db)
    = mkDB (products db) (delete uid (carts db)) (orders db ++ [order]) /\
    Order.id order = newOrderId env /\
    Order.code order = code /\
    Order.subtotal order = sumLines items /\
    Order.discount order = 0 /\
    Order.tax order = 0 /\
    Order.total order
    = Order.subtotal order - Order.discount order + Order.tax order /\
    Order.total order = sumLines items /\
    (c = CASH ->
     fst (Checkout.POST env req db)
     = json (CheckoutCash (newOrderId env) code (sumLines items))).
Proof.
  intros Hu Hb Hcart Hne Hav Hsafe code Hcode Hid req.
  pose proof (POST_commits env uid raw d c db Hu Hb items Hcart Hne Hav Hcode Hid)
    as HP. cbv zeta in HP. rewrite (subtotalOf_sum items Hsafe) in HP.
  unfold req. rewrite HP.
  eexists. split; [reflexivity|]. cbn [Order.id Order.code Order.subtotal
    Order.discount Order.tax Order.total fst].
  repeat split; try reflexivity; try lia.
  intros ->. reflexivity.
Qed.

Lemma checkout_totals_witness :
  sumLines [Prisma.mkLine 2 "pA" Fixture.productA;
            Prisma.mkLine 1 "pB" Fixture.productB] = 65000 /\
  exists order,
    snd (Checkout.POST Fixture.env1 (Fixture.request "u1" "CASH") Fixture.db0)
    = mkDB (products Fixture.db0) (delete "u1" (carts Fixture.db0)) [order] /\
    Order.subtotal order = 65000 /\
    Order.total order = 65000 /\
    fst (Checkout.POST Fixture.env1 (Fixture.request "u1" "CASH") Fixture.db0)
    = json (CheckoutCash "0a1b2c3d-0000-4000-8000-000000000001"
                         "ORD-20240117-001" 65000).
Proof.
  split; [reflexivity|].
  destruct (checkout_totals Fixture.env1 "u1"
              (Checkout.mkRawBody (Some "DINE_IN") (Some "CASH"))
              DINE_IN CASH Fixture.db0
              [Prisma.mkLine 2 "pA" Fixture.productA;
               Prisma.mkLine 1 "pB" Fixture.productB])
    as (order & Hdb & _ & _ & Hsub & _ & _ & _ & Htot & Hcash).
  - reflexivity.
  - reflexivity.
  - vm_compute. reflexivity.
  - discriminate.
  - repeat constructor; simpl; lia.
  - reflexivity.
  - vm_compute. reflexivity.
  - constructor.
  - exists order. split; [exact Hdb|]. split; [exact Hsub|].
    split; [exact Htot|]. exact (Hcash eq_refl).
Defined.

(** C4: the claim as written fails.  The handler adds and multiplies
    JavaScript numbers, which are doubles, not exact integers.  A cart
    with three pieces of a product priced 9007199254740991 (2^53 - 1)
    passes every check; Σ(price × qty) is 27021597764222973, and the
    checkout stores and answers 27021597764222972 as line total, subtotal
    and total. *)
Lemma checkout_total_rounds :
  let items := [Prisma.mkLine 3 "pX"
                  (Product.mk "Wagyu" 9007199254740991 5 true None MAIN)] in
  Prisma.cart_findUnique Fixture.dear "u1" = Some (Some items) /\
  Forall available items /\
  sumLines items = 27021597764222973 /\
  Checkout.POST Fixture.env1 (Fixture.request "u1" "CASH") Fixture.dear
  = (json (CheckoutCash "0a1b2c3d-0000-4000-8000-000000000001"
                        "ORD-20240117-001" 27021597764222972),
     mkDB (products Fixture.dear) (delete "u1" (carts Fixture.dear))
          [Order.mk "0a1b2c3d-0000-4000-8000-000000000001" "ORD-20240117-001"
                    "001" DINE_IN AWAITING_PAYMENT
                    27021597764222972 0 0 27021597764222972 "u1" Fixture.today
                    None
                    [OrderItem.mk "pX" 3 9007199254740991
                                  27021597764222972]]).
Proof.
  intros items. split; [vm_compute; reflexivity|].
  split; [repeat constructor; simpl; lia|].
  split; [reflexivity|]. vm_compute. reflexivity.
Qed.

(** ** Payment confirmation *)

Section ConfirmLemmas.

Lemma decrementStock_0 (p : Product.t) : Product.decrementStock 0 p = p.
Proof. destruct p. unfold Product.decrementStock. simpl. f_equal. lia. Qed.

Lemma decrementStock_add (q r : Z) (p : Product.t) :
  Product.decrementStock r (Product.decrementStock q p)
  = Product.decrementStock (q + r) p.
Proof. unfold Product.decrementStock. simpl. f_equal. lia. Qed.

(** The loop of decrements, when every line's product row exists: each
    row loses the quantities of the lines that reference it, and nothing
    else in the store changes. *)
Lemma decrementAll_spec (items : list OrderItem.t) : forall db,
  Forall (fun it => is_Some (products db !! OrderItem.productId it)) items ->
  exists ps,
    OrderByCode.decrementAll items db = Some (setProducts ps db) /\
    forall pid,
      ps !! pid
      = Product.decrementStock (orderedQty pid items) <$> products db !! pid.
Proof.
  induction items as [|it rest IH]; intros db Hall.
  - exists (products db). split; [destruct db; reflexivity|].
    intros pid. simpl. destruct (products db !! pid) as [p|]; simpl;
      [now rewrite decrementStock_0 | reflexivity].
  - inversion Hall as [|? ? [p Hp] Hrest]; subst.
    set (db1 := setProducts
                  (<[OrderItem.productId it :=
                       Product.decrementStock (OrderItem.qty it) p]>
                     (products db)) db).
    assert (Hstep : OrderByCode.decrementAll (it :: rest) db
                    = OrderByCode.decrementAll rest db1).
    { cbn [OrderByCode.decrementAll]. unfold Prisma.product_decrement.
      rewrite Hp. reflexivity. }
    destruct (IH db1) as (ps & Hrun & Hps).
    { eapply Forall_impl; [exact Hrest|]. intros it' [p' Hp']. simpl.
      rewrite lookup_insert. case_decide; eauto. }
    exists ps. split; [rewrite Hstep, Hrun; reflexivity|].
    intros pid. rewrite Hps. simpl. rewrite lookup_insert.
    destruct (String.eqb_spec (OrderItem.productId it) pid) as [He|Hne].
    + rewrite decide_True by exact He. rewrite <- He, Hp. simpl.
      now rewrite decrementStock_add.
    + rewrite decide_False by exact Hne. reflexivity.
Qed.

Lemma find_map_preserved (P : Order.t -> bool) (f : Order.t -> Order.t)
    (l : list Order.t) :
  (forall o, P (f o) = P o) -> List.find P (map f l) = f <$> List.find P l.
Proof.
  intros HP. induction l as [|o l IH]; simpl; [reflexivity|].
  rewrite HP. destruct (P o); [reflexivity | exact IH].
Qed.

Lemma markPaid_if_code (now : Date.t) (id : string) (o : Order.t) :
  Order.code (if String.eqb (Order.id o) id then Order.markPaid now o else o)
  = Order.code o.
Proof. destruct (String.eqb (Order.id o) id); reflexivity. Qed.

Lemma markPaid_if_customer (now : Date.t) (id : string) (o : Order.t) :
  Order.customerId
    (if String.eqb (Order.id o) id then Order.markPaid now o else o)
  = Order.customerId o.
Proof. destruct (String.eqb (Order.id o) id); reflexivity. Qed.

Lemma order_update_found (id : string) (f : Order.t -> Order.t) (db : DB)
    (o : Order.t) :
  In o (orders db) -> Order.id o = id ->
  Prisma.order_update id f db
  = Some (setOrders
            (map (fun o => if String.eqb (Order.id o) id then f o else o)
                 (orders db)) db).
Proof.
  intros Hin Hid. unfold Prisma.order_update.
  replace (existsb _ (orders db)) with true; [reflexivity|].
  symmetry. apply existsb_exists. exists o. split; [exact Hin|].
  now apply String.eqb_eq.
Qed.

(** The first confirmation of an order that awaits payment. *)
Lemma POST_confirms (now : Date.t) (code : string) (db : DB) (order : Order.t) :
  Prisma.order_findUnique db code = Some order ->
  Order.status order = AWAITING_PAYMENT ->
  Forall (fun it => is_Some (products db !! OrderItem.productId it))
         (Order.items order) ->
  exists ps,
    OrderByCode.POST now code db
    = (json OkBody,
       mkDB ps (carts db)
            (map (fun o => if String.eqb (Order.id o) (Order.id order)
                           then Order.markPaid now o else o) (orders db))) /\
    forall pid,
      ps !! pid
      = Product.decrementStock (orderedQty pid (Order.items order))
          <$> products db !! pid.
Proof.
  intros Hfind Hst Hrows.
  destruct (decrementAll_spec (Order.items order) db Hrows) as (ps & Hrun & Hps).
  exists ps. split; [|exact Hps].
  unfold OrderByCode.POST, OrderByCode.findOrder. rewrite Hfind, Hst.
  unfold OrderByCode.afterRead, OrderByCode.transaction. rewrite Hrun. simpl.
  unfold Prisma.order_findUnique in Hfind. apply find_some in Hfind as [Hin _].
  rewrite (order_update_found _ _ _ order); [reflexivity | exact Hin | reflexivity].
Qed.

(** A confirmation of an order that is PAID changes nothing. *)
Lemma POST_already (now : Date.t) (code : string) (db : DB) (order : Order.t) :
  Prisma.order_findUnique db code = Some order ->
  Order.status order = PAID ->
  OrderByCode.POST now code db = (json OkAlready, db).
Proof.
  intros Hfind Hst. unfold OrderByCode.POST, OrderByCode.findOrder.
  now rewrite Hfind, Hst.
Qed.

(** After the first confirmation the code leads to the order marked PAID. *)
Lemma findUnique_after_markPaid (now : Date.t) (code : string) (db : DB)
    (order : Order.t) (ps : gmap string Product.t) :
  Prisma.order_findUnique db code = Some order ->
  Prisma.order_findUnique
    (mkDB ps (carts db)
          (map (fun o => if String.eqb (Order.id o) (Order.id order)
                         then Order.markPaid now o else o) (orders db)))
    code
  = Some (Order.markPaid now order).
Proof.
  intros Hfind. unfold Prisma.order_findUnique in *. simpl.
  rewrite find_map_preserved by (intros o; now rewrite markPaid_if_code).
  rewrite Hfind. simpl. now rewrite String.eqb_refl.
Qed.

Lemma orderedQty_single (items : list OrderItem.t) (it : OrderItem.t) :
  NoDup (map OrderItem.productId items) -> In it items ->
  orderedQty (OrderItem.productId it) items = OrderItem.qty it.
Proof.
  induction items as [|x rest IH]; intros Hnd Hin; [destruct Hin|].
  simpl in Hnd. apply NoDup_cons in Hnd as [Hx Hnd]. simpl.
  assert (Hrest : forall y, In y rest ->
                    OrderItem.productId y <> OrderItem.productId x).
  { intros y Hy Heq. apply Hx. rewrite <- Heq.
    apply list_elem_of_In, in_map. exact Hy. }
  destruct Hin as [->|Hin].
  - rewrite String.eqb_refl.
    assert (orderedQty (OrderItem.productId it) rest = 0) as ->; [|lia].
    clear -Hrest. induction rest as [|y rest IH]; simpl; [reflexivity|].
    destruct (String.eqb_spec (OrderItem.productId y) (OrderItem.productId it))
      as [He|_].
    + exfalso. apply (Hrest y); [now left | exact He].
    + apply IH. intros z Hz. apply Hrest. now right.
  - destruct (String.eqb_spec (OrderItem.productId x) (OrderItem.productId it))
      as [He|_].
    + exfalso. apply (Hrest it Hin). now symmetry.
    + now apply IH.
Qed.

End ConfirmLemmas.

(** C1.  Payment confirmation is idempotent.  For an order that awaits
    payment, the first POST /orders/{code} answers { ok: true }, takes from
    every product the quantities of the order lines that reference it (one
    line's quantity when the lines reference distinct products), and
    leaves the order PAID with a closure timestamp; a second confirmation
    of the same code answers { ok: true, already: true } and changes
    neither the stock nor the order, so every line's quantity has been
    taken once. *)
Theorem confirmation_idempotent (now1 now2 : Date.t) (code : string) (db : DB)
    (order : Order.t) :
  Prisma.order_findUnique db code = Some order ->
  Order.status order = AWAITING_PAYMENT ->
  Forall (fun it => is_Some (products db !! OrderItem.productId it))
         (Order.items order) ->
  let r1 := fst (OrderByCode.POST now1 code db) in
  let db1 := snd (OrderByCode.POST now1 code db) in
  let r2 := fst (OrderByCode.POST now2 code db1) in
  let db2 := snd (OrderByCode.POST now2 code db1) in
  r1 = json OkBody /\
  (forall pid,
     stockOf db1 pid
     = (fun s => s - orderedQty pid (Order.items order)) <$> stockOf db pid) /\
  (NoDup (map OrderItem.productId (Order.items order)) ->
   forall it, In it (Order.items order) ->
     stockOf db1 (OrderItem.productId it)
     = (fun s => s - OrderItem.qty it) <$> stockOf db (OrderItem.productId it)) /\
  (exists paid,
     Prisma.order_findUnique db1 code = Some paid /\
     Order.status paid = PAID /\
     Order.closedAt paid = Some now1 /\
     Order.items paid = Order.items order /\
     Order.total paid = Order.total order) /\
  r2 = json OkAlready /\
  db2 = db1 /\
  (forall pid,
     stockOf db2 pid
     = (fun s => s - orderedQty pid (Order.items order)) <$> stockOf db pid).
Proof.
  intros Hfind Hst Hrows r1 db1 r2 db2.
  destruct (POST_confirms now1 code db order Hfind Hst Hrows) as (ps & Hrun & Hps).
  assert (Hstock : forall pid,
            stockOf db1 pid
            = (fun s => s - orderedQty pid (Order.items order)) <$> stockOf db pid).
  { intros pid. unfold db1, stockOf. rewrite Hrun. cbn [snd products].
    rewrite Hps. destruct (products db !! pid); reflexivity. }
  assert (Hpaid : Prisma.order_findUnique db1 code = Some (Order.markPaid now1 order)).
  { unfold db1. rewrite Hrun. cbn [snd].
    now apply findUnique_after_markPaid. }
  assert (Hsecond : OrderByCode.POST now2 code db1 = (json OkAlready, db1)).
  { now apply (POST_already now2 code db1 (Order.markPaid now1 order)). }
  split; [unfold r1; now rewrite Hrun|].
  split; [exact Hstock|].
  split.
  { intros Hnd it Hin. rewrite Hstock.
    now rewrite (orderedQty_single _ _ Hnd Hin). }
  split.
  { exists (Order.markPaid now1 order). repeat split. exact Hpaid. }
  split; [unfold r2; now rewrite Hsecond|].
  split; [unfold db2; now rewrite Hsecond|].
  unfold db2. rewrite Hsecond. exact Hstock.
Qed.

Lemma confirmation_idempotent_witness :
  stockOf Fixture.db1 "pA" = Some 10 /\
  stockOf Fixture.db1 "pB" = Some 5 /\
  let db2 := snd (OrderByCode.POST Fixture.later "ORD-20240117-001" Fixture.db1) in
  let db3 := snd (OrderByCode.POST Fixture.later "ORD-20240117-001" db2) in
  stockOf db2 "pA" = Some 8 /\ stockOf db2 "pB" = Some 4 /\
  fst (OrderByCode.POST Fixture.later "ORD-20240117-001" db2) = json OkAlready /\
  db3 = db2 /\
  stockOf db3 "pA" = Some 8 /\ stockOf db3 "pB" = Some 4.
Proof.
  split; [reflexivity|]. split; [reflexivity|].
  destruct (confirmation_idempotent Fixture.later Fixture.later
              "ORD-20240117-001" Fixture.db1
              (Order.mk "0a1b2c3d-0000-4000-8000-000000000001"
                        "ORD-20240117-001" "001" DINE_IN AWAITING_PAYMENT
                        65000 0 0 65000 "u1" Fixture.today None
                        [OrderItem.mk "pA" 2 25000 50000;
                         OrderItem.mk "pB" 1 15000 15000]))
    as (_ & H1 & _ & _ & Hr2 & Hdb & H2).
  - vm_compute. reflexivity.
  - reflexivity.
  - repeat constructor; vm_compute; eauto.
  - cbv zeta.
    split; [rewrite H1; reflexivity|].
    split; [rewrite H1; reflexivity|].
    split; [exact Hr2|].
    split; [exact Hdb|].
    split; rewrite H2; reflexivity.
Defined.

(** ** Clearing the cart *)

(** C10.  For an authenticated user DELETE /api/cart answers { ok: true }
    whether or not the user has a cart: an existing cart is removed, a
    missing one makes the delete fail and the failure is swallowed.  A
    second DELETE answers { ok: true } again and leaves the store, in
    which the cart is absent, as it is. *)
Theorem cart_delete_always_ok (uid : string) (db : DB) :
  let r1 := fst (CartRoute.DELETE (Some uid) db) in
  let db1 := snd (CartRoute.DELETE (Some uid) db) in
  let r2 := fst (CartRoute.DELETE (Some uid) db1) in
  let db2 := snd (CartRoute.DELETE (Some uid) db1) in
  r1 = json OkBody /\
  carts db1 !! uid = None /\
  (forall u, u <> uid -> carts db1 !! u = carts db !! u) /\
  products db1 = products db /\
  orders db1 = orders db /\
  (carts db !! uid = None -> Prisma.cart_delete uid db = None /\ db1 = db) /\
  r2 = json OkBody /\
  db2 = db1.
Proof.
  intros r1 db1 r2 db2.
  assert (Hgone : carts db1 !! uid = None).
  { unfold db1, CartRoute.DELETE, Prisma.cart_delete. cbn [snd].
    destruct (carts db !! uid) eqn:Hc; [apply lookup_delete_eq | exact Hc]. }
  split; [reflexivity|].
  split; [exact Hgone|].
  split.
  { intros u Hu. unfold db1, CartRoute.DELETE, Prisma.cart_delete. cbn [snd].
    destruct (carts db !! uid); [cbn; now rewrite lookup_delete_ne | reflexivity]. }
  split.
  { unfold db1, CartRoute.DELETE, Prisma.cart_delete. cbn [snd].
    destruct (carts db !! uid); reflexivity. }
  split.
  { unfold db1, CartRoute.DELETE, Prisma.cart_delete. cbn [snd].
    destruct (carts db !! uid); reflexivity. }
  split.
  { intros Hnone. unfold db1, CartRoute.DELETE, Prisma.cart_delete. cbn [snd].
    now rewrite Hnone. }
  split; [reflexivity|].
  unfold db2, CartRoute.DELETE, Prisma.cart_delete. cbn [snd].
  now rewrite Hgone.
Qed.

(** ** Cashless checkout and the gateway *)

(** C8.  A CASHLESS checkout whose order commit succeeds and whose gateway
    step then fails answers with an error of its own (500): the server key
    is not configured, or the token call that this checkout makes -- for
    the transaction id code-xxxxxxxx, the order's total, id and code --
    throws.  The committed order with its lines stays in the store in
    status AWAITING_PAYMENT and the cart stays deleted. *)
Theorem cashless_gateway_failure_keeps_order (env : Env) (uid : string)
    (raw : Checkout.RawBody) (d : DiningType) (db : DB)
    (items : list Prisma.Line) :
  JS.truthy (Some uid) = true ->
  Checkout.bodySchema raw = Some (d, CASHLESS) ->
  Prisma.cart_findUnique db uid = Some (Some items) ->
  items <> [] ->
  Forall available items ->
  let queueNumber := Checkout.getTodayQueueNumber (now env) db in
  let code := Checkout.makeOrderCode (now env) queueNumber in
  Prisma.order_findUnique db code = None ->
  Forall (fun o => Order.id o <> newOrderId env) (orders db) ->
  let req := Checkout.mkRequest (Some uid) raw in
  let r := fst (Checkout.POST env req db) in
  let db' := snd (Checkout.POST env req db) in
  let order :=
    Order.mk (newOrderId env) code queueNumber d AWAITING_PAYMENT
             (Checkout.subtotalOf items) 0 0 (Checkout.subtotalOf items)
             uid (now env) None
             (map (fun it =>
                     OrderItem.mk (Prisma.productId it) (Prisma.qty it)
                                  (Product.price (Prisma.product it))
                                  (JS.mul (Product.price (Prisma.product it))
                                          (Prisma.qty it)))
                  items) in
  let isProduction :=
    match MIDTRANS_IS_PRODUCTION env with
    | Some v => String.eqb v "true"
    | None => false
    end in
  let snapParams :=
    mkSnapParams (code +:+ "-" +:+ JS.slice0 8 (newOrderId env))
                 (Checkout.subtotalOf items) true (newOrderId env) code in
  (db' = mkDB (products db) (delete uid (carts db)) (orders db ++ [order])%list /\
   Prisma.order_findUnique db' code = Some order /\
   Order.status order = AWAITING_PAYMENT /\
   carts db' !! uid = None) /\
  (JS.truthy (MIDTRANS_SERVER_KEY env) = false ->
   r = jsonStatus (ErrorBody "MIDTRANS_SERVER_KEY tidak dikonfigurasi.") 500) /\
  (forall serverKey,
     MIDTRANS_SERVER_KEY env = Some serverKey ->
     JS.truthy (Some serverKey) = true ->
     createTransactionToken env isProduction serverKey snapParams = None ->
     r = jsonStatus (ErrorBody "Terjadi kesalahan pada server.") 500).
Proof.
  intros Hu Hb Hcart Hne Hav queueNumber code Hcode Hid req r db' order
         isProduction snapParams.
  pose proof (POST_commits env uid raw d CASHLESS db Hu Hb items Hcart Hne Hav
                Hcode Hid) as HP.
  cbv zeta in HP. fold queueNumber code in HP.
  change (Order.mk (newOrderId env) code queueNumber d AWAITING_PAYMENT
            (Checkout.subtotalOf items) 0 0 (Checkout.subtotalOf items)
            uid (now env) None (map Checkout.orderItemOf items))
    with order in HP.
  unfold r, db', req. rewrite HP. cbn [fst snd].
  split.
  { split; [reflexivity|].
    split.
    { unfold Prisma.order_findUnique in *. cbn [orders].
      rewrite (find_app_None _ _ _ Hcode). cbn [List.find Order.code order].
      unfold order at 1. cbn [Order.code]. now rewrite String.eqb_refl. }
    split; [reflexivity|]. apply lookup_delete_eq. }
  split.
  - intros Hkey. unfold Checkout.payment. cbn [Checkout.paymentChoice].
    destruct (MIDTRANS_SERVER_KEY env) as [k|]; [|reflexivity].
    now rewrite Hkey.
  - intros serverKey Hkey Htruthy Hdown. unfold Checkout.payment.
    cbn [Checkout.paymentChoice]. rewrite Hkey, Htruthy. cbn [negb].
    fold isProduction. unfold order. cbn [Order.code Order.id Order.total].
    fold snapParams. now rewrite Hdown.
Qed.

Lemma cashless_gateway_failure_keeps_order_witness :
  (fst (Checkout.POST Fixture.envNoKey (Fixture.request "u1" "CASHLESS")
          Fixture.db0)
   = jsonStatus (ErrorBody "MIDTRANS_SERVER_KEY tidak dikonfigurasi.") 500 /\
   Prisma.order_findUnique
     (snd (Checkout.POST Fixture.envNoKey (Fixture.request "u1" "CASHLESS")
             Fixture.db0)) "ORD-20240117-001"
   = Some (Order.mk "0a1b2c3d-0000-4000-8000-000000000001" "ORD-20240117-001"
                    "001" DINE_IN AWAITING_PAYMENT 65000 0 0 65000 "u1"
                    Fixture.today None
                    [OrderItem.mk "pA" 2 25000 50000;
                     OrderItem.mk "pB" 1 15000 15000])) /\
  createTransactionToken Fixture.envRefused false "SB-key"
    (mkSnapParams "ORD-20240117-002-0a1b2c3d" 65000 true
                  "0a1b2c3d-0000-4000-8000-000000000001" "ORD-20240117-002")
  <> None /\
  fst (Checkout.POST Fixture.envRefused (Fixture.request "u1" "CASHLESS")
         Fixture.db0)
  = jsonStatus (ErrorBody "Terjadi kesalahan pada server.") 500.
Proof.
  split; [|split; [discriminate|]].
  - destruct (cashless_gateway_failure_keeps_order Fixture.envNoKey "u1"
                (Checkout.mkRawBody (Some "DINE_IN") (Some "CASHLESS"))
                DINE_IN Fixture.db0
                [Prisma.mkLine 2 "pA" Fixture.productA;
                 Prisma.mkLine 1 "pB" Fixture.productB])
      as ((_ & Hfind & _) & Hnokey & _).
    + reflexivity.
    + reflexivity.
    + vm_compute. reflexivity.
    + discriminate.
    + repeat constructor; simpl; lia.
    + vm_compute. reflexivity.
    + constructor.
    + split; [exact (Hnokey eq_refl) | exact Hfind].
  - destruct (cashless_gateway_failure_keeps_order Fixture.envRefused "u1"
                (Checkout.mkRawBody (Some "DINE_IN") (Some "CASHLESS"))
                DINE_IN Fixture.db0
                [Prisma.mkLine 2 "pA" Fixture.productA;
                 Prisma.mkLine 1 "pB" Fixture.productB])
      as (_ & _ & Hdown).
    + reflexivity.
    + reflexivity.
    + vm_compute. reflexivity.
    + discriminate.
    + repeat constructor; simpl; lia.
    + vm_compute. reflexivity.
    + constructor.
    + apply (Hdown "SB-key"); [reflexivity | reflexivity |].
      vm_compute. reflexivity.
Defined.

(** ** Price locking *)

Section PriceLocking.

Lemma joined_rows (db : DB) (cartItems : list CartItem.t)
    (items : list Prisma.Line) :
  mapM (Prisma.joinProduct db) cartItems = Some items ->
  Forall (fun it => products db !! Prisma.productId it
                    = Some (Prisma.product it)) items.
Proof.
  intros H. apply mapM_Some_1 in H.
  induction H as [|ci it cis its Hj _ IH]; constructor; [|exact IH].
  unfold Prisma.joinProduct in Hj.
  destruct (products db !! CartItem.productId ci) as [p|] eqn:Hp;
    [|discriminate].
  simpl in Hj. injection Hj as <-. exact Hp.
Qed.

Lemma cart_rows (db : DB) (uid : string) (items : list Prisma.Line) :
  Prisma.cart_findUnique db uid = Some (Some items) ->
  namesKept items db.
Proof.
  unfold Prisma.cart_findUnique.
  destruct (carts db !! uid) as [cart|]; [|discriminate].
  intros H. injection H as H. apply joined_rows in H.
  eapply Forall_impl; [exact H|]. intros it Hit. simpl. now rewrite Hit.
Qed.

Lemma detail_rows (db : DB) (items : list Prisma.Line) :
  namesKept items db ->
  mapM (OrderByCode.detailItem db) (map Checkout.orderItemOf items)
  = Some (map detailOf items).
Proof.
  intros H. apply mapM_Some_2.
  induction H as [|it items Hit _ IH]; simpl; constructor; [|exact IH].
  unfold OrderByCode.detailItem, Checkout.orderItemOf. cbn [OrderItem.productId].
  destruct (products db !! Prisma.productId it) as [p|]; [|discriminate].
  simpl in Hit. injection Hit as Hit. simpl. unfold detailOf. now rewrite Hit.
Qed.

(** The answer of GET for an order whose lines were copied from [items]. *)
Lemma GET_order (uid code : string) (db : DB) (o : Order.t)
    (items : list Prisma.Line) :
  JS.truthy (Some uid) = true ->
  Prisma.order_findFirst db code uid = Some o ->
  Order.items o = map Checkout.orderItemOf items ->
  namesKept items db ->
  OrderByCode.GET (Some uid) code db
  = json (OrderDetail (Order.code o) (Order.status o) (Order.total o)
                      (map detailOf items)).
Proof.
  intros Hu Hfind Hitems Hnames. unfold OrderByCode.GET.
  rewrite Hu, Hfind, Hitems. cbn [negb].
  now rewrite (detail_rows db items Hnames).
Qed.

Lemma namesKept_setPrice (items : list Prisma.Line) (pid : string) (v : Z)
    (db : DB) :
  namesKept items db -> namesKept items (Catalog.setPrice pid v db).
Proof.
  intros H. eapply Forall_impl; [exact H|]. intros it Hit. simpl.
  rewrite lookup_alter. case_decide as Hd; [|exact Hit].
  subst pid. simpl in Hit.
  destruct (products db !! Prisma.productId it) as [p|]; [|discriminate].
  exact Hit.
Qed.

Lemma namesKept_decremented (items : list Prisma.Line) (db : DB)
    (ps : gmap string Product.t) (cs : gmap string Cart.t)
    (os : list Order.t) (q : string -> Z) :
  (forall pid, ps !! pid = Product.decrementStock (q pid) <$> products db !! pid) ->
  namesKept items db -> namesKept items (mkDB ps cs os).
Proof.
  intros Hps H. eapply Forall_impl; [exact H|]. intros it Hit. simpl.
  rewrite Hps. simpl in Hit.
  destruct (products db !! Prisma.productId it); [exact Hit | discriminate].
Qed.

Lemma namesKept_rows (items : list Prisma.Line) (db : DB) :
  namesKept items db ->
  Forall (fun it => is_Some (products db !! OrderItem.productId it))
         (map Checkout.orderItemOf items).
Proof.
  intros H. apply Forall_map. eapply Forall_impl; [exact H|].
  intros it Hit. unfold Checkout.orderItemOf. cbn [OrderItem.productId].
  cbv beta in Hit.
  destruct (products db !! Prisma.productId it); [eauto | discriminate].
Qed.

Lemma findFirst_after_markPaid (now : Date.t) (code uid : string)
    (os : list Order.t) (order : Order.t) (ps : gmap string Product.t)
    (cs : gmap string Cart.t) (db : DB) :
  orders db = os ->
  Prisma.order_findFirst db code uid = Some order ->
  Prisma.order_findFirst
    (mkDB ps cs
          (map (fun o => if String.eqb (Order.id o) (Order.id order)
                         then Order.markPaid now o else o) os))
    code uid
  = Some (Order.markPaid now order).
Proof.
  intros <- Hfind. unfold Prisma.order_findFirst in *. simpl.
  rewrite find_map_preserved
    by (intros o; now rewrite markPaid_if_code, markPaid_if_customer).
  rewrite Hfind. simpl. now rewrite String.eqb_refl.
Qed.

(** What GET answers once an order that awaits payment, found under
    [code] by both lookups, has been confirmed. *)
Lemma GET_after_confirm (now : Date.t) (uid code : string) (db : DB)
    (order : Order.t) (items : list Prisma.Line) :
  JS.truthy (Some uid) = true ->
  Prisma.order_findUnique db code = Some order ->
  Prisma.order_findFirst db code uid = Some order ->
  Order.status order = AWAITING_PAYMENT ->
  Order.items order = map Checkout.orderItemOf items ->
  namesKept items db ->
  let db' := snd (OrderByCode.POST now code db) in
  namesKept items db' /\
  OrderByCode.GET (Some uid) code db'
  = json (OrderDetail (Order.code order) PAID (Order.total order)
                      (map detailOf items)).
Proof.
  intros Hu Hfu Hff Hst Hitems Hnames db'.
  destruct (POST_confirms now code db order Hfu Hst) as (ps & Hrun & Hps).
  { rewrite Hitems. now apply namesKept_rows. }
  unfold db'. rewrite Hrun. cbn [snd].
  assert (Hn : namesKept items
                 (mkDB ps (carts db)
                    (map (fun o => if String.eqb (Order.id o) (Order.id order)
                                   then Order.markPaid now o else o)
                         (orders db)))).
  { eapply (namesKept_decremented items db ps _ _
              (fun pid => orderedQty pid (Order.items order))); eauto. }
  split; [exact Hn|].
  rewrite (GET_order uid code _ (Order.markPaid now order) items Hu);
    [reflexivity | | exact Hitems | exact Hn].
  now apply (findFirst_after_markPaid now code uid (orders db) order ps _ db).
Qed.

End PriceLocking.

Section PriceEdit.

Lemma detailItem_setPrice (pid : string) (v : Z) (db : DB) (it : OrderItem.t) :
  OrderByCode.detailItem (Catalog.setPrice pid v db) it
  = OrderByCode.detailItem db it.
Proof.
  unfold OrderByCode.detailItem, Catalog.setPrice. cbn [products setProducts].
  rewrite lookup_alter. case_decide as Hd; [|reflexivity].
  subst pid. destruct (products db !! OrderItem.productId it); reflexivity.
Qed.

(** A price edit is invisible to GET, whatever the store and the order. *)
Lemma GET_setPrice (user : option string) (code pid : string) (v : Z) (db : DB) :
  OrderByCode.GET user code (Catalog.setPrice pid v db)
  = OrderByCode.GET user code db.
Proof.
  unfold OrderByCode.GET. destruct user as [uid|]; [|reflexivity].
  destruct (negb (JS.truthy (Some uid))); [reflexivity|].
  change (Prisma.order_findFirst (Catalog.setPrice pid v db) code uid)
    with (Prisma.order_findFirst db code uid).
  destruct (Prisma.order_findFirst db code uid) as [o|]; [|reflexivity].
  now rewrite (mapM_ext _ _ _ (detailItem_setPrice pid v db)).
Qed.

End PriceEdit.

(** C7.  Price locking.  Once a checkout has committed an order, GET
    /orders/{code} reports for every line the unit price and line total
    copied from the cart at checkout, and the order total computed then
    (Σ(price × qty) at the cart's prices when the amounts are safe
    integers).  Editing a product's catalog price afterwards -- before or
    after the payment confirmation -- changes neither the stored order and
    its lines nor what GET reports. *)
Theorem price_locking (env : Env) (uid : string) (raw : Checkout.RawBody)
    (d : DiningType) (c : PaymentChoice) (db : DB) (items : list Prisma.Line) :
  JS.truthy (Some uid) = true ->
  Checkout.bodySchema raw = Some (d, c) ->
  Prisma.cart_findUnique db uid = Some (Some items) ->
  items <> [] ->
  Forall available items ->
  let code := Checkout.makeOrderCode (now env)
                (Checkout.getTodayQueueNumber (now env) db) in
  Prisma.order_findUnique db code = None ->
  Forall (fun o => Order.id o <> newOrderId env) (orders db) ->
  let db1 := snd (Checkout.POST env (Checkout.mkRequest (Some uid) raw) db) in
  let detail st :=
    json (OrderDetail code st (Checkout.subtotalOf items)
                      (map detailOf items)) in
  forall (pid : string) (newPrice : Z) (now' : Date.t),
    (safeAmounts items ->
     Checkout.subtotalOf items = sumLines items /\
     map detailOf items
     = map (fun it =>
              mkDetailItem (Product.name (Prisma.product it)) (Prisma.qty it)
                           (Product.price (Prisma.product it))
                           (Product.price (Prisma.product it) * Prisma.qty it))
           items) /\
    orders (Catalog.setPrice pid newPrice db1) = orders db1 /\
    OrderByCode.GET (Some uid) code db1 = detail AWAITING_PAYMENT /\
    OrderByCode.GET (Some uid) code (Catalog.setPrice pid newPrice db1)
    = detail AWAITING_PAYMENT /\
    OrderByCode.GET (Some uid) code
      (snd (OrderByCode.POST now' code (Catalog.setPrice pid newPrice db1)))
    = detail PAID /\
    OrderByCode.GET (Some uid) code
      (Catalog.setPrice pid newPrice (snd (OrderByCode.POST now' code db1)))
    = detail PAID.
Proof.
  intros Hu Hb Hcart Hne Hav code Hcode Hid db1 detail pid newPrice now'.
  pose proof (POST_commits env uid raw d c db Hu Hb items Hcart Hne Hav
                Hcode Hid) as HP.
  cbv zeta in HP. fold code in HP.
  set (order := Order.mk (newOrderId env) code
                  (Checkout.getTodayQueueNumber (now env) db) d AWAITING_PAYMENT
                  (Checkout.subtotalOf items) 0 0 (Checkout.subtotalOf items)
                  uid (now env) None (map Checkout.orderItemOf items)) in HP.
  assert (Hdb1 : db1 = mkDB (products db) (delete uid (carts db))
                            (orders db ++ [order])).
  { unfold db1. now rewrite HP. }
  assert (Htotal : Order.total order = Checkout.subtotalOf items)
    by reflexivity.
  assert (Hnames : namesKept items db1).
  { rewrite Hdb1. exact (cart_rows db uid items Hcart). }
  assert (Hfu : Prisma.order_findUnique db1 code = Some order).
  { rewrite Hdb1. unfold Prisma.order_findUnique in *. cbn [orders].
    rewrite (find_app_None _ _ _ Hcode). cbn. now rewrite String.eqb_refl. }
  assert (Hff : Prisma.order_findFirst db1 code uid = Some order).
  { rewrite Hdb1. unfold Prisma.order_findFirst. cbn [orders].
    rewrite find_app_None.
    - cbn. now rewrite !String.eqb_refl.
    - unfold Prisma.order_findUnique in Hcode.
      clear -Hcode. induction (orders db) as [|o os IH]; [reflexivity|].
      simpl in *. destruct (String.eqb (Order.code o) code); [discriminate|].
      simpl. now apply IH. }
  assert (Hget1 : OrderByCode.GET (Some uid) code db1 = detail AWAITING_PAYMENT).
  { rewrite (GET_order uid code db1 order items Hu Hff eq_refl Hnames).
    unfold detail. now rewrite Htotal. }
  split.
  { intros Hsafe. split; [exact (subtotalOf_sum items Hsafe)|].
    apply map_ext_Forall.
    eapply Forall_impl; [exact (safeFrom_lines items 0 Hsafe)|].
    intros it Hit. cbv beta in Hit. unfold detailOf. now rewrite Hit. }
  split; [reflexivity|].
  split; [exact Hget1|].
  split; [now rewrite GET_setPrice|].
  split.
  - destruct (GET_after_confirm now' uid code (Catalog.setPrice pid newPrice db1)
                order items Hu Hfu Hff eq_refl eq_refl
                (namesKept_setPrice items pid newPrice db1 Hnames)) as [_ Hg].
    rewrite Hg. unfold detail. now rewrite Htotal.
  - rewrite GET_setPrice.
    destruct (GET_after_confirm now' uid code db1 order items Hu Hfu Hff
                eq_refl eq_refl Hnames) as [_ Hg].
    rewrite Hg. unfold detail. now rewrite Htotal.
Qed.

Lemma price_locking_witness :
  let detail st :=
    json (OrderDetail "ORD-20240117-001" st 65000
            [mkDetailItem "Nasi Goreng" 2 25000 50000;
             mkDetailItem "Es Teh" 1 15000 15000]) in
  Product.price <$> products (Catalog.setPrice "pA" 99000 Fixture.db1) !! "pA"
  = Some 99000 /\
  OrderByCode.GET (Some "u1") "ORD-20240117-001"
    (Catalog.setPrice "pA" 99000 Fixture.db1) = detail AWAITING_PAYMENT /\
  OrderByCode.GET (Some "u1") "ORD-20240117-001"
    (snd (OrderByCode.POST Fixture.later "ORD-20240117-001"
            (Catalog.setPrice "pA" 99000 Fixture.db1))) = detail PAID.
Proof.
  intros detail. split; [reflexivity|].
  destruct (price_locking Fixture.env1 "u1"
              (Checkout.mkRawBody (Some "DINE_IN") (Some "CASH"))
              DINE_IN CASH Fixture.db0
              [Prisma.mkLine 2 "pA" Fixture.productA;
               Prisma.mkLine 1 "pB" Fixture.productB]
              eq_refl eq_refl) with (pid := "pA") (newPrice := 99000)
              (now' := Fixture.later)
    as (_ & _ & _ & Hbefore & Hafter & _).
  - vm_compute. reflexivity.
  - discriminate.
  - repeat constructor; simpl; lia.
  - vm_compute. reflexivity.
  - constructor.
  - split; [exact Hbefore | exact Hafter].
Defined.

(** ** Requests in flight *)

Section Interleaving.

(** A request that runs alone goes through its steps as the handler does. *)
Lemma run_checkout_alone (env : Env) (req : Checkout.Request) (db : DB) :
  run [0; 0; 0]%nat (mkSystem db [CheckoutRead env req])
  = mkSystem (snd (Checkout.POST env req db))
             [Finished (fst (Checkout.POST env req db))].
Proof.
  unfold run, schedule, Checkout.POST. cbn [fold_left tasks store lookup].
  cbn [list_lookup step].
  destruct (Checkout.prepare req db) as [r|p]; cbn; [reflexivity|].
  destruct (Checkout.afterCount env p _ db) as [r db']. reflexivity.
Qed.

Lemma run_confirm_alone (now : Date.t) (code : string) (db : DB) :
  run [0; 0]%nat (mkSystem db [ConfirmRead now code])
  = mkSystem (snd (OrderByCode.POST now code db))
             [Finished (fst (OrderByCode.POST now code db))].
Proof.
  unfold run, schedule, OrderByCode.POST. cbn [fold_left tasks store lookup].
  cbn [list_lookup step].
  destruct (OrderByCode.findOrder code db) as [r|o]; cbn; [reflexivity|].
  destruct (OrderByCode.afterRead now o db) as [r db']. reflexivity.
Qed.

End Interleaving.

(** C6 (as amended).  When the order commit fails -- as it does when the
    order code is already taken, the outcome of a queue-number race -- the
    whole unit rolls back: no order header, no order line, and the cart is
    not deleted.  The checkout then ends with 500 and the generic error
    "Terjadi kesalahan pada server."; it does not allocate a fresh code
    and does not try the commit again. *)
Theorem commit_conflict_no_retry (env : Env) (p : Checkout.Prepared)
    (queueNumber : string) (db : DB) :
  ((exists o, In o (orders db) /\
              Order.code o = Checkout.makeOrderCode (now env) queueNumber) ->
   Checkout.transaction env p queueNumber db = None) /\
  (Checkout.transaction env p queueNumber db = None ->
   Checkout.afterCount env p queueNumber db = (Checkout.serverError, db) /\
   step (CheckoutCommit env p queueNumber) db
   = (Finished Checkout.serverError, db)).
Proof.
  split.
  - intros (o & Hin & Hcode). unfold Checkout.transaction.
    rewrite (order_create_taken _ o db Hin); [reflexivity | exact Hcode].
  - intros Hfail. unfold step, Checkout.afterCount. now rewrite Hfail.
Qed.

Lemma commit_conflict_no_retry_witness :
  let s := run [0; 1; 0; 1; 0]%nat Fixture.twoCheckouts in
  (exists p,
     tasks s !! 1%nat = Some (CheckoutCommit Fixture.env2 p "001") /\
     step (CheckoutCommit Fixture.env2 p "001") (store s)
     = (Finished Checkout.serverError, store s)) /\
  map Order.code (orders (store s)) = ["ORD-20240117-001"].
Proof.
  intros s.
  set (p := Checkout.mkPrepared "u2" DINE_IN CASH
              [Prisma.mkLine 3 "pA"
                 (Product.mk "Nasi Goreng" 25000 3 true None MAIN)]
              75000 0 0 75000).
  split; [|vm_compute; reflexivity].
  exists p. split; [vm_compute; reflexivity|].
  destruct (commit_conflict_no_retry Fixture.env2 p "001" (store s))
    as [Hconflict Hsurface].
  apply Hsurface, Hconflict.
  eexists. split; [left; reflexivity | vm_compute; reflexivity].
Defined.

(** C6 (as stated) fails.  Two checkouts read the same count of the day's
    orders; the first commit takes ORD-20240117-001; the second commit
    collides and that checkout answers 500 with nothing committed and its
    cart in place -- although a checkout with a freshly allocated code,
    ORD-20240117-002, goes through on that very store. *)
Lemma queue_race_surfaces_500 :
  let s := run [0; 1; 0; 1; 0; 1]%nat Fixture.twoCheckouts in
  tasks s
  = [Finished (json (CheckoutCash "0a1b2c3d-0000-4000-8000-000000000001"
                                  "ORD-20240117-001" 75000));
     Finished (jsonStatus (ErrorBody "Terjadi kesalahan pada server.") 500)] /\
  map Order.code (orders (store s)) = ["ORD-20240117-001"] /\
  is_Some (carts (store s) !! "u2") /\
  fst (Checkout.POST Fixture.env2 (Fixture.request "u2" "CASH") (store s))
  = json (CheckoutCash "9f8e7d6c-0000-4000-8000-000000000002"
                       "ORD-20240117-002" 75000).
Proof.
  cbv zeta. split; [vm_compute; reflexivity|].
  split; [vm_compute; reflexivity|].
  split; [vm_compute; eauto | vm_compute; reflexivity].
Qed.

(** C9: the code at the failing schedule.  Two confirmations of one order
    both read it while it awaits payment -- the read is a step of its own,
    before the transaction -- and both then run the transaction: both
    answer { ok: true }, neither sees "already", and every line's quantity
    is taken from the stock twice. *)
Theorem concurrent_confirmation_decrements_twice :
  let s := run [0; 1; 0; 1]%nat Fixture.twoConfirmations in
  stockOf Fixture.db1 "pA" = Some 10 /\
  stockOf Fixture.db1 "pB" = Some 5 /\
  map Order.items (orders Fixture.db1)
  = [[OrderItem.mk "pA" 2 25000 50000; OrderItem.mk "pB" 1 15000 15000]] /\
  tasks s = [Finished (json OkBody); Finished (json OkBody)] /\
  stockOf (store s) "pA" = Some 6 /\
  stockOf (store s) "pB" = Some 3.
Proof. vm_compute. repeat split. Qed.

(** C2: the code at the failing input.  Three pieces are in stock; two
    customers check out three each (the stock is only compared, not
    reserved) and both orders are confirmed, one request after the other:
    the stock ends at -3. *)
Theorem oversold_stock_goes_negative :
  let db1 := snd (Checkout.POST Fixture.env1 (Fixture.request "u1" "CASH")
                    Fixture.lastThree) in
  let db2 := snd (Checkout.POST Fixture.env2 (Fixture.request "u2" "CASH") db1) in
  let db3 := snd (OrderByCode.POST Fixture.later "ORD-20240117-001" db2) in
  let db4 := snd (OrderByCode.POST Fixture.later "ORD-20240117-002" db3) in
  stockOf Fixture.lastThree "pA" = Some 3 /\
  map Order.code (orders db2) = ["ORD-20240117-001"; "ORD-20240117-002"] /\
  stockOf db3 "pA" = Some 0 /\
  fst (OrderByCode.POST Fixture.later "ORD-20240117-002" db3) = json OkBody /\
  stockOf db4 "pA" = Some (-3).
Proof. vm_compute. repeat split. Qed.

(** ** Reading queue numbers and codes back *)

Section Decimal.

Lemma digitValue_char (y : N) :
  (y < 10)%N -> digitValue (pretty_N_char y) = Z.of_N y.
Proof.
  intros Hy.
  assert (y = 0 \/ y = 1 \/ y = 2 \/ y = 3 \/ y = 4 \/ y = 5 \/ y = 6
          \/ y = 7 \/ y = 8 \/ y = 9)%N as Hc by lia.
  repeat (destruct Hc as [->|Hc]; [reflexivity|]). subst. reflexivity.
Qed.

Lemma decimalValue_pretty_go (x : N) : forall s,
  decimalValue (pretty_N_go x s)
  = Z.of_N x * 10 ^ Z.of_nat (String.length s) + decimalValue s.
Proof.
  induction (N.lt_wf_0 x) as [x _ IH]; intros s.
  destruct (N.eq_dec x 0) as [->|Hx]; [rewrite pretty_N_go_0; lia|].
  rewrite pretty_N_go_step by lia.
  rewrite IH by (apply N.div_lt; lia).
  cbn [decimalValue String.length].
  rewrite digitValue_char by (apply N.mod_lt; lia).
  rewrite Nat2Z.inj_succ, Z.pow_succ_r by lia.
  rewrite (N.div_mod x 10) at 3 by lia.
  rewrite N2Z.inj_add, N2Z.inj_mul. simpl (Z.of_N 10). ring.
Qed.

Lemma decimalValue_String (n : Z) : 0 < n -> decimalValue (JS.String_ n) = n.
Proof.
  intros Hn. rewrite String_pos by exact Hn.
  rewrite decimalValue_pretty_go. simpl. rewrite Z2N.id by lia. lia.
Qed.

Lemma decimalValue_zeros (k : nat) (s : string) :
  decimalValue (String.substring 0 k (JS.repeat_ "0" k) +:+ s) = decimalValue s.
Proof.
  induction k as [|k IH]; [reflexivity|].
  change (JS.repeat_ "0" (S k)) with (String "0" (JS.repeat_ "0" k)).
  change (decimalValue (String "0" (String.substring 0 k (JS.repeat_ "0" k) +:+ s))
          = decimalValue s).
  cbn [decimalValue]. rewrite IH. reflexivity.
Qed.

Lemma decimalValue_padStart (k : nat) (s : string) :
  decimalValue (JS.padStart k "0" s) = decimalValue s.
Proof.
  unfold JS.padStart. destruct (k <=? String.length s)%nat; [reflexivity|].
  simpl (String.length "0" =? 0)%nat. cbv iota. apply decimalValue_zeros.
Qed.

(** Padding and rendering lose nothing. *)
Lemma padded_inj (k : nat) (n m : Z) :
  0 < n -> 0 < m ->
  JS.padStart k "0" (JS.String_ n) = JS.padStart k "0" (JS.String_ m) -> n = m.
Proof.
  intros Hn Hm H. apply (f_equal decimalValue) in H.
  now rewrite !decimalValue_padStart, !decimalValue_String in H.
Qed.

Lemma append_inj_length (s1 s2 t1 t2 : string) :
  String.length s1 = String.length s2 ->
  s1 +:+ t1 = s2 +:+ t2 -> s1 = s2 /\ t1 = t2.
Proof.
  revert s2. induction s1 as [|c s1 IH]; intros [|c2 s2] Hlen H;
    try discriminate.
  - split; [reflexivity | exact H].
  - simpl in *. injection H as -> H. injection Hlen as Hlen.
    destruct (IH s2 Hlen H) as [-> ->]. split; reflexivity.
Qed.

Lemma queue_number_value (now : Date.t) (db : DB) :
  decimalValue (Checkout.getTodayQueueNumber now db)
  = Z.of_nat (Prisma.order_count db (Checkout.startOfDay now)
                                    (Checkout.endOfDay now)) + 1.
Proof.
  unfold Checkout.getTodayQueueNumber.
  rewrite decimalValue_padStart, decimalValue_String; lia.
Qed.

Lemma makeOrderCode_inj (d1 d2 : Date.t) (q1 q2 : string) :
  Date.wf d1 -> Date.wf d2 ->
  Checkout.makeOrderCode d1 q1 = Checkout.makeOrderCode d2 q2 ->
  sameDay d1 d2 = true /\ q1 = q2.
Proof.
  intros (Hy1 & Hm1 & Hd1 & _) (Hy2 & Hm2 & Hd2 & _) H.
  unfold Checkout.makeOrderCode in H. cbv zeta in H.
  apply (inj (String.append "ORD-")) in H.
  apply append_inj_length in H as [Hy H];
    [|rewrite !(String_length 4); simpl; lia].
  apply append_inj_length in H as [Hm H];
    [|rewrite (proj1 (pad2_shape (Date.month d1 + 1) ltac:(lia))),
              (proj1 (pad2_shape (Date.month d2 + 1) ltac:(lia))); reflexivity].
  apply append_inj_length in H as [Hd H];
    [|rewrite (proj1 (pad2_shape (Date.date d1) ltac:(lia))),
              (proj1 (pad2_shape (Date.date d2) ltac:(lia))); reflexivity].
  apply (inj (String.append "-")) in H.
  apply (inj pretty) in Hy.
  apply padded_inj in Hm; [|lia..].
  apply padded_inj in Hd; [|lia..].
  split; [|exact H].
  unfold sameDay. rewrite Hy, Hd.
  replace (Date.month d1) with (Date.month d2) by lia.
  now rewrite !Z.eqb_refl.
Qed.

End Decimal.

(** X1.  The queue number, read back as a decimal number, is the number
    of orders in the day's window plus one -- whatever that number is, so
    distinct counts give distinct queue numbers. *)
Theorem queue_number_reads_back (now : Date.t) (db : DB) :
  decimalValue (Checkout.getTodayQueueNumber now db)
  = Z.of_nat (Prisma.order_count db (Checkout.startOfDay now)
                                    (Checkout.endOfDay now)) + 1.
Proof. exact (queue_number_value now db). Qed.

(** X2.  Order codes determine the calendar day and the queue number: two
    codes made at well-formed dates from queue numbers are equal only if
    year, month and day agree and the queue numbers are the same string. *)
Theorem order_code_inj (d1 d2 : Date.t) (q1 q2 : string) :
  Date.wf d1 -> Date.wf d2 ->
  Checkout.makeOrderCode d1 q1 = Checkout.makeOrderCode d2 q2 ->
  sameDay d1 d2 = true /\ q1 = q2.
Proof. exact (makeOrderCode_inj d1 d2 q1 q2). Qed.

Lemma order_code_inj_witness :
  Checkout.makeOrderCode Fixture.today "001"
  = Checkout.makeOrderCode Fixture.later "001" /\
  sameDay Fixture.today Fixture.later = true.
Proof.
  split; [reflexivity|].
  apply (order_code_inj Fixture.today Fixture.later "001" "001").
  - unfold Date.wf. simpl. lia.
  - unfold Date.wf. simpl. lia.
  - reflexivity.
Defined.

(** ** What a checkout can and cannot do *)

Section CheckoutShape.

Lemma order_create_Some (o : Order.t) (db db' : DB) :
  Prisma.order_create o db = Some db' ->
  db' = setOrders (orders db ++ [o]) db /\
  Forall (fun o' => Order.id o' <> Order.id o /\ Order.code o' <> Order.code o)
         (orders db).
Proof.
  unfold Prisma.order_create.
  destruct (existsb _ (orders db)) eqn:Hex; [discriminate|].
  intros H. injection H as <-. split; [reflexivity|].
  apply Forall_forall. intros o' Hin.
  destruct (String.eqb_spec (Order.id o') (Order.id o)) as [Hid|Hid];
    destruct (String.eqb_spec (Order.code o') (Order.code o)) as [Hc|Hc];
    try (split; assumption);
    exfalso; apply not_true_iff_false in Hex; apply Hex;
    apply existsb_exists; exists o'; (split; [now apply list_elem_of_In|]);
    rewrite ?Hid, ?Hc, ?String.eqb_refl, ?orb_true_r; reflexivity.
Qed.

(** The transaction of the checkout, both ways. *)
Lemma transaction_Some (env : Env) (p : Checkout.Prepared) (qn : string)
    (db : DB) (o : Order.t) (db' : DB) :
  Checkout.transaction env p qn db = Some (o, db') ->
  o = orderOf env p qn /\
  db' = mkDB (products db) (delete (Checkout.customerId p) (carts db))
             (orders db ++ [o]) /\
  Forall (fun o' => Order.id o' <> newOrderId env /\
                    Order.code o' <> Checkout.makeOrderCode (now env) qn)
         (orders db) /\
  is_Some (carts db !! Checkout.customerId p).
Proof.
  unfold Checkout.transaction. fold (orderOf env p qn).
  destruct (Prisma.order_create (orderOf env p qn) db) as [db1|] eqn:Hc;
    [|discriminate].
  apply order_create_Some in Hc as [-> Hfresh]. cbn [mbind option_bind].
  unfold Prisma.cart_delete. cbn [carts setOrders].
  destruct (carts db !! Checkout.customerId p) as [c|] eqn:Hcart;
    [|discriminate].
  cbn. intros H. injection H as <- <-.
  split; [reflexivity|]. split; [reflexivity|]. split; [exact Hfresh | eauto].
Qed.

Lemma transaction_None (env : Env) (p : Checkout.Prepared) (qn : string)
    (db : DB) :
  Checkout.transaction env p qn db = None ->
  (exists o, In o (orders db) /\
             (Order.id o = newOrderId env \/
              Order.code o = Checkout.makeOrderCode (now env) qn)) \/
  carts db !! Checkout.customerId p = None.
Proof.
  unfold Checkout.transaction. fold (orderOf env p qn).
  unfold Prisma.order_create.
  destruct (existsb _ (orders db)) eqn:Hex.
  - intros _. left. apply existsb_exists in Hex as (o & Hin & Ho).
    exists o. split; [exact Hin|].
    apply orb_true_iff in Ho as [Ho|Ho]; apply String.eqb_eq in Ho; auto.
  - cbn [mbind option_bind]. unfold Prisma.cart_delete. cbn [carts setOrders].
    destruct (carts db !! Checkout.customerId p); [discriminate | now right].
Qed.

(** What the handler has established when it enters the transaction. *)
Lemma prepare_inr (req : Checkout.Request) (db : DB) (p : Checkout.Prepared) :
  Checkout.prepare req db = inr p ->
  Checkout.user req = Some (Checkout.customerId p) /\
  JS.truthy (Some (Checkout.customerId p)) = true /\
  Checkout.bodySchema (Checkout.rawBody req)
  = Some (Checkout.diningType p, Checkout.paymentChoice p) /\
  Prisma.cart_findUnique db (Checkout.customerId p)
  = Some (Some (Checkout.items p)) /\
  Checkout.items p <> [] /\
  Forall available (Checkout.items p) /\
  Checkout.subtotal p = Checkout.subtotalOf (Checkout.items p) /\
  Checkout.discount p = 0 /\ Checkout.tax p = 0 /\
  Checkout.total p = Checkout.subtotalOf (Checkout.items p).
Proof.
  unfold Checkout.prepare.
  destruct (Checkout.user req) as [uid|]; [|discriminate].
  destruct (JS.truthy (Some uid)) eqn:Hu; [|discriminate]. cbn [negb].
  destruct (Checkout.bodySchema (Checkout.rawBody req)) as [[d c]|];
    [|discriminate].
  destruct (Prisma.cart_findUnique db uid) as [[items|]|] eqn:Hcart;
    try discriminate.
  destruct items as [|it rest]; [discriminate|]. cbn [length Nat.eqb].
  destruct (Checkout.validate (it :: rest)) eqn:Hv; [discriminate|].
  cbv zeta. rewrite total_is_subtotal.
  intros H. injection H as <-.
  cbn [Checkout.customerId Checkout.diningType Checkout.paymentChoice
       Checkout.items Checkout.subtotal Checkout.discount Checkout.tax
       Checkout.total].
  apply validate_None in Hv.
  split; [reflexivity|]. split; [exact Hu|]. split; [reflexivity|].
  split; [exact Hcart|]. split; [discriminate|]. split; [exact Hv|].
  split; [reflexivity|]. split; [reflexivity|].
  split; reflexivity.
Qed.

Lemma prepare_inl_status (req : Checkout.Request) (db : DB) (r : Response) :
  Checkout.prepare req db = inl r -> status r <> 200%nat.
Proof.
  unfold Checkout.prepare.
  destruct (Checkout.user req) as [uid|]; [|intros [= <-]; discriminate].
  destruct (negb (JS.truthy (Some uid))); [intros [= <-]; discriminate|].
  destruct (Checkout.bodySchema (Checkout.rawBody req)) as [[d c]|];
    [|intros [= <-]; discriminate].
  destruct (Prisma.cart_findUnique db uid) as [[items|]|];
    try (intros [= <-]; discriminate).
  destruct (length items =? 0)%nat; [intros [= <-]; discriminate|].
  destruct (Checkout.validate items) as [r'|] eqn:Hv; [|discriminate].
  intros [= <-]. clear -Hv.
  induction items as [|it rest IH]; [discriminate|]. simpl in Hv.
  destruct (negb (Product.isActive (Prisma.product it)));
    [injection Hv as <-; discriminate|].
  destruct (Prisma.qty it >? Product.stock (Prisma.product it));
    [injection Hv as <-; discriminate | exact (IH Hv)].
Qed.

(** The whole handler: the store it returns. *)
Lemma POST_store (env : Env) (req : Checkout.Request) (db : DB) :
  snd (Checkout.POST env req db) = db \/
  exists p,
    Checkout.prepare req db = inr p /\
    Checkout.POST env req db
    = (Checkout.payment env p
         (orderOf env p (Checkout.getTodayQueueNumber (now env) db)),
       mkDB (products db) (delete (Checkout.customerId p) (carts db))
            (orders db
             ++ [orderOf env p (Checkout.getTodayQueueNumber (now env) db)])).
Proof.
  unfold Checkout.POST.
  destruct (Checkout.prepare req db) as [r|p] eqn:Hp; [now left|].
  unfold Checkout.afterCount.
  destruct (Checkout.transaction env p _ db) as [[o db']|] eqn:Ht; [|now left].
  right. exists p. split; [reflexivity|].
  apply transaction_Some in Ht as (-> & -> & _). reflexivity.
Qed.

End CheckoutShape.

(** X3.  Whatever the request, a checkout never touches the product table
    (stock is compared, not reserved), and it either leaves the store as
    it was or deletes the caller's cart and appends exactly one order,
    owned by the caller, awaiting payment, created now and not closed. *)
Theorem checkout_effect (env : Env) (req : Checkout.Request) (db : DB) :
  let db' := snd (Checkout.POST env req db) in
  products db' = products db /\
  (db' = db \/
   exists uid order,
     Checkout.user req = Some uid /\
     carts db' = delete uid (carts db) /\
     orders db' = (orders db ++ [order])%list /\
     Order.customerId order = uid /\
     Order.status order = AWAITING_PAYMENT /\
     Order.createdAt order = now env /\
     Order.closedAt order = None).
Proof.
  intros db'. unfold db'.
  destruct (POST_store env req db) as [->|(p & Hp & ->)].
  - split; [reflexivity | now left].
  - split; [reflexivity|]. right.
    apply prepare_inr in Hp as (Hu & _).
    exists (Checkout.customerId p). eexists.
    split; [exact Hu|]. repeat split.
Qed.



(** X5.  The checks of a checkout come in a fixed order: a caller without
    an identity gets 401 whatever the body and the cart are, and an
    authenticated caller with a body outside the schema gets 422 whatever
    the cart is; neither changes the store. *)
Theorem checkout_rejects_before_cart (env : Env) (req : Checkout.Request)
    (db : DB) :
  (JS.truthy (Checkout.user req) = false ->
   Checkout.POST env req db
   = (jsonStatus (ErrorBody "Unauthorized") 401, db)) /\
  (JS.truthy (Checkout.user req) = true ->
   Checkout.bodySchema (Checkout.rawBody req) = None ->
   Checkout.POST env req db
   = (jsonStatus (InvalidPayload "Payload tidak valid") 422, db)).
Proof.
  unfold Checkout.POST, Checkout.prepare. split.
  - intros Hu. destruct (Checkout.user req) as [uid|]; [|reflexivity].
    now rewrite Hu.
  - intros Hu Hb. destruct (Checkout.user req) as [uid|]; [|discriminate].
    now rewrite Hu, Hb.
Qed.

Lemma checkout_rejects_before_cart_witness :
  Checkout.POST Fixture.env1
    (Checkout.mkRequest (Some "") (Checkout.mkRawBody None None)) Fixture.db0
  = (jsonStatus (ErrorBody "Unauthorized") 401, Fixture.db0) /\
  Checkout.POST Fixture.env1
    (Checkout.mkRequest (Some "u1")
       (Checkout.mkRawBody (Some "DINE_IN") (Some "CARD"))) Fixture.db0
  = (jsonStatus (InvalidPayload "Payload tidak valid") 422, Fixture.db0).
Proof.
  split.
  - apply (checkout_rejects_before_cart Fixture.env1
             (Checkout.mkRequest (Some "") (Checkout.mkRawBody None None))
             Fixture.db0).
    reflexivity.
  - apply (checkout_rejects_before_cart Fixture.env1
             (Checkout.mkRequest (Some "u1")
                (Checkout.mkRawBody (Some "DINE_IN") (Some "CARD")))
             Fixture.db0); reflexivity.
Defined.

(** X6.  The commit of a checkout is all or nothing.  It goes through
    exactly when no stored order has the new id or the new code and the
    caller still has a cart, and then the store gains the order and loses
    the cart; otherwise -- also when the order could be created and only
    the cart has gone -- the store is returned as it was, with the 500
    answer. *)
Theorem checkout_commit_all_or_nothing (env : Env) (p : Checkout.Prepared)
    (queueNumber : string) (db : DB) :
  match Checkout.transaction env p queueNumber db with
  | Some (order, db') =>
      order = orderOf env p queueNumber /\
      db' = mkDB (products db) (delete (Checkout.customerId p) (carts db))
                 (orders db ++ [order]) /\
      Forall (fun o => Order.id o <> newOrderId env /\
                       Order.code o
                       <> Checkout.makeOrderCode (now env) queueNumber)
             (orders db) /\
      is_Some (carts db !! Checkout.customerId p)
  | None =>
      ((exists o, In o (orders db) /\
                  (Order.id o = newOrderId env \/
                   Order.code o
                   = Checkout.makeOrderCode (now env) queueNumber)) \/
       carts db !! Checkout.customerId p = None) /\
      Checkout.afterCount env p queueNumber db = (Checkout.serverError, db)
  end.
Proof.
  destruct (Checkout.transaction env p queueNumber db) as [[o db']|] eqn:Ht.
  - now apply transaction_Some.
  - split; [now apply transaction_None|].
    unfold Checkout.afterCount. now rewrite Ht.
Qed.

Section ConfirmShape.

Lemma decrementAll_frame (items : list OrderItem.t) : forall db db',
  OrderByCode.decrementAll items db = Some db' ->
  orders db' = orders db /\ carts db' = carts db /\
  forall pid, is_Some (products db' !! pid) <-> is_Some (products db !! pid).
Proof.
  induction items as [|it rest IH]; intros db db' H.
  - injection H as <-. repeat split; auto.
  - cbn [OrderByCode.decrementAll] in H. unfold Prisma.product_decrement in H.
    destruct (products db !! OrderItem.productId it) as [p|] eqn:Hp;
      [|discriminate].
    cbn [mbind option_bind] in H. apply IH in H as (Ho & Hc & Hd).
    split; [exact Ho|]. split; [exact Hc|].
    intros pid. rewrite Hd. cbn [products setProducts].
    rewrite lookup_insert. case_decide as He; [|reflexivity].
    subst pid. rewrite Hp. split; eauto.
Qed.

Lemma evolves_refl (o : Order.t) : evolves o o.
Proof. unfold evolves. repeat split; auto. Qed.

Lemma evolves_markPaid (now : Date.t) (o : Order.t) :
  evolves o (Order.markPaid now o).
Proof. unfold evolves. repeat split; auto. Qed.

Lemma evolves_trans (a b c : Order.t) : evolves a b -> evolves b c -> evolves a c.
Proof.
  unfold evolves. intros H1 H2. repeat split; try (intuition congruence).
Qed.

(** What the transaction of a confirmation does to the order table, the
    carts and the set of product rows, whatever order it was started on. *)
Lemma afterRead_shape (now : Date.t) (order : Order.t) (db : DB) :
  exists f : Order.t -> Order.t,
    (forall o, evolves o (f o)) /\
    orders (snd (OrderByCode.afterRead now order db)) = map f (orders db) /\
    carts (snd (OrderByCode.afterRead now order db)) = carts db /\
    forall pid,
      is_Some (products (snd (OrderByCode.afterRead now order db)) !! pid)
      <-> is_Some (products db !! pid).
Proof.
  assert (Hid : exists f : Order.t -> Order.t,
            (forall o, evolves o (f o)) /\ orders db = map f (orders db) /\
            carts db = carts db /\
            forall pid, is_Some (products db !! pid) <-> is_Some (products db !! pid)).
  { exists (fun o => o). split; [exact evolves_refl|].
    split; [now rewrite map_id|]. split; reflexivity. }
  unfold OrderByCode.afterRead, OrderByCode.transaction.
  destruct (OrderByCode.decrementAll (Order.items order) db) as [db1|] eqn:Hd;
    [|exact Hid].
  cbn [mbind option_bind]. unfold Prisma.order_update.
  destruct (existsb _ (orders db1)); [|exact Hid].
  apply decrementAll_frame in Hd as (Ho & Hc & Hp). cbn [snd].
  exists (fun o => if String.eqb (Order.id o) (Order.id order)
                   then Order.markPaid now o else o).
  split.
  { intros o. destruct (String.eqb (Order.id o) (Order.id order));
      [apply evolves_markPaid | apply evolves_refl]. }
  cbn [orders carts products setOrders]. rewrite Ho, Hc. auto.
Qed.

Lemma confirm_orders (now : Date.t) (code : string) (db : DB) :
  exists f : Order.t -> Order.t,
    (forall o, evolves o (f o)) /\
    orders (snd (OrderByCode.POST now code db)) = map f (orders db) /\
    carts (snd (OrderByCode.POST now code db)) = carts db /\
    forall pid,
      is_Some (products (snd (OrderByCode.POST now code db)) !! pid)
      <-> is_Some (products db !! pid).
Proof.
  unfold OrderByCode.POST.
  destruct (OrderByCode.findOrder code db) as [r|order];
    [|apply afterRead_shape].
  exists (fun o => o). split; [exact evolves_refl|].
  split; [now rewrite map_id|]. split; reflexivity.
Qed.

End ConfirmShape.

(** X9.  A committed checkout moves the day's queue number on by exactly
    one for every instant of the same calendar day, and leaves the queue
    number of every other day as it was. *)
Theorem queue_number_advances (env : Env) (p : Checkout.Prepared)
    (queueNumber : string) (db db' : DB) (order : Order.t) (now' : Date.t) :
  Date.wf (now env) ->
  Checkout.transaction env p queueNumber db = Some (order, db') ->
  decimalValue (Checkout.getTodayQueueNumber now' db')
  = decimalValue (Checkout.getTodayQueueNumber now' db)
    + (if sameDay (now env) now' then 1 else 0).
Proof.
  intros Hnow Ht. apply transaction_Some in Ht as (-> & -> & _).
  rewrite !queue_number_value. unfold Prisma.order_count. cbn [orders].
  rewrite List.filter_app, length_app. cbn [List.filter orderOf Order.createdAt].
  rewrite today_filter by exact Hnow.
  destruct (sameDay (now env) now'); cbn [length]; lia.
Qed.

Lemma queue_number_advances_witness :
  decimalValue (Checkout.getTodayQueueNumber Fixture.later Scenario.afterFirst)
  = decimalValue (Checkout.getTodayQueueNumber Fixture.later Fixture.lastThree)
    + 1 /\
  Checkout.getTodayQueueNumber Scenario.nextDay Scenario.afterFirst = "001".
Proof.
  split; [|reflexivity].
  apply (queue_number_advances Fixture.env1
           (Checkout.mkPrepared "u1" DINE_IN CASH
              [Prisma.mkLine 3 "pA"
                 (Product.mk "Nasi Goreng" 25000 3 true None MAIN)]
              75000 0 0 75000)
           "001" Fixture.lastThree Scenario.afterFirst
           (orderOf Fixture.env1
              (Checkout.mkPrepared "u1" DINE_IN CASH
                 [Prisma.mkLine 3 "pA"
                    (Product.mk "Nasi Goreng" 25000 3 true None MAIN)]
                 75000 0 0 75000) "001")
           Fixture.later).
  - unfold Date.wf. cbn. lia.
  - vm_compute. reflexivity.
Defined.

(** ** What holds under every schedule *)

Section Schedules.

Lemma schedule_store (s : System) (i : nat) :
  store (schedule s i) = store s \/
  exists t, tasks s !! i = Some t /\ store (schedule s i) = snd (step t (store s)).
Proof.
  unfold schedule. destruct (tasks s !! i) as [t|] eqn:Ht; [|now left].
  right. exists t. split; [reflexivity|].
  destruct (step t (store s)). reflexivity.
Qed.

(** A relation between stores that every step respects holds between the
    stores before and after any schedule. *)
Lemma run_relation (R : DB -> DB -> Prop) :
  (forall db, R db db) ->
  (forall a b c, R a b -> R b c -> R a c) ->
  (forall t db, R db (snd (step t db))) ->
  forall sched s, R (store s) (store (run sched s)).
Proof.
  intros Hrefl Htrans Hstep sched.
  induction sched as [|i sched IH]; intros s; [apply Hrefl|].
  unfold run in *. cbn [fold_left].
  eapply Htrans; [|apply IH].
  destruct (schedule_store s i) as [->|(t & _ & ->)]; [apply Hrefl | apply Hstep].
Qed.

Lemma evolves_all_refl (os : list Order.t) : Forall2 evolves os os.
Proof. induction os; constructor; auto using evolves_refl. Qed.

Lemma history_refl (db : DB) : history db db.
Proof.
  exists (orders db), []. split; [now rewrite app_nil_r|].
  apply evolves_all_refl.
Qed.

Lemma history_trans (a b c : DB) : history a b -> history b c -> history a c.
Proof.
  intros (olds1 & news1 & Hb & H1) (olds2 & news2 & Hc & H2).
  rewrite Hb in H2. apply Forall2_app_inv_l in H2 as (x & y & Hx & Hy & ->).
  exists x, (y ++ news2)%list. split; [now rewrite Hc, app_assoc|].
  clear -H1 Hx. revert x Hx.
  induction H1 as [|o o1 l l1 Ho _ IH]; intros x Hx.
  - inversion Hx. constructor.
  - inversion Hx as [|? o2 ? l2 Ho2 Hl2]; subst. constructor; [|now apply IH].
    eapply evolves_trans; eassumption.
Qed.

Lemma history_map (f : Order.t -> Order.t) (db db' : DB) :
  (forall o, evolves o (f o)) -> orders db' = map f (orders db) ->
  history db db'.
Proof.
  intros Hf Ho. exists (map f (orders db)), [].
  split; [now rewrite app_nil_r|]. clear Ho.
  induction (orders db) as [|o l IH]; simpl; constructor; auto.
Qed.

Lemma history_same (db db' : DB) : orders db' = orders db -> history db db'.
Proof.
  intros H. apply (history_map (fun o => o)); [exact evolves_refl|].
  now rewrite map_id.
Qed.

(** One step: the orders evolve or one is appended, and the set of
    product rows stays. *)
Lemma step_store (t : Task) (db : DB) :
  history db (snd (step t db)) /\
  forall pid,
    is_Some (products (snd (step t db)) !! pid) <-> is_Some (products db !! pid).
Proof.
  destruct t as [env req|env p|env p qn|now code|now order|user|r]; cbn [step].
  - destruct (Checkout.prepare req db); split; try apply history_refl; reflexivity.
  - split; [apply history_refl | reflexivity].
  - unfold Checkout.afterCount.
    destruct (Checkout.transaction env p qn db) as [[o db']|] eqn:Ht;
      [|split; [apply history_refl | reflexivity]].
    apply transaction_Some in Ht as (_ & -> & _). cbn [snd]. split; [|reflexivity].
    exists (orders db), [o]. split; [reflexivity | apply evolves_all_refl].
  - destruct (OrderByCode.findOrder code db); split;
      try apply history_refl; reflexivity.
  - destruct (afterRead_shape now order db) as (f & Hf & Ho & _ & Hp).
    destruct (OrderByCode.afterRead now order db) as [r db'] eqn:Hr.
    cbn [snd] in *. split; [now apply (history_map f) | exact Hp].
  - destruct user as [uid|]; cbn [CartRoute.DELETE snd];
      [|split; [apply history_refl | reflexivity]].
    unfold Prisma.cart_delete.
    destruct (carts db !! uid); split; try apply history_same; reflexivity.
  - split; [apply history_refl | reflexivity].
Qed.

End Schedules.

Section StepCases.

(** One step either rewrites the stored orders in place, or is the commit
    of a checkout. *)
Lemma step_orders (t : Task) (db : DB) :
  (exists f : Order.t -> Order.t,
     (forall o, evolves o (f o)) /\
     orders (snd (step t db)) = map f (orders db)) \/
  (exists env p qn,
     t = CheckoutCommit env p qn /\
     Checkout.transaction env p qn db
     = Some (orderOf env p qn, snd (step t db))).
Proof.
  assert (Hsame : forall db', orders db' = orders db ->
            exists f : Order.t -> Order.t,
              (forall o, evolves o (f o)) /\ orders db' = map f (orders db)).
  { intros db' H. exists (fun o => o). split; [exact evolves_refl|].
    now rewrite map_id. }
  destruct t as [env req|env p|env p qn|now code|now order|user|r]; cbn [step].
  - left. destruct (Checkout.prepare req db); now apply Hsame.
  - left. now apply Hsame.
  - unfold Checkout.afterCount.
    destruct (Checkout.transaction env p qn db) as [[o db']|] eqn:Ht;
      [|left; now apply Hsame].
    right. exists env, p, qn. split; [reflexivity|].
    apply transaction_Some in Ht as Hs. destruct Hs as (-> & _). exact Ht.
  - left. destruct (OrderByCode.findOrder code db); now apply Hsame.
  - left. destruct (afterRead_shape now order db) as (f & Hf & Ho & _).
    destruct (OrderByCode.afterRead now order db) as [r db']. eauto.
  - left. destruct user as [uid|]; cbn [CartRoute.DELETE snd];
      [|now apply Hsame].
    unfold Prisma.cart_delete. destruct (carts db !! uid); now apply Hsame.
  - left. now apply Hsame.
Qed.

Lemma evolved_codes (f : Order.t -> Order.t) (os : list Order.t) :
  (forall o, evolves o (f o)) ->
  map Order.code (map f os) = map Order.code os /\
  map Order.id (map f os) = map Order.id os.
Proof.
  intros Hf. induction os as [|o os [IHc IHi]]; [split; reflexivity|].
  destruct (Hf o) as (Hi & Hc & _). simpl. now rewrite Hi, Hc, IHc, IHi.
Qed.

Lemma step_unique (t : Task) (db : DB) :
  ordersUnique db -> ordersUnique (snd (step t db)).
Proof.
  intros [Hc Hi].
  destruct (step_orders t db) as [(f & Hf & Ho)|(env & p & qn & _ & Ht)].
  - unfold ordersUnique. rewrite Ho.
    destruct (evolved_codes f (orders db) Hf) as [-> ->]. now split.
  - apply transaction_Some in Ht as (_ & -> & Hfresh & _).
    unfold ordersUnique. cbn [orders]. rewrite !map_app. cbn [map].
    split; apply NoDup_app; (split; [assumption|]);
      (split; [|apply NoDup_singleton]);
      intros x Hx Hx'; apply list_elem_of_singleton in Hx'; subst x;
      apply list_elem_of_In, in_map_iff in Hx as (o & Ho & Hin);
      apply list_elem_of_In in Hin;
      rewrite Forall_forall in Hfresh; destruct (Hfresh o Hin) as [Hid Hcode];
      [apply Hcode | apply Hid]; exact Ho.
Qed.

End StepCases.

(** X10.  Under every schedule of checkouts, confirmations and cart
    deletions the order table only grows at its end: a stored order keeps
    its place, id, code, queue number, amounts, owner, creation time and
    lines, and once PAID it stays PAID; and no product row is added or
    removed. *)
Theorem orders_are_kept (sched : list nat) (s : System) :
  history (store s) (store (run sched s)) /\
  forall pid,
    is_Some (products (store (run sched s)) !! pid)
    <-> is_Some (products (store s) !! pid).
Proof.
  apply (run_relation
           (fun db db' =>
              history db db' /\
              forall pid, is_Some (products db' !! pid)
                          <-> is_Some (products db !! pid))).
  - intros db. split; [apply history_refl | reflexivity].
  - intros a b c [H1 D1] [H2 D2]. split; [eapply history_trans; eassumption|].
    intros pid. now rewrite D2, D1.
  - exact step_store.
Qed.

(** X11.  Under every schedule the stored orders keep pairwise distinct
    codes and pairwise distinct ids: a commit whose code or id is taken
    stores nothing. *)
Theorem codes_stay_unique (sched : list nat) (s : System) :
  ordersUnique (store s) -> ordersUnique (store (run sched s)).
Proof.
  apply (run_relation (fun db db' => ordersUnique db -> ordersUnique db')).
  - auto.
  - auto.
  - exact step_unique.
Qed.

Lemma codes_stay_unique_witness :
  ordersUnique (store (run [0; 1; 0; 1; 0; 1]%nat Fixture.twoCheckouts)) /\
  map Order.code
      (orders (store (run [0; 1; 0; 1; 0; 1]%nat Fixture.twoCheckouts)))
  = ["ORD-20240117-001"].
Proof.
  split; [|vm_compute; reflexivity].
  apply (codes_stay_unique [0; 1; 0; 1; 0; 1]%nat Fixture.twoCheckouts).
  split; simpl; apply NoDup_nil; exact I.
Defined.

Section Soundness.

Lemma linesExist_dom (db db' : DB) (items : list OrderItem.t) :
  (forall pid, is_Some (products db' !! pid) <-> is_Some (products db !! pid)) ->
  linesExist db items -> linesExist db' items.
Proof.
  intros Hd H. eapply Forall_impl; [exact H|]. intros it Hit. now apply Hd.
Qed.

Lemma history_ids (db db' : DB) (o : Order.t) :
  history db db' -> In o (orders db) ->
  exists o', In o' (orders db') /\ Order.id o' = Order.id o.
Proof.
  intros (olds & news & -> & HF) Hin.
  induction HF as [|x y l l' Hxy _ IH]; [destruct Hin|].
  destruct Hin as [->|Hin].
  - exists y. split; [now left | apply Hxy].
  - destruct (IH Hin) as (o' & Hin' & Hid). exists o'. split; [now right | exact Hid].
Qed.

Lemma taskOk_stable (t t2 : Task) (db : DB) :
  taskOk db t2 -> taskOk (snd (step t db)) t2.
Proof.
  destruct (step_store t db) as [Hh Hd].
  destruct t2 as [env req|env p|env p qn|now code|now order|user|r];
    cbn [taskOk]; auto.
  - now apply linesExist_dom.
  - now apply linesExist_dom.
  - intros [Hl (o & Hin & Hid)]. split; [now apply (linesExist_dom db)|].
    destruct (history_ids db _ o Hh Hin) as (o' & Hin' & Hid').
    exists o'. split; [exact Hin' | congruence].
Qed.

Lemma refsOk_step (t : Task) (db : DB) :
  refsOk db -> taskOk db t -> refsOk (snd (step t db)).
Proof.
  intros Hrefs Htask. destruct (step_store t db) as [_ Hd].
  destruct (step_orders t db) as [(f & Hf & Ho)|(env & p & qn & -> & Ht)].
  - unfold refsOk. rewrite Ho. apply Forall_map.
    eapply Forall_impl; [exact Hrefs|]. intros o Hl. cbv beta.
    destruct (Hf o) as (_ & _ & _ & _ & _ & _ & _ & _ & _ & _ & Hitems & _).
    rewrite Hitems. now apply (linesExist_dom db).
  - apply transaction_Some in Ht as Hs. destruct Hs as (_ & Hdb & _).
    unfold refsOk. rewrite Hdb at 1. cbn [orders]. apply Forall_app. split.
    + eapply Forall_impl; [exact Hrefs|]. intros o Hl.
      now apply (linesExist_dom db).
    + constructor; [|constructor]. cbn [orderOf Order.items].
      now apply (linesExist_dom db).
Qed.

Lemma taskOk_step (t : Task) (db : DB) :
  refsOk db -> taskOk db t -> taskOk (snd (step t db)) (fst (step t db)).
Proof.
  intros Hrefs Htask.
  destruct t as [env req|env p|env p qn|now code|now order|user|r]; cbn [step].
  - destruct (Checkout.prepare req db) as [r|p] eqn:Hp; cbn [fst snd taskOk].
    + exact I.
    + apply prepare_inr in Hp as (_ & _ & _ & Hcart & _).
      apply namesKept_rows. exact (cart_rows db _ _ Hcart).
  - exact Htask.
  - destruct (Checkout.afterCount env p qn db) as [r db']. exact I.
  - unfold OrderByCode.findOrder.
    destruct (Prisma.order_findUnique db code) as [order|] eqn:Hf;
      [|exact I].
    destruct (Order.status order); cbn [fst snd taskOk]; [|exact I].
    unfold Prisma.order_findUnique in Hf. apply find_some in Hf as [Hin _].
    split; [|eauto].
    unfold refsOk in Hrefs. rewrite Forall_forall in Hrefs.
    apply Hrefs. now apply list_elem_of_In.
  - destruct (OrderByCode.afterRead now order db) as [r db']. exact I.
  - destruct (CartRoute.DELETE user db) as [r db']. exact I.
  - exact I.
Qed.

Lemma schedule_sound (s : System) (i : nat) : sound s -> sound (schedule s i).
Proof.
  intros [Hrefs Htasks]. unfold schedule.
  destruct (tasks s !! i) as [t|] eqn:Ht; [|now split].
  assert (Hti : taskOk (store s) t).
  { rewrite Forall_forall in Htasks. apply Htasks.
    now apply list_elem_of_lookup_2 in Ht. }
  pose proof (refsOk_step t (store s) Hrefs Hti) as Hr.
  pose proof (taskOk_step t (store s) Hrefs Hti) as Hk.
  pose proof (fun t2 => taskOk_stable t t2 (store s)) as Hst.
  destruct (step t (store s)) as [t' db']. cbn [fst snd] in *.
  split; cbn [store tasks]; [exact Hr|].
  apply Forall_insert; [|exact Hk].
  eapply Forall_impl; [exact Htasks|]. intros t2. apply Hst.
Qed.

Lemma abort_sound (s : System) (i : nat) (r : Response) :
  sound s -> sound (abort s i r).
Proof.
  intros [Hrefs Htasks]. unfold abort.
  destruct (tasks s !! i) as [t|]; [|now split].
  destruct t; try (now split);
    (split; cbn [store tasks]; [exact Hrefs|];
     apply Forall_insert; [exact Htasks | exact I]).
Qed.

Lemma runMoves_sound (ms : list Move) : forall s,
  sound s -> sound (runMoves ms s).
Proof.
  induction ms as [|m ms IH]; intros s Hs; [exact Hs|].
  unfold runMoves in *. cbn [fold_left]. apply IH.
  destruct m as [i|i r]; [now apply schedule_sound | now apply abort_sound].
Qed.

End Soundness.

(** X12.  Referential integrity under every schedule.  In a system whose
    stored order lines reference product rows of the store and whose
    requests in flight fit the store, it stays so whatever the requests
    do and in whatever order: each takes its steps, or is cut short with
    the store left as it is.  Each stored order line then still
    references a product row, and the lines held by the requests in
    flight do too. *)
Theorem references_kept (ms : list Move) (s : System) :
  sound s ->
  refsOk (store (runMoves ms s)) /\
  Forall (taskOk (store (runMoves ms s))) (tasks (runMoves ms s)).
Proof. intros Hs. exact (runMoves_sound ms s Hs). Qed.

Lemma references_kept_witness :
  sound Fixture.twoConfirmations /\
  tasks (runMoves [Run 0; Run 1; Abort 0 OrderByCode.serverError; Run 1]%nat
           Fixture.twoConfirmations)
  = [Finished OrderByCode.serverError; Finished (json OkBody)] /\
  refsOk (store (runMoves
                   [Run 0; Run 1; Abort 0 OrderByCode.serverError; Run 1]%nat
                   Fixture.twoConfirmations)).
Proof.
  assert (Hs : sound Fixture.twoConfirmations).
  { split.
    - unfold refsOk, Fixture.twoConfirmations. cbn [store].
      repeat constructor; vm_compute; eauto.
    - repeat constructor. }
  split; [exact Hs|]. split; [vm_compute; reflexivity|].
  exact (proj1 (references_kept
                  [Run 0; Run 1; Abort 0 OrderByCode.serverError; Run 1]%nat
                  Fixture.twoConfirmations Hs)).
Defined.

(** ** More on the payment confirmation *)

Section ConfirmFrame.

Lemma orderedQty_none (pid : string) (items : list OrderItem.t) :
  Forall (fun it => OrderItem.productId it <> pid) items ->
  orderedQty pid items = 0.
Proof.
  induction 1 as [|it items Hne _ IH]; [reflexivity|]. simpl.
  destruct (String.eqb_spec (OrderItem.productId it) pid); [contradiction | exact IH].
Qed.

Lemma orderedQty_nonneg (pid : string) (items : list OrderItem.t) :
  Forall (fun it => 0 <= OrderItem.qty it) items -> 0 <= orderedQty pid items.
Proof.
  induction 1 as [|it items Hq _ IH]; [reflexivity|]. simpl.
  destruct (String.eqb (OrderItem.productId it) pid); lia.
Qed.

End ConfirmFrame.

(** X13.  On a store whose order lines reference product rows, a payment
    confirmation has three outcomes and never the 500: 404 "Not found"
    when no order has the code, { ok: true, already: true } when the order
    found is PAID -- both with the store untouched -- and { ok: true }
    otherwise. *)
Theorem confirmation_outcomes (now : Date.t) (code : string) (db : DB) :
  refsOk db ->
  match Prisma.order_findUnique db code with
  | None => OrderByCode.POST now code db = (OrderByCode.notFound, db)
  | Some order =>
      match Order.status order with
      | PAID => OrderByCode.POST now code db = (json OkAlready, db)
      | AWAITING_PAYMENT => fst (OrderByCode.POST now code db) = json OkBody
      end
  end.
Proof.
  intros Hrefs.
  destruct (Prisma.order_findUnique db code) as [order|] eqn:Hf.
  - destruct (Order.status order) eqn:Hst.
    + destruct (POST_confirms now code db order Hf Hst) as (ps & -> & _);
        [|reflexivity].
      unfold Prisma.order_findUnique in Hf. apply find_some in Hf as [Hin _].
      unfold refsOk in Hrefs. rewrite Forall_forall in Hrefs.
      apply Hrefs. now apply list_elem_of_In.
    + now apply (POST_already now code db order).
  - unfold OrderByCode.POST, OrderByCode.findOrder. now rewrite Hf.
Qed.

Lemma confirmation_outcomes_witness :
  OrderByCode.POST Fixture.later "ORD-20240117-777" Fixture.db1
  = (OrderByCode.notFound, Fixture.db1) /\
  fst (OrderByCode.POST Fixture.later "ORD-20240117-001" Fixture.db1)
  = json OkBody.
Proof.
  assert (Hrefs : refsOk Fixture.db1).
  { unfold refsOk. repeat constructor; vm_compute; eauto. }
  split.
  - exact (confirmation_outcomes Fixture.later "ORD-20240117-777" Fixture.db1
             Hrefs).
  - exact (confirmation_outcomes Fixture.later "ORD-20240117-001" Fixture.db1
             Hrefs).
Defined.

(** X14.  What a first confirmation leaves alone: the carts, every order
    with another id (the order table keeps its length and order), and the
    row of every product that no line of the order references; and when
    the line quantities are not negative, no stock goes up. *)
Theorem confirmation_frame (now : Date.t) (code : string) (db : DB)
    (order : Order.t) :
  Prisma.order_findUnique db code = Some order ->
  Order.status order = AWAITING_PAYMENT ->
  linesExist db (Order.items order) ->
  let db' := snd (OrderByCode.POST now code db) in
  carts db' = carts db /\
  orders db'
  = map (fun o => if String.eqb (Order.id o) (Order.id order)
                  then Order.markPaid now o else o) (orders db) /\
  (forall pid,
     Forall (fun it => OrderItem.productId it <> pid) (Order.items order) ->
     products db' !! pid = products db !! pid) /\
  (Forall (fun it => 0 <= OrderItem.qty it) (Order.items order) ->
   forall pid s s',
     stockOf db pid = Some s -> stockOf db' pid = Some s' -> s' <= s).
Proof.
  intros Hf Hst Hl db'.
  destruct (POST_confirms now code db order Hf Hst Hl) as (ps & HP & Hps).
  unfold db'. rewrite HP. cbn [snd carts orders products].
  split; [reflexivity|]. split; [reflexivity|]. split.
  - intros pid Hnone. rewrite Hps, (orderedQty_none pid _ Hnone).
    destruct (products db !! pid); simpl; [now rewrite decrementStock_0 | reflexivity].
  - intros Hq pid s s'. unfold stockOf. cbn [products]. rewrite Hps.
    pose proof (orderedQty_nonneg pid _ Hq).
    destruct (products db !! pid) as [p|]; simpl; [|discriminate].
    intros [= <-] [= <-]. lia.
Qed.

Lemma confirmation_frame_witness :
  let db' := snd (OrderByCode.POST Fixture.later "ORD-20240117-001"
                    Scenario.afterFirst) in
  carts db' = carts Scenario.afterFirst /\
  stockOf Scenario.afterFirst "pA" = Some 3 /\
  stockOf db' "pA" = Some 0.
Proof.
  destruct (confirmation_frame Fixture.later "ORD-20240117-001"
              Scenario.afterFirst
              (Order.mk "0a1b2c3d-0000-4000-8000-000000000001"
                        "ORD-20240117-001" "001" DINE_IN AWAITING_PAYMENT
                        75000 0 0 75000 "u1" Fixture.today None
                        [OrderItem.mk "pA" 3 25000 75000]))
    as (Hc & _).
  - vm_compute. reflexivity.
  - reflexivity.
  - repeat constructor. vm_compute. eauto.
  - cbv zeta. split; [exact Hc|]. split; vm_compute; reflexivity.
Defined.

(** ** Adding to the cart *)

Section CartAdd.

Variable isUuid : string -> bool.
Variable ids : CartApi.Ids.

Lemma addToCartSchema_Some (raw : CartApi.RawBody) (pid : string) (q : Z) :
  CartApi.addToCartSchema isUuid raw = Some (pid, q) <->
  CartApi.raw_productId raw = Some pid /\ isUuid pid = true /\
  CartApi.raw_qty raw = CartApi.IntegerValue q /\ 1 <= q <= 999.
Proof.
  unfold CartApi.addToCartSchema.
  destruct (CartApi.raw_productId raw) as [p|];
    [|split; [discriminate | intros ([=] & _)]].
  destruct (CartApi.raw_qty raw) as [z|];
    [|split; [discriminate | intros (_ & _ & [=] & _)]].
  destruct (isUuid p) eqn:Hu; cbn [andb].
  - destruct (Z.ltb_spec 0 z); destruct (Z.leb_spec z 999); cbn [andb];
      split; try discriminate;
      try (intros [= <- <-]; repeat split; (assumption || lia));
      intros ([= <-] & _ & [= <-] & ?); (reflexivity || lia).
  - split; [discriminate|]. intros ([= <-] & Hq & _). congruence.
Qed.

(** The handler, when it accepts. *)
Lemma POST_accepted (user : option string) (raw : CartApi.RawBody) (db : DB)
    (uid pid : string) (q : Z) :
  addAccepted isUuid user raw db uid pid q ->
  CartApi.POST isUuid ids user raw db
  = let '(_, db1) := CartApi.ensureCart ids uid db in
    match CartApi.cartItem_findFirst db1 uid pid with
    | Some existing =>
        (json OkBody,
         CartApi.cartItem_update (CartItem.id existing)
                                 (CartItem.qty existing + q) db1)
    | None =>
        (json OkBody,
         CartApi.cartItem_create uid
           (CartItem.mk (CartApi.newItemId ids) pid q) db1)
    end.
Proof.
  intros (-> & Hp & Hu & Hq & Hr & product & Hprod & Hact).
  unfold CartApi.POST.
  rewrite (proj2 (addToCartSchema_Some raw pid q)) by auto.
  now rewrite Hprod, Hact.
Qed.

(** The handler answers { ok: true } only when it accepts, and a refused
    request leaves the store as it was. *)
Lemma POST_refused (user : option string) (raw : CartApi.RawBody) (db : DB) :
  (exists uid pid q, addAccepted isUuid user raw db uid pid q) \/
  (status (fst (CartApi.POST isUuid ids user raw db)) <> 200%nat /\
   snd (CartApi.POST isUuid ids user raw db) = db).
Proof.
  unfold CartApi.POST.
  destruct user as [uid|]; [|right; split; [discriminate | reflexivity]].
  destruct (CartApi.addToCartSchema isUuid raw) as [[pid q]|] eqn:Hs;
    [|right; split; [discriminate | reflexivity]].
  apply addToCartSchema_Some in Hs as (Hp & Hu & Hq & Hr).
  destruct (products db !! pid) as [product|] eqn:Hprod;
    [|right; split; [discriminate | reflexivity]].
  destruct (Product.isActive product) eqn:Hact;
    [|right; split; [discriminate | reflexivity]].
  left. exists uid, pid, q. unfold addAccepted. eauto 10.
Qed.

Lemma find_map_item (P : CartItem.t -> bool) (g : CartItem.t -> CartItem.t)
    (l : list CartItem.t) :
  (forall it, P (g it) = P it) -> List.find P (map g l) = g <$> List.find P l.
Proof.
  intros HP. induction l as [|it l IH]; simpl; [reflexivity|].
  rewrite HP. destruct (P it); [reflexivity | exact IH].
Qed.

Lemma map_productId_update (id : string) (q : Z) (l : list CartItem.t) :
  map CartItem.productId
      (map (fun it => if String.eqb (CartItem.id it) id
                      then CartApi.setQty q it else it) l)
  = map CartItem.productId l.
Proof.
  induction l as [|it l IH]; simpl; [reflexivity|].
  rewrite IH. now destruct (String.eqb (CartItem.id it) id).
Qed.

Lemma find_None_productIds (pid : string) (l : list CartItem.t) :
  List.find (fun it => String.eqb (CartItem.productId it) pid) l = None ->
  pid ∉ map CartItem.productId l.
Proof.
  intros Hf Hin. apply list_elem_of_In, in_map_iff in Hin as (it & Hp & Hin).
  apply (find_none _ _ Hf) in Hin. simpl in Hin.
  rewrite Hp, String.eqb_refl in Hin. discriminate.
Qed.

End CartAdd.

(** X15.  POST /api/cart answers { ok: true } exactly when the caller is
    authenticated, the body carries a uuid product id and an integer
    quantity from 1 to 999, and the product exists and is active (its
    stock is not looked at); in every other case the store is left as it
    was -- no cart is created for a refused request. *)
Theorem add_to_cart_accepts_iff (isUuid : string -> bool) (ids : CartApi.Ids)
    (user : option string) (raw : CartApi.RawBody) (db : DB) :
  (fst (CartApi.POST isUuid ids user raw db) = json OkBody <->
   exists uid pid q, addAccepted isUuid user raw db uid pid q) /\
  (fst (CartApi.POST isUuid ids user raw db) <> json OkBody ->
   snd (CartApi.POST isUuid ids user raw db) = db).
Proof.
  assert (Hacc : (exists uid pid q, addAccepted isUuid user raw db uid pid q) ->
                 fst (CartApi.POST isUuid ids user raw db) = json OkBody).
  { intros (uid & pid & q & H). rewrite (POST_accepted _ ids _ _ _ _ _ _ H).
    destruct (CartApi.ensureCart ids uid db) as [cid db1].
    now destruct (CartApi.cartItem_findFirst db1 uid pid). }
  destruct (POST_refused isUuid ids user raw db) as [H|[Hst Hdb]].
  - split; [split; auto|]. intros Hne. now apply Hacc in H.
  - split; [split; [|exact Hacc] | auto].
    intros Hok. rewrite Hok in Hst. now destruct Hst.
Qed.

(** X16.  An accepted add merges into the cart: afterwards the caller has
    a cart whose first line for the product asks for the quantity it asked
    for before (0 when there was no such line, or no cart) plus the added
    one -- the sum is not capped at 999 -- and the cart's lines are for the
    same products in the same order, with the product appended when it is
    new.  Products and orders are untouched. *)
Theorem add_to_cart_merges (isUuid : string -> bool) (ids : CartApi.Ids)
    (user : option string) (raw : CartApi.RawBody) (db : DB)
    (uid pid : string) (q : Z) :
  addAccepted isUuid user raw db uid pid q ->
  let db' := snd (CartApi.POST isUuid ids user raw db) in
  let oldItems :=
    match carts db !! uid with Some c => Cart.items c | None => [] end in
  let old := CartApi.cartItem_findFirst db uid pid in
  products db' = products db /\
  orders db' = orders db /\
  exists cart' line,
    carts db' !! uid = Some cart' /\
    CartApi.cartItem_findFirst db' uid pid = Some line /\
    CartItem.productId line = pid /\
    CartItem.qty line
    = match old with Some e => CartItem.qty e | None => 0 end + q /\
    map CartItem.productId (Cart.items cart')
    = match old with
      | Some _ => map CartItem.productId oldItems
      | None => (map CartItem.productId oldItems ++ [pid])%list
      end.
Proof.
  intros Hacc db' oldItems old. unfold db'.
  rewrite (POST_accepted isUuid ids _ _ _ _ _ _ Hacc).
  unfold old, oldItems, CartApi.cartItem_findFirst, CartApi.ensureCart.
  destruct (carts db !! uid) as [c|] eqn:Hc.
  - rewrite Hc.
    destruct (List.find _ (Cart.items c)) as [e|] eqn:Hfind.
    + cbn [snd]. split; [reflexivity|]. split; [reflexivity|].
      unfold CartApi.cartItem_update. cbn [carts setCarts].
      rewrite lookup_fmap, Hc. cbn [fmap option_fmap option_map].
      eexists. eexists. split; [reflexivity|]. cbn [Cart.items].
      rewrite find_map_item
        by (intros it; now destruct (String.eqb (CartItem.id it) (CartItem.id e))).
      rewrite Hfind. cbn [fmap option_fmap option_map].
      rewrite String.eqb_refl.
      split; [reflexivity|].
      apply find_some in Hfind as [_ He]. apply String.eqb_eq in He.
      split; [exact He|]. split; [reflexivity|].
      apply map_productId_update.
    + cbn [snd]. split; [reflexivity|]. split; [reflexivity|].
      unfold CartApi.cartItem_create. cbn [carts setCarts].
      rewrite lookup_alter, decide_True by reflexivity. rewrite Hc.
      cbn [fmap option_fmap option_map].
      eexists. eexists. split; [reflexivity|]. cbn [Cart.items].
      rewrite (find_app_None _ _ _ Hfind). cbn [List.find CartItem.productId].
      rewrite String.eqb_refl.
      split; [reflexivity|]. split; [reflexivity|]. split; [cbn; lia|].
      now rewrite map_app.
  - cbn [carts setCarts]. rewrite lookup_insert_eq. cbn [Cart.items List.find snd].
    split; [reflexivity|]. split; [reflexivity|].
    unfold CartApi.cartItem_create. cbn [carts setCarts].
    rewrite lookup_alter, decide_True by reflexivity. rewrite lookup_insert_eq.
    cbn [fmap option_fmap option_map].
    eexists. eexists. split; [reflexivity|].
    cbn [Cart.items app List.find CartItem.productId].
    rewrite String.eqb_refl.
    split; [reflexivity|]. split; [reflexivity|]. split; [cbn; lia | reflexivity].
Qed.

Lemma add_to_cart_merges_witness :
  let db' := snd (CartApi.POST CartScenario.isUuid CartScenario.ids (Some "u1")
                    (CartScenario.add CartScenario.nasi 999) CartScenario.shop) in
  CartApi.cartItem_findFirst db' "u1" CartScenario.nasi
  = Some (CartItem.mk "i1" CartScenario.nasi 1001) /\
  exists cart',
    carts db' !! "u1" = Some cart' /\
    map CartItem.productId (Cart.items cart') = [CartScenario.nasi].
Proof.
  destruct (add_to_cart_merges CartScenario.isUuid CartScenario.ids (Some "u1")
              (CartScenario.add CartScenario.nasi 999) CartScenario.shop
              "u1" CartScenario.nasi 999)
    as (_ & _ & cart' & line & Hcart & Hfind & _ & _ & Hids).
  - unfold addAccepted. repeat split; try reflexivity; try lia.
    eexists. split; reflexivity.
  - cbv zeta. split; [vm_compute; reflexivity|].
    exists cart'. split; [exact Hcart | exact Hids].
Defined.

Lemma add_to_cart_accepts_iff_witness :
  fst (CartApi.POST CartScenario.isUuid CartScenario.ids (Some "u1")
         (CartScenario.add CartScenario.nasi 1) CartScenario.shop)
  = json OkBody /\
  CartApi.POST CartScenario.isUuid CartScenario.ids (Some "u1")
    (CartScenario.add CartScenario.teh 1) CartScenario.shop
  = (mkResponse 409 (PlainText "Product not available"), CartScenario.shop) /\
  snd (CartApi.POST CartScenario.isUuid CartScenario.ids (Some "u1")
         (CartScenario.add CartScenario.nasi 1000) CartScenario.shop)
  = CartScenario.shop.
Proof.
  split; [|split].
  - apply (add_to_cart_accepts_iff CartScenario.isUuid CartScenario.ids
             (Some "u1") (CartScenario.add CartScenario.nasi 1)
             CartScenario.shop).
    exists "u1", CartScenario.nasi, 1. unfold addAccepted.
    repeat split; try reflexivity; try lia. eexists. split; reflexivity.
  - reflexivity.
  - apply (add_to_cart_accepts_iff CartScenario.isUuid CartScenario.ids
             (Some "u1") (CartScenario.add CartScenario.nasi 1000)
             CartScenario.shop).
    vm_compute. discriminate.
Defined.

(** ** Quantities and lines stay well formed *)

Section WellFormed.

Lemma joined_columns (db : DB) (cartItems : list CartItem.t)
    (lines : list Prisma.Line) :
  mapM (Prisma.joinProduct db) cartItems = Some lines ->
  map Prisma.productId lines = map CartItem.productId cartItems /\
  map Prisma.qty lines = map CartItem.qty cartItems.
Proof.
  intros H. apply mapM_Some_1 in H.
  induction H as [|ci it cis its Hj _ [IHp IHq]]; [split; reflexivity|].
  unfold Prisma.joinProduct in Hj.
  destruct (products db !! CartItem.productId ci); [|discriminate].
  simpl in Hj. injection Hj as <-. simpl. now rewrite IHp, IHq.
Qed.

Lemma orderOf_linesOk (env : Env) (p : Checkout.Prepared) (qn : string)
    (req : Checkout.Request) (db : DB) :
  oneLinePerProduct db -> quantitiesPositive db ->
  Checkout.prepare req db = inr p ->
  orderLinesOk (orderOf env p qn).
Proof.
  intros H1 Hq Hp. apply prepare_inr in Hp as (_ & _ & _ & Hcart & _).
  unfold Prisma.cart_findUnique in Hcart.
  destruct (carts db !! Checkout.customerId p) as [cart|] eqn:Hc; [|discriminate].
  injection Hcart as Hjoin. apply joined_columns in Hjoin as [Hids Hqs].
  unfold orderLinesOk. cbn [orderOf Order.items]. split.
  - rewrite map_map. cbn [Checkout.orderItemOf OrderItem.productId].
    change (map (fun x => Prisma.productId x) (Checkout.items p))
      with (map Prisma.productId (Checkout.items p)).
    rewrite Hids. exact (H1 _ _ Hc).
  - apply Forall_map. cbn [Checkout.orderItemOf OrderItem.qty].
    specialize (Hq _ _ Hc).
    apply (Forall_map CartItem.qty (fun z => 1 <= z)) in Hq.
    rewrite <- Hqs in Hq.
    now apply (Forall_map Prisma.qty (fun z => 1 <= z)) in Hq.
Qed.

Lemma wellFormed_checkout (env : Env) (req : Checkout.Request) (db : DB) :
  wellFormed db -> wellFormed (snd (Checkout.POST env req db)).
Proof.
  intros (H1 & Hq & Ho).
  destruct (POST_store env req db) as [->|(p & Hp & ->)]; [now repeat split|].
  cbn [snd]. split; [|split].
  - intros u cart Hu. cbn [carts] in Hu.
    apply lookup_delete_Some in Hu as [_ Hu]. exact (H1 _ _ Hu).
  - intros u cart Hu. cbn [carts] in Hu.
    apply lookup_delete_Some in Hu as [_ Hu]. exact (Hq _ _ Hu).
  - cbn [orders]. apply Forall_app. split; [exact Ho|].
    constructor; [|constructor]. exact (orderOf_linesOk env p _ req db H1 Hq Hp).
Qed.

Lemma wellFormed_confirm (now : Date.t) (code : string) (db : DB) :
  wellFormed db -> wellFormed (snd (OrderByCode.POST now code db)).
Proof.
  intros (H1 & Hq & Ho).
  destruct (confirm_orders now code db) as (f & Hf & Hord & Hcarts & _).
  split; [|split].
  - intros u cart. rewrite Hcarts. apply H1.
  - intros u cart. rewrite Hcarts. apply Hq.
  - rewrite Hord. apply Forall_map. eapply Forall_impl; [exact Ho|].
    intros o Hok. unfold orderLinesOk in *. cbv beta.
    destruct (Hf o) as (_ & _ & _ & _ & _ & _ & _ & _ & _ & _ & Hitems & _).
    now rewrite Hitems.
Qed.

Lemma wellFormed_delete (user : option string) (db : DB) :
  wellFormed db -> wellFormed (snd (CartRoute.DELETE user db)).
Proof.
  intros (H1 & Hq & Ho). destruct user as [uid|]; [|now repeat split].
  cbn [CartRoute.DELETE snd]. unfold Prisma.cart_delete.
  destruct (carts db !! uid) eqn:Hc; [|now repeat split].
  split; [|split; [|exact Ho]]; intros u cart Hu; cbn [carts setCarts] in Hu;
    apply lookup_delete_Some in Hu as [_ Hu]; eauto.
Qed.

Lemma wellFormed_add (isUuid : string -> bool) (ids : CartApi.Ids)
    (user : option string) (raw : CartApi.RawBody) (db : DB) :
  wellFormed db -> wellFormed (snd (CartApi.POST isUuid ids user raw db)).
Proof.
  intros (H1 & Hq & Ho).
  destruct (POST_refused isUuid ids user raw db)
    as [(uid & pid & q & Hacc)|[_ ->]]; [|now repeat split].
  rewrite (POST_accepted isUuid ids _ _ _ _ _ _ Hacc).
  destruct Hacc as (_ & _ & _ & _ & Hrange & _).
  unfold CartApi.ensureCart, CartApi.cartItem_findFirst.
  destruct (carts db !! uid) as [c|] eqn:Hc.
  - rewrite Hc.
    destruct (List.find _ (Cart.items c)) as [e|] eqn:Hfind; cbn [snd].
    + assert (He : 1 <= CartItem.qty e).
      { apply find_some in Hfind as [Hin _].
        specialize (Hq _ _ Hc). rewrite Forall_forall in Hq.
        apply Hq. now apply list_elem_of_In. }
      unfold CartApi.cartItem_update.
      split; [|split; [|exact Ho]]; intros u cart Hu; cbn [carts setCarts] in Hu;
        rewrite lookup_fmap in Hu;
        destruct (carts db !! u) as [c0|] eqn:Hc0; [|discriminate| |discriminate];
        cbn in Hu; injection Hu as <-; cbn [Cart.items].
      * rewrite map_productId_update. exact (H1 _ _ Hc0).
      * apply Forall_map. eapply Forall_impl; [exact (Hq _ _ Hc0)|].
        intros it Hit. cbv beta in Hit |- *.
        destruct (String.eqb (CartItem.id it) (CartItem.id e)); cbn; lia.
    + unfold CartApi.cartItem_create.
      split; [|split; [|exact Ho]]; intros u cart Hu; cbn [carts setCarts] in Hu;
        rewrite lookup_alter in Hu; case_decide as Hd;
        try (subst u; rewrite Hc in Hu; cbn in Hu; injection Hu as <-;
             cbn [Cart.items]); eauto.
      * rewrite map_app. cbn [map CartItem.productId].
        apply NoDup_app. split; [exact (H1 _ _ Hc)|].
        split; [|apply NoDup_singleton].
        intros x Hx Hx'. apply list_elem_of_singleton in Hx'. subst x.
        now apply (find_None_productIds pid (Cart.items c)).
      * apply Forall_app. split; [exact (Hq _ _ Hc)|].
        constructor; [cbn; lia | constructor].
  - cbn [carts setCarts]. rewrite lookup_insert_eq.
    cbn [Cart.items List.find snd]. unfold CartApi.cartItem_create.
    split; [|split; [|exact Ho]]; intros u cart Hu; cbn [carts setCarts] in Hu;
      rewrite lookup_alter in Hu; case_decide as Hd;
      try (subst u; rewrite lookup_insert_eq in Hu; cbn in Hu;
           injection Hu as <-; cbn [Cart.items app map CartItem.productId]);
      try (rewrite lookup_insert_ne in Hu by exact Hd; eauto).
    + apply NoDup_singleton.
    + constructor; [cbn; lia | constructor].
Qed.

End WellFormed.

(** X17.  Well-formed lines are kept by every handler that writes the
    store: if every cart has at most one line per product and asks for at
    least one piece on every line, and every order has at most one line
    per product and at least one piece on every line, then the same holds
    after POST /api/cart, DELETE /api/cart, POST /checkout and
    POST /orders/{code}. *)
Theorem well_formed_kept (isUuid : string -> bool) (ids : CartApi.Ids)
    (env : Env) (user : option string) (raw : CartApi.RawBody)
    (req : Checkout.Request) (now' : Date.t) (code : string) (db : DB) :
  wellFormed db ->
  wellFormed (snd (CartApi.POST isUuid ids user raw db)) /\
  wellFormed (snd (CartRoute.DELETE user db)) /\
  wellFormed (snd (Checkout.POST env req db)) /\
  wellFormed (snd (OrderByCode.POST now' code db)).
Proof.
  intros H. split; [now apply wellFormed_add|].
  split; [now apply wellFormed_delete|].
  split; [now apply wellFormed_checkout | now apply wellFormed_confirm].
Qed.

Lemma wellFormed_shop : wellFormed CartScenario.shop.
Proof.
  assert (Hcart : forall uid cart,
            carts CartScenario.shop !! uid = Some cart ->
            cart = Cart.mk "c1" [CartItem.mk "i1" CartScenario.nasi 2]).
  { intros uid cart. unfold CartScenario.shop. cbn [carts].
    rewrite lookup_insert. case_decide; [congruence|].
    rewrite lookup_empty. discriminate. }
  split; [|split].
  - intros uid cart H. rewrite (Hcart _ _ H). cbn.
    apply NoDup_singleton.
  - intros uid cart H. rewrite (Hcart _ _ H). cbn.
    constructor; [cbn; lia | constructor].
  - constructor.
Qed.

Lemma well_formed_kept_witness :
  wellFormed
    (snd (CartApi.POST CartScenario.isUuid CartScenario.ids (Some "u1")
            (CartScenario.add CartScenario.nasi 999) CartScenario.shop)) /\
  wellFormed
    (snd (Checkout.POST Fixture.env1 (Fixture.request "u1" "CASH")
            CartScenario.shop)).
Proof.
  destruct (well_formed_kept CartScenario.isUuid CartScenario.ids Fixture.env1
              (Some "u1") (CartScenario.add CartScenario.nasi 999)
              (Fixture.request "u1" "CASH") Fixture.later "ORD-20240117-001"
              CartScenario.shop wellFormed_shop) as (Ha & _ & Hc & _).
  split; [exact Ha | exact Hc].
Defined.

Section StockMonotone.

Lemma decrementAll_exist (items : list OrderItem.t) : forall db db',
  OrderByCode.decrementAll items db = Some db' -> linesExist db items.
Proof.
  induction items as [|it rest IH]; intros db db' H; [constructor|].
  cbn [OrderByCode.decrementAll] in H. unfold Prisma.product_decrement in H.
  destruct (products db !! OrderItem.productId it) as [p|] eqn:Hp;
    [|discriminate].
  cbn [mbind option_bind] in H. apply IH in H.
  constructor; [eauto|].
  eapply Forall_impl; [exact H|]. intros it' Hit. cbv beta in Hit |- *.
  cbn [products setProducts] in Hit. rewrite lookup_insert in Hit.
  case_decide as Hd; [|exact Hit]. rewrite <- Hd. eauto.
Qed.

Lemma stockNotRaised_same (db db' : DB) :
  products db' = products db -> stockNotRaised db db'.
Proof.
  intros H pid s s'. unfold stockOf. rewrite H. intros -> [= ->]. lia.
Qed.

Lemma stockNotRaised_confirm (now : Date.t) (code : string) (db : DB) :
  Forall orderLinesOk (orders db) ->
  stockNotRaised db (snd (OrderByCode.POST now code db)).
Proof.
  intros Ho. unfold OrderByCode.POST, OrderByCode.findOrder.
  destruct (Prisma.order_findUnique db code) as [order|] eqn:Hf;
    [|now apply stockNotRaised_same].
  destruct (Order.status order); [|now apply stockNotRaised_same].
  unfold OrderByCode.afterRead, OrderByCode.transaction.
  destruct (OrderByCode.decrementAll (Order.items order) db) as [db1|] eqn:Hd;
    [|now apply stockNotRaised_same].
  cbn [mbind option_bind]. unfold Prisma.order_update.
  destruct (existsb _ (orders db1)); [|now apply stockNotRaised_same].
  cbn [snd].
  destruct (decrementAll_spec _ _ (decrementAll_exist _ _ _ Hd)) as (ps & Hrun & Hps).
  rewrite Hrun in Hd. injection Hd as <-.
  unfold Prisma.order_findUnique in Hf. apply find_some in Hf as [Hin _].
  rewrite Forall_forall in Ho.
  destruct (Ho order (proj2 (list_elem_of_In _ _) Hin)) as [_ Hq].
  assert (Hq0 : Forall (fun it => 0 <= OrderItem.qty it) (Order.items order)).
  { eapply Forall_impl; [exact Hq|]. intros it Hit. cbv beta in Hit |- *. lia. }
  intros pid s s'. unfold stockOf. cbn [products setOrders setProducts].
  rewrite Hps. pose proof (orderedQty_nonneg pid _ Hq0).
  destruct (products db !! pid) as [p|]; simpl; [|discriminate].
  intros [= <-] [= <-]. lia.
Qed.

End StockMonotone.

(** X18.  On a well-formed store no handler raises a stock: POST
    /api/cart, DELETE /api/cart and POST /checkout leave the product
    table as it is, and POST /orders/{code} only takes from it. *)
Theorem stock_never_raised (isUuid : string -> bool) (ids : CartApi.Ids)
    (env : Env) (user : option string) (raw : CartApi.RawBody)
    (req : Checkout.Request) (now' : Date.t) (code : string) (db : DB) :
  wellFormed db ->
  products (snd (CartApi.POST isUuid ids user raw db)) = products db /\
  products (snd (CartRoute.DELETE user db)) = products db /\
  products (snd (Checkout.POST env req db)) = products db /\
  stockNotRaised db (snd (OrderByCode.POST now' code db)).
Proof.
  intros (_ & _ & Ho). split; [|split; [|split]].
  - destruct (POST_refused isUuid ids user raw db)
      as [(uid & pid & q & Hacc)|[_ ->]]; [|reflexivity].
    rewrite (POST_accepted isUuid ids _ _ _ _ _ _ Hacc).
    destruct (CartApi.ensureCart ids uid db) as [cid db1] eqn:He.
    assert (products db1 = products db) as <-.
    { unfold CartApi.ensureCart in He.
      destruct (carts db !! uid); injection He as _ <-; reflexivity. }
    now destruct (CartApi.cartItem_findFirst db1 uid pid).
  - destruct user as [uid|]; [|reflexivity].
    cbn [CartRoute.DELETE snd]. unfold Prisma.cart_delete.
    now destruct (carts db !! uid).
  - now destruct (POST_store env req db) as [->|(p & _ & ->)].
  - now apply stockNotRaised_confirm.
Qed.

Lemma stock_never_raised_witness :
  stockNotRaised CartScenario.shop
    (snd (OrderByCode.POST Fixture.later "ORD-20240117-001" CartScenario.shop))
  /\ products
       (snd (CartApi.POST CartScenario.isUuid CartScenario.ids (Some "u1")
               (CartScenario.add CartScenario.nasi 999) CartScenario.shop))
     = products CartScenario.shop.
Proof.
  destruct (stock_never_raised CartScenario.isUuid CartScenario.ids Fixture.env1
              (Some "u1") (CartScenario.add CartScenario.nasi 999)
              (Fixture.request "u1" "CASH") Fixture.later "ORD-20240117-001"
              CartScenario.shop wellFormed_shop) as (Ha & _ & _ & Hc).
  split; [exact Hc | exact Ha].
Defined.

(** ** What the views show *)

Section Views.

Lemma joinProduct_setPrice (pid : string) (v : Z) (db : DB) (it : CartItem.t) :
  Prisma.joinProduct (Catalog.setPrice pid v db) it
  = (fun line =>
       if String.eqb (Prisma.productId line) pid
       then Prisma.mkLine (Prisma.qty line) (Prisma.productId line)
                          (Product.withPrice v (Prisma.product line))
       else line)
    <$> Prisma.joinProduct db it.
Proof.
  unfold Prisma.joinProduct, Catalog.setPrice. cbn [products setProducts].
  rewrite lookup_alter.
  destruct (String.eqb_spec (CartItem.productId it) pid) as [He|Hne].
  - rewrite decide_True by congruence. rewrite He.
    destruct (products db !! pid) as [p|]; [|reflexivity]. cbn.
    now rewrite String.eqb_refl.
  - rewrite decide_False by congruence.
    destruct (products db !! CartItem.productId it) as [p|]; [|reflexivity]. cbn.
    apply String.eqb_neq in Hne. now rewrite Hne.
Qed.

Lemma join_setPrice (pid : string) (v : Z) (db : DB) (l : list CartItem.t) :
  mapM (Prisma.joinProduct (Catalog.setPrice pid v db)) l
  = map (fun line =>
           if String.eqb (Prisma.productId line) pid
           then Prisma.mkLine (Prisma.qty line) (Prisma.productId line)
                              (Product.withPrice v (Prisma.product line))
           else line)
      <$> mapM (Prisma.joinProduct db) l.
Proof.
  induction l as [|it l IH]; [reflexivity|].
  simpl. rewrite joinProduct_setPrice.
  destruct (Prisma.joinProduct db it) as [line|]; [|reflexivity]. cbn.
  rewrite IH.
  now destruct (mapM (Prisma.joinProduct db) l).
Qed.

Lemma lineView_repriced (pid : string) (v : Z) (line : Prisma.Line) :
  CartApi.lineView
    (if String.eqb (Prisma.productId line) pid
     then Prisma.mkLine (Prisma.qty line) (Prisma.productId line)
                        (Product.withPrice v (Prisma.product line))
     else line)
  = repriced pid v (CartApi.lineView line).
Proof.
  unfold repriced, CartApi.lineView. cbn [CartApi.v_id].
  now destruct (String.eqb (Prisma.productId line) pid).
Qed.

End Views.

(** X19.  The cart view is live.  Without a cart GET /api/cart answers an
    empty list and a null timestamp; with one, it lists the lines in cart
    order, each with its quantity and with the name, price, stock and
    active flag that the product row has now -- so, unlike an order, the
    view follows an edit of the catalog price. *)
Theorem cart_view_is_live (uid : string) (db : DB) :
  (carts db !! uid = None ->
   CartApi.GET (Some uid) db = CartApi.ViewJson [] CartApi.StampNull) /\
  (forall cart,
     carts db !! uid = Some cart ->
     Forall (fun it => is_Some (products db !! CartItem.productId it))
            (Cart.items cart) ->
     exists views,
       CartApi.GET (Some uid) db
       = CartApi.ViewJson views (CartApi.StampOfCart (Cart.id cart)) /\
       Forall2 (fun it e =>
                  CartApi.v_id e = CartItem.productId it /\
                  CartApi.v_quantity e = CartItem.qty it /\
                  exists p,
                    products db !! CartItem.productId it = Some p /\
                    CartApi.v_name e = Product.name p /\
                    CartApi.v_price e = Product.price p /\
                    CartApi.v_stock e = Product.stock p /\
                    CartApi.v_isActive e = Product.isActive p)
               (Cart.items cart) views) /\
  (forall views stamp pid v,
     CartApi.GET (Some uid) db = CartApi.ViewJson views stamp ->
     CartApi.GET (Some uid) (Catalog.setPrice pid v db)
     = CartApi.ViewJson (map (repriced pid v) views) stamp).
Proof.
  split; [|split].
  - intros Hc. unfold CartApi.GET. now rewrite Hc.
  - intros cart Hc Hrows. unfold CartApi.GET. rewrite Hc.
    destruct (mapM (Prisma.joinProduct db) (Cart.items cart)) as [lines|] eqn:Hj.
    + eexists. split; [reflexivity|].
      apply mapM_Some_1 in Hj. clear -Hj.
      induction Hj as [|it line its lines Hjoin _ IH]; constructor; [|exact IH].
      unfold Prisma.joinProduct in Hjoin.
      destruct (products db !! CartItem.productId it) as [p|]; [|discriminate].
      cbn in Hjoin. injection Hjoin as <-. cbn. eauto 10.
    + exfalso. apply mapM_None_1 in Hj. apply Exists_exists in Hj as (it & Hin & Hn).
      rewrite Forall_forall in Hrows. destruct (Hrows it Hin) as [p Hp].
      unfold Prisma.joinProduct in Hn. rewrite Hp in Hn. discriminate.
  - intros views stamp pid v. unfold CartApi.GET.
    change (carts (Catalog.setPrice pid v db)) with (carts db).
    destruct (carts db !! uid) as [cart|]; [|intros [= <- <-]; reflexivity].
    rewrite join_setPrice.
    destruct (mapM (Prisma.joinProduct db) (Cart.items cart)) as [lines|];
      [|discriminate].
    intros [= <- <-]. cbn. f_equal. rewrite !map_map.
    apply map_ext. intros line. apply lineView_repriced.
Qed.

Lemma cart_view_is_live_witness :
  CartApi.GET (Some "u1") CartScenario.shop
  = CartApi.ViewJson
      [CartApi.mkLineView CartScenario.nasi "Nasi Goreng" 25000 "" MAIN true 3 2]
      (CartApi.StampOfCart "c1") /\
  CartApi.GET (Some "u1") (Catalog.setPrice CartScenario.nasi 30000 CartScenario.shop)
  = CartApi.ViewJson
      [CartApi.mkLineView CartScenario.nasi "Nasi Goreng" 30000 "" MAIN true 3 2]
      (CartApi.StampOfCart "c1") /\
  CartApi.GET (Some "u7") CartScenario.shop
  = CartApi.ViewJson [] CartApi.StampNull.
Proof.
  destruct (cart_view_is_live "u1" CartScenario.shop) as (_ & _ & Hprice).
  destruct (cart_view_is_live "u7" CartScenario.shop) as (Hnone & _).
  split; [reflexivity|]. split.
  - rewrite (Hprice _ _ CartScenario.nasi 30000 eq_refl). reflexivity.
  - apply Hnone. reflexivity.
Defined.

(** X20.  GET /orders/{code} only answers with an order of the caller: an
    answer with an order detail comes from a stored order with that code
    owned by the caller, and when every order with the code belongs to
    someone else the answer is 404 "Not found", as if the code did not
    exist. *)
Theorem order_detail_is_owners (uid code : string) (db : DB) :
  JS.truthy (Some uid) = true ->
  (Forall (fun o => Order.code o = code -> Order.customerId o <> uid)
          (orders db) ->
   OrderByCode.GET (Some uid) code db = OrderByCode.notFound) /\
  (forall c st total items,
     OrderByCode.GET (Some uid) code db = json (OrderDetail c st total items) ->
     exists o,
       In o (orders db) /\ Order.code o = code /\ Order.customerId o = uid /\
       c = code /\ st = Order.status o /\ total = Order.total o /\
       length items = length (Order.items o)).
Proof.
  intros Hu. unfold OrderByCode.GET. rewrite Hu. cbn [negb]. split.
  - intros Hall.
    destruct (Prisma.order_findFirst db code uid) as [o|] eqn:Hf; [|reflexivity].
    exfalso. unfold Prisma.order_findFirst in Hf.
    apply find_some in Hf as [Hin Hm]. apply andb_true_iff in Hm as [Hc Hcu].
    apply String.eqb_eq in Hc, Hcu.
    rewrite Forall_forall in Hall.
    exact (Hall o (proj2 (list_elem_of_In _ _) Hin) Hc Hcu).
  - intros c st total items.
    destruct (Prisma.order_findFirst db code uid) as [o|] eqn:Hf; [|discriminate].
    destruct (mapM (OrderByCode.detailItem db) (Order.items o)) as [ds|] eqn:Hm;
      [|discriminate].
    intros [= <- <- <- <-]. unfold Prisma.order_findFirst in Hf.
    apply find_some in Hf as [Hin Hmatch].
    apply andb_true_iff in Hmatch as [Hc Hcu]. apply String.eqb_eq in Hc, Hcu.
    exists o. repeat split; auto. symmetry. now apply length_mapM in Hm.
Qed.

Lemma order_detail_is_owners_witness :
  OrderByCode.GET (Some "u2") "ORD-20240117-001" Fixture.db1
  = OrderByCode.notFound /\
  Prisma.order_findUnique Fixture.db1 "ORD-20240117-001" <> None.
Proof.
  split; [|vm_compute; discriminate].
  apply (order_detail_is_owners "u2" "ORD-20240117-001" Fixture.db1 eq_refl).
  repeat constructor. vm_compute. intros _. discriminate.
Defined.

(** ** Handlers one after the other *)

(** X21.  A checkout that has answered 200 cannot be repeated: the cart
    went with the commit, so the same request sent again answers 409
    "Keranjang kosong." and stores no second order. *)
Theorem checkout_twice (env env' : Env) (req : Checkout.Request) (db : DB) :
  status (fst (Checkout.POST env req db)) = 200%nat ->
  Checkout.POST env' req (snd (Checkout.POST env req db))
  = (jsonStatus (ErrorBody "Keranjang kosong.") 409,
     snd (Checkout.POST env req db)).
Proof.
  intros Hok.
  destruct (POST_store env req db) as [Hsame|(p & Hp & HP)].
  - exfalso. revert Hok Hsame. unfold Checkout.POST.
    destruct (Checkout.prepare req db) as [r|p] eqn:Hp.
    + intros Hok _. cbn in Hok. now apply prepare_inl_status in Hp.
    + unfold Checkout.afterCount.
      destruct (Checkout.transaction env p _ db) as [[o db']|] eqn:Ht;
        [|discriminate].
      intros _ Hsame. apply transaction_Some in Ht as (_ & -> & _).
      cbn in Hsame. apply (f_equal orders) in Hsame. cbn in Hsame.
      apply (f_equal length) in Hsame. rewrite length_app in Hsame.
      simpl in Hsame. lia.
  - rewrite HP. cbn [snd].
    apply prepare_inr in Hp as (Hu & Htr & Hb & _).
    unfold Checkout.POST, Checkout.prepare. rewrite Hu, Htr, Hb. cbn [negb].
    unfold Prisma.cart_findUnique. cbn [carts].
    now rewrite lookup_delete_eq.
Qed.

Lemma checkout_twice_witness :
  Checkout.POST Fixture.env2 (Fixture.request "u1" "CASH") Fixture.db1
  = (jsonStatus (ErrorBody "Keranjang kosong.") 409, Fixture.db1).
Proof.
  apply (checkout_twice Fixture.env1 Fixture.env2 (Fixture.request "u1" "CASH")
           Fixture.db0).
  vm_compute. reflexivity.
Defined.



(** X23.  The window of the day.  An instant lies between [startOfDay]
    and [endOfDay] of [now], bounds included, exactly when it falls on the
    same calendar day as [now]. *)
Theorem day_window (now d : Date.t) :
  Date.wf d ->
  Date.gte d (Checkout.startOfDay now) && Date.lte d (Checkout.endOfDay now)
  = sameDay d now.
Proof. exact (today_filter now d). Qed.

Lemma day_window_witness :
  Date.gte (Date.mk 2024 0 17 23 59 59 999) (Checkout.startOfDay Fixture.today)
  && Date.lte (Date.mk 2024 0 17 23 59 59 999) (Checkout.endOfDay Fixture.today)
  = true /\
  Date.gte (Date.mk 2024 0 18 0 0 0 0) (Checkout.startOfDay Fixture.today)
  && Date.lte (Date.mk 2024 0 18 0 0 0 0) (Checkout.endOfDay Fixture.today)
  = false.
Proof.
  split.
  - rewrite (day_window Fixture.today (Date.mk 2024 0 17 23 59 59 999));
      [reflexivity | unfold Date.wf; simpl; lia].
  - rewrite (day_window Fixture.today (Date.mk 2024 0 18 0 0 0 0));
      [reflexivity | unfold Date.wf; simpl; lia].
Defined.


